(** * JIRA_MCP: intent classification, parameter extraction, dispatch and
      conversation state

    A shallow embedding of [chatbot_core.py] (LocalLLM, IntentClassifier,
    ChatbotCore) and of the [MCPManager] handlers of [mcp_client.py],
    followed by the properties of the design document that concern them.

    Conventions of the embedding:
    - a Python [str] is a [string]; the text is ASCII, a character above 127
      is an opaque symbol without case that is neither a space nor a digit;
    - a Python exception is a value [Raise e] of the [result] type, and
      [try ... except Exception] is [try_except];
    - the calls a handler makes on [JiraMCPClient] are recorded in a trace,
      the answers come from an oracle;
    - a [float] score [k / n] is the rational [k # n]. *)

From Stdlib Require Import String Ascii List Bool Arith ZArith QArith Lia.
From Stdlib Require Import DecimalString.
Import ListNotations.

Local Open Scope string_scope.
Local Open Scope list_scope.
Local Open Scope nat_scope.

(** ** Python built-ins used by the program *)

Module Py.

(** Exceptions, by class, with the text [str(e)] gives. *)
Inductive exn_class : Type :=
| IndexError | KeyError | ValueError | TypeError | AttributeError
| ZeroDivisionError | RuntimeError.

Record exn : Type := Exn { exn_cls : exn_class; exn_msg : string }.

Inductive result (A : Type) : Type :=
| Ok (a : A)
| Raise (e : exn).
Arguments Ok {A} a.
Arguments Raise {A} e.

Definition bind {A B} (m : result A) (k : A -> result B) : result B :=
  match m with
  | Ok a => k a
  | Raise e => Raise e
  end.

(** [try: body except Exception as e: handler e] *)
Definition try_except {A} (body : result A) (handler : exn -> result A)
  : result A :=
  match body with
  | Ok a => Ok a
  | Raise e => handler e
  end.

(** *** Characters *)

Definition code (c : ascii) : nat := nat_of_ascii c.

Definition between (lo hi : nat) (c : ascii) : bool :=
  (lo <=? code c) && (code c <=? hi).

(** [str.isspace] on ASCII: TAB LF VT FF CR, FS GS RS US, and the space. *)
Definition isspace (c : ascii) : bool :=
  between 9 13 c || between 28 32 c.

Definition isdigit_char (c : ascii) : bool := between 48 57 c.
Definition isupper_char (c : ascii) : bool := between 65 90 c.
Definition islower_char (c : ascii) : bool := between 97 122 c.
Definition isalpha_char (c : ascii) : bool := isupper_char c || islower_char c.

Definition lower_char (c : ascii) : ascii :=
  if isupper_char c then ascii_of_nat (code c + 32) else c.

Definition upper_char (c : ascii) : ascii :=
  if islower_char c then ascii_of_nat (code c - 32) else c.

(** *** Strings *)

Fixpoint smap (f : ascii -> ascii) (s : string) : string :=
  match s with
  | EmptyString => EmptyString
  | String c s' => String (f c) (smap f s')
  end.

Fixpoint sexists (p : ascii -> bool) (s : string) : bool :=
  match s with
  | EmptyString => false
  | String c s' => p c || sexists p s'
  end.

Fixpoint sforall (p : ascii -> bool) (s : string) : bool :=
  match s with
  | EmptyString => true
  | String c s' => p c && sforall p s'
  end.

(** [s.lower()], [s.upper()] *)
Definition lower (s : string) : string := smap lower_char s.
Definition upper (s : string) : string := smap upper_char s.

(** Truth value of a string: [bool(s)]. *)
Definition truthy (s : string) : bool :=
  match s with EmptyString => false | String _ _ => true end.

(** [s.startswith(p)] *)
Definition startswith (s p : string) : bool := String.prefix p s.

Fixpoint srev_onto (s acc : string) : string :=
  match s with
  | EmptyString => acc
  | String c s' => srev_onto s' (String c acc)
  end.

Definition srev (s : string) : string := srev_onto s EmptyString.

(** [s.endswith(p)] *)
Definition endswith (s p : string) : bool := String.prefix (srev p) (srev s).

(** [sub in s] *)
Fixpoint contains (sub s : string) : bool :=
  String.prefix sub s ||
  match s with
  | EmptyString => false
  | String _ s' => contains sub s'
  end.

(** [s[n:]] *)
Fixpoint sdrop (n : nat) (s : string) : string :=
  match n, s with
  | O, _ => s
  | S n', EmptyString => EmptyString
  | S n', String _ s' => sdrop n' s'
  end.

Fixpoint lstrip (s : string) : string :=
  match s with
  | EmptyString => EmptyString
  | String c s' => if isspace c then lstrip s' else s
  end.

(** [s.strip()] *)
Definition strip (s : string) : string := srev (lstrip (srev (lstrip s))).

(** [s.split()]: the maximal runs of characters that are not spaces.
    [cur] is the run being read, last character first. *)
Fixpoint split_ws_from (s cur : string) : list string :=
  match s with
  | EmptyString =>
      if truthy cur then [srev cur] else []
  | String c s' =>
      if isspace c
      then (if truthy cur then srev cur :: split_ws_from s' EmptyString
            else split_ws_from s' EmptyString)
      else split_ws_from s' (String c cur)
  end.

Definition split (s : string) : list string := split_ws_from s EmptyString.

(** [s.split(sep)] for a separator that is not empty: the occurrences of
    [sep] are found from the left and do not overlap. [skip] counts the
    characters of the occurrence being passed over. *)
Fixpoint split_on_from (sep s : string) (skip : nat) (cur : string)
  : list string :=
  match s with
  | EmptyString => [srev cur]
  | String c s' =>
      match skip with
      | S k => split_on_from sep s' k cur
      | O =>
          if String.prefix sep s
          then srev cur :: split_on_from sep s' (String.length sep - 1) EmptyString
          else split_on_from sep s' 0 (String c cur)
      end
  end.

Definition split_on (sep s : string) : list string :=
  split_on_from sep s 0 EmptyString.

(** [sep.join(l)] *)
Definition join (sep : string) (l : list string) : string :=
  String.concat sep l.

(** [l[i]] *)
Definition index {A} (l : list A) (i : nat) : result A :=
  match nth_error l i with
  | Some a => Ok a
  | None => Raise (Exn IndexError "list index out of range")
  end.

(** [l[-n:]] for [n > 0] *)
Definition last_n {A} (n : nat) (l : list A) : list A :=
  skipn (List.length l - n) l.

(** [re.sub(p+, ' ', s)] for a class [p] of characters: every maximal run
    of characters of the class becomes one space. *)
Fixpoint collapse_runs (p : ascii -> bool) (in_run : bool) (s : string)
  : string :=
  match s with
  | EmptyString => EmptyString
  | String c s' =>
      if p c
      then (if in_run then collapse_runs p true s'
            else String " " (collapse_runs p true s'))
      else String c (collapse_runs p false s')
  end.

Definition is_newline (c : ascii) : bool := code c =? 10.

(** *** Numbers *)

(** [str(n)] for an integer. *)
Definition str_of_nat (n : nat) : string :=
  NilZero.string_of_uint (Nat.to_uint n).

Definition str_of_Z (z : Z) : string :=
  match z with
  | Z0 => "0"
  | Zpos p => str_of_nat (Pos.to_nat p)
  | Zneg p => ("-" ++ str_of_nat (Pos.to_nat p))%string
  end.

(** [s.isdigit()] for ASCII text, where the digits are 0 to 9. Python
    counts further characters as digits, all of them above code 127 (the
    superscripts, the digits of other scripts); a property that rests on
    this test is stated for ASCII text ([PyMore.is_ascii]). *)
Definition isdigit (s : string) : bool := truthy s && sforall isdigit_char s.

Definition digit_value (c : ascii) : Z := Z.of_nat (code c - 48).

(** Digits with single underscores between them, as [int] reads them.
    [prev_digit] tells whether the character before was a digit. *)
Fixpoint read_digits (s : string) (acc : Z) (prev_digit : bool) : option Z :=
  match s with
  | EmptyString => if prev_digit then Some acc else None
  | String c s' =>
      if isdigit_char c then read_digits s' (10 * acc + digit_value c) true
      else if (code c =? 95) && prev_digit
           then match s' with
                | EmptyString => None
                | String d _ =>
                    if isdigit_char d then read_digits s' acc false else None
                end
           else None
  end.

(** CPython's default limit on the digits [int] converts from text. *)
Definition int_max_str_digits : nat := 4300.

Fixpoint count_digits (s : string) : nat :=
  match s with
  | EmptyString => 0
  | String c s' => (if isdigit_char c then 1 else 0) + count_digits s'
  end.

(** [int(s)] for a token [s] (no spaces inside): [None] is [ValueError]. *)
Definition parse_int (s : string) : option Z :=
  if int_max_str_digits <? count_digits s then None
  else
    match s with
    | String "+" s' => read_digits s' 0 false
    | String "-" s' => option_map Z.opp (read_digits s' 0 false)
    | _ => read_digits s 0 false
    end.

(** *** Values of type [Any]: what JSON and the generator hand back *)

#[warnings="-register-all"]
Inductive pyval : Type :=
| PNone
| PBool (b : bool)
| PInt (z : Z)
| PStr (s : string)
| PList (l : list pyval)
| PDict (d : list (string * pyval)).

Definition pydict : Type := list (string * pyval).

(** [d.get(k)] *)
Fixpoint dict_find {V} (d : list (string * V)) (k : string) : option V :=
  match d with
  | [] => None
  | (k', v) :: d' => if String.eqb k' k then Some v else dict_find d' k
  end.

(** [d.get(k, default)] *)
Definition dict_get (d : pydict) (k : string) (default : pyval) : pyval :=
  match dict_find d k with
  | Some v => v
  | None => default
  end.

(** [d[k] = v], keeping the position of a key that is already there. *)
Fixpoint dict_set {V} (d : list (string * V)) (k : string) (v : V)
  : list (string * V) :=
  match d with
  | [] => [(k, v)]
  | (k', v') :: d' =>
      if String.eqb k' k then (k', v) :: d' else (k', v') :: dict_set d' k v
  end.

Definition char_at (s : string) (i : nat) : option string :=
  option_map (fun c => String c EmptyString) (String.get i s).

(** [v[i]] for an integer [i >= 0] *)
Definition subscript_int (v : pyval) (i : nat) : result pyval :=
  match v with
  | PList l => index l i
  | PStr s =>
      match char_at s i with
      | Some c => Ok (PStr c)
      | None => Raise (Exn IndexError "string index out of range")
      end
  | PDict _ => Raise (Exn KeyError (str_of_nat i))
  | _ => Raise (Exn TypeError "object is not subscriptable")
  end.

(** [v[k]] for a string [k] *)
Definition subscript_str (v : pyval) (k : string) : result pyval :=
  match v with
  | PDict d =>
      match dict_find d k with
      | Some x => Ok x
      | None => Raise (Exn KeyError k)
      end
  | PList _ => Raise (Exn TypeError "list indices must be integers or slices, not str")
  | PStr _ => Raise (Exn TypeError "string indices must be integers, not 'str'")
  | _ => Raise (Exn TypeError "object is not subscriptable")
  end.

(** The receiver of a [str] method: another value has no such attribute. *)
Definition as_str (v : pyval) : result string :=
  match v with
  | PStr s => Ok s
  | _ => Raise (Exn AttributeError "object has no attribute 'startswith'")
  end.

(** [len(v)] *)
Definition len (v : pyval) : result nat :=
  match v with
  | PStr s => Ok (String.length s)
  | PList l => Ok (List.length l)
  | PDict d => Ok (List.length d)
  | _ => Raise (Exn TypeError "object has no len()")
  end.

(** [max(l)]: the first of the greatest elements. *)
Definition max_Q (l : list Q) : result Q :=
  match l with
  | [] => Raise (Exn ValueError "max() arg is an empty sequence")
  | x :: l' =>
      Ok (fold_left (fun m y => if Qle_bool y m then m else y) l' x)
  end.

Definition is_nil {A} (l : list A) : bool :=
  match l with [] => true | _ :: _ => false end.

End Py.

Declare Scope py_scope.
Notation "x <- m ;; k" := (Py.bind m (fun x => k))
  (at level 61, m at next level, right associativity) : py_scope.

(** ** chatbot_core.py *)

Module Chatbot.
Import Py.
Local Open Scope py_scope.

Definition nl : string := String "010"%char EmptyString.

Record Metadata : Type := {
  intents : list (string * Q);
  has_external_context : bool
}.

Record ChatMessage : Type := {
  role : string;
  content : string;
  timestamp : string;
  metadata : option Metadata
}.

Record ChatResponse : Type := {
  message : string;
  confidence : Q;
  sources : list string;
  response_metadata : option Metadata
}.

(** *** LocalLLM *)

Definition _format_prompt (user_input context : string) : string :=
  if truthy context then
    ("You are a helpful Jira customer support chatbot. Use the following context to answer the user's question:"
     ++ nl ++ nl ++ "Context: " ++ context
     ++ nl ++ nl ++ "User: " ++ user_input
     ++ nl ++ nl ++ "Assistant:")%string
  else
    ("You are a helpful Jira customer support chatbot. Answer the user's question about Jira Software Cloud:"
     ++ nl ++ nl ++ "User: " ++ user_input
     ++ nl ++ nl ++ "Assistant:")%string.

Definition _clean_response (response : string) : string :=
  let sentences := split_on ". " response in
  let sentences :=
    if negb (is_nil sentences) && negb (endswith (List.last sentences "") ".")
    then removelast sentences else sentences in
  let cleaned := join ". " sentences in
  let cleaned :=
    if truthy cleaned && negb (endswith cleaned ".")
    then (cleaned ++ ".")%string else cleaned in
  let cleaned := collapse_runs is_newline false cleaned in
  let cleaned := collapse_runs isspace false cleaned in
  strip cleaned.

(** [any(word in prompt_lower for word in words)] *)
Definition any_in (words : list string) (text : string) : bool :=
  existsb (fun word => contains word text) words.

Definition _generate_fallback_response (prompt : string) : string :=
  let prompt_lower := lower prompt in
  if any_in ["epic"; "epics"] prompt_lower then
    "I can help you with Epic-related questions. Epics are large pieces of work that can be broken down into smaller tasks. You can create, view, and manage epics in Jira Software Cloud."
  else if any_in ["sprint"; "sprints"] prompt_lower then
    "I can help you with Sprint-related questions. Sprints are time-boxed iterations in Agile development, typically lasting 1-4 weeks. You can create, manage, and track sprints in Jira Software Cloud."
  else if any_in ["create"; "add"; "new"] prompt_lower then
    "I can help you create new items in Jira. Whether you need to create epics, sprints, or issues, I can guide you through the process."
  else if any_in ["how"; "what"; "where"; "when"; "why"] prompt_lower then
    "I can help you understand how to use Jira Software Cloud. Please ask me a specific question about epics, sprints, or any other Jira features."
  else
    "I'm here to help you with Jira Software Cloud. I can assist with questions about epics, sprints, issues, and other Jira features. What would you like to know?".

Section LocalLLM.

(** [self.pipeline]: [None] when the model failed to load, else the text
    generation called with the prompt and [max_length]. *)
Variable pipeline : option (string -> nat -> result pyval).
(** [len(self.tokenizer.encode(text))] *)
Variable encoded_length : string -> result nat.

(** The statements of the [try] block up to [generated_text]. *)
Definition generated_text_of (run : string -> nat -> result pyval)
    (full_prompt : string) : result string :=
  n <- encoded_length full_prompt ;;
  response <- run full_prompt (n + 150) ;;
  first <- subscript_int response 0 ;;
  text <- subscript_str first "generated_text" ;;
  as_str text.

Definition generate_response (prompt context : string) : result string :=
  match pipeline with
  | None => Ok (_generate_fallback_response prompt)
  | Some run =>
      try_except
        (let full_prompt := _format_prompt prompt context in
         generated_text <- generated_text_of run full_prompt ;;
         let response_text :=
           if startswith generated_text full_prompt
           then strip (sdrop (String.length full_prompt) generated_text)
           else strip generated_text in
         let response_text := _clean_response response_text in
         Ok (if truthy response_text then response_text
             else _generate_fallback_response prompt))
        (fun _ => Ok (_generate_fallback_response prompt))
  end.

End LocalLLM.

(** *** IntentClassifier *)

Definition intent_keywords : list (string * list string) :=
  [ ("epic",   ["epic"; "epics"; "epic-"; "large story"; "feature"]);
    ("sprint", ["sprint"; "sprints"; "iteration"; "sprint planning"; "agile"]);
    ("issue",  ["issue"; "issues"; "task"; "story"; "bug"; "ticket"]);
    ("create", ["create"; "add"; "new"; "make"; "generate"]);
    ("list",   ["list"; "show"; "display"; "get all"; "find all"]);
    ("get",    ["get"; "find"; "search"; "retrieve"; "fetch"]);
    ("update", ["update"; "modify"; "change"; "edit"; "alter"]);
    ("delete", ["delete"; "remove"; "cancel"; "archive"]);
    ("help",   ["help"; "how"; "what"; "explain"; "guide"; "tutorial"]) ].

(** The inner loop: [score += 1] for every keyword found. *)
Definition keyword_score (keywords : list string) (query_lower : string) : nat :=
  fold_left
    (fun score keyword =>
       if contains keyword query_lower then score + 1 else score)
    keywords 0.

(** [score / len(keywords)] *)
Definition ratio (score n : nat) : Q := Z.of_nat score # Pos.of_nat n.

Definition classify_intent (query : string) : list (string * Q) :=
  let query_lower := lower query in
  fold_left
    (fun intent_scores entry =>
       let '(intent, keywords) := entry in
       let score := keyword_score keywords query_lower in
       if 0 <? score
       then dict_set intent_scores intent (ratio score (List.length keywords))
       else intent_scores)
    intent_keywords [].

(** *** ChatbotCore *)

Definition max_history : nat := 10.

(** [now] is what [datetime.datetime.now().isoformat()] returns. *)
Definition add_message (conversation_history : list ChatMessage)
    (now role content : string) (metadata : option Metadata)
  : list ChatMessage :=
  let message :=
    {| role := role; content := content; timestamp := now;
       metadata := metadata |} in
  let conversation_history := conversation_history ++ [message] in
  if max_history <? List.length conversation_history
  then last_n max_history conversation_history
  else conversation_history.

Definition get_conversation_context (conversation_history : list ChatMessage)
  : string :=
  if is_nil conversation_history then ""
  else
    let context_parts :=
      map (fun message => (role message ++ ": " ++ content message)%string)
          (last_n 5 conversation_history) in
    join nl context_parts.

(** [bool(external_context)] for an optional string. *)
Definition given (external_context : option string) : bool :=
  match external_context with
  | Some s => truthy s
  | None => false
  end.

Section Core.

Variable pipeline : option (string -> nat -> result pyval).
Variable encoded_length : string -> result nat.

(** [now1], [now2]: the clock at the two calls of [add_message]. *)
Definition process_query (conversation_history : list ChatMessage)
    (now1 now2 : string)
    (user_input : string) (external_context : option string)
  : result (ChatResponse * list ChatMessage) :=
  let history := add_message conversation_history now1 "user" user_input None in
  let intents := classify_intent user_input in
  let conversation_context := get_conversation_context history in
  let full_context :=
    match external_context with
    | Some ctx =>
        if truthy ctx
        then (conversation_context ++ nl ++ nl ++ "Additional Context: " ++ ctx)%string
        else conversation_context
    | None => conversation_context
    end in
  response_text <- generate_response pipeline encoded_length user_input full_context ;;
  confidence <- (if negb (is_nil intents) then max_Q (map snd intents)
                 else Ok (5 # 10)%Q) ;;
  let sources := if given external_context then ["external_data"] else [] in
  let sources :=
    if negb (is_nil intents)
    then sources ++ map (fun kv => ("intent_" ++ fst kv)%string) intents
    else sources in
  let metadata :=
    {| intents := intents;
       has_external_context :=
         match external_context with Some _ => true | None => false end |} in
  let response :=
    {| message := response_text; confidence := confidence;
       sources := sources; response_metadata := Some metadata |} in
  let history := add_message history now2 "assistant" response_text (Some metadata) in
  Ok (response, history).

End Core.

End Chatbot.

(** ** mcp_client.py *)

Module MCP.
Import Py.

Record MCPResponse : Type := {
  success : bool;
  data : option pydict;
  error : option string
}.

(** The methods of [JiraMCPClient] the handlers call, with their arguments. *)
Inductive ClientCall : Type :=
| get_epics (project_key : option string)
| get_epic (epic_key : string)
| create_epic (project_key summary description : string)
| get_sprints (board_id : option Z)
| get_sprint (sprint_id : Z)
| create_sprint (name : string) (board_id : Z).

(** The dictionary a handler returns: ["source": "mcp"] with type, data and
    message, or ["source": "mcp_error"] with error and message. *)
Inductive ActionResult : Type :=
| mcp (type_ : string) (data_ : pyval) (message : string)
| mcp_error (error_ : option string) (message : string).

Definition source (r : ActionResult) : string :=
  match r with
  | mcp _ _ _ => "mcp"
  | mcp_error _ _ => "mcp_error"
  end.

(** A computation that calls the client: the calls made, in order, and the
    value returned or the exception raised. *)
Definition M (A : Type) : Type := (list ClientCall * result A)%type.

Definition ret {A} (a : A) : M A := ([], Ok a).
Definition lift {A} (r : result A) : M A := ([], r).

Definition bindM {A B} (m : M A) (k : A -> M B) : M B :=
  match m with
  | (t, Ok a) => let (t', r) := k a in (t ++ t', r)
  | (t, Raise e) => (t, Raise e)
  end.

Definition try_exceptM {A} (body : M A) (handler : exn -> M A) : M A :=
  match body with
  | (t, Ok a) => (t, Ok a)
  | (t, Raise e) => let (t', r) := handler e in (t ++ t', r)
  end.

Definition calls {A} (m : M A) : list ClientCall := fst m.
Definition outcome {A} (m : M A) : result A := snd m.

Declare Scope mcp_scope.
Notation "x <~ m ;; k" := (bindM m (fun x => k))
  (at level 61, m at next level, right associativity) : mcp_scope.
Local Open Scope mcp_scope.

(** [str(x)] and [bool(x)] for the optional values of the handlers. *)
Definition str_of_opt (o : option string) : string :=
  match o with Some s => s | None => "None" end.

Definition set_str (o : option string) : bool :=
  match o with Some s => truthy s | None => false end.

Definition set_int (o : option Z) : bool :=
  match o with Some z => negb (Z.eqb z 0) | None => false end.

Definition set_dict (o : option pydict) : bool :=
  match o with Some d => negb (is_nil d) | None => false end.

Definition val_of_data (o : option pydict) : pyval :=
  match o with Some d => PDict d | None => PNone end.

(** [for i, word in enumerate(words): ...] leaving at the first [break]:
    [body word words[i+1:]] is [Some] when the iteration assigns and
    breaks. *)
Fixpoint scan {A} (body : string -> list string -> option A)
    (words : list string) : option A :=
  match words with
  | [] => None
  | word :: rest =>
      match body word rest with
      | Some a => Some a
      | None => scan body rest
      end
  end.

(** *** The loop bodies of the create handlers *)

(** [word.lower() == "project" and i + 1 < len(words)] *)
Definition project_after_marker (word : string) (rest : list string)
  : option string :=
  match rest with
  | next :: _ => if String.eqb (lower word) "project" then Some (upper next) else None
  | [] => None
  end.

(** [word.lower() == "in" and i + 1 < len(words)], then the test that the
    next word looks like a project key. *)
Definition project_after_in (word : string) (rest : list string)
  : option string :=
  match rest with
  | next :: _ =>
      if String.eqb (lower word) "in" then
        let potential_key := upper next in
        if sexists isalpha_char potential_key
           && (String.length potential_key <=? 10)
        then Some potential_key else None
      else None
  | [] => None
  end.

(** [word.lower() in ["title", "summary", "name"] and i + 1 < len(words)] *)
Definition summary_after_marker (word : string) (rest : list string)
  : option string :=
  match rest with
  | _ :: _ =>
      if existsb (String.eqb (lower word)) ["title"; "summary"; "name"]
      then Some (join " " rest) else None
  | [] => None
  end.

(** The inner loop of the sprint name: the words up to ["in" "board"]. *)
Fixpoint words_before_in_board (remaining_words : list string) : list string :=
  match remaining_words with
  | [] => []
  | w :: rest =>
      match rest with
      | next :: _ =>
          if String.eqb (lower w) "in" && String.eqb (lower next) "board"
          then [] else w :: words_before_in_board rest
      | [] => [w]
      end
  end.

(** [word.lower() == "named" and i + 1 < len(words)] *)
Definition name_after_named (word : string) (rest : list string)
  : option string :=
  match rest with
  | _ :: _ =>
      if String.eqb (lower word) "named"
      then Some (join " " (words_before_in_board rest)) else None
  | [] => None
  end.

(** [word.lower() == "board" and i + 1 < len(words)], then [int(...)];
    a [ValueError] is passed and the loop goes on. *)
Definition id_after_board (word : string) (rest : list string) : option Z :=
  match rest with
  | next :: _ => if String.eqb (lower word) "board" then parse_int next else None
  | [] => None
  end.

(** [word.lower() == "in" and ... words[i + 1].lower() == "board" and
    i + 2 < len(words)] *)
Definition id_after_in_board (word : string) (rest : list string) : option Z :=
  match rest with
  | next :: third :: _ =>
      if String.eqb (lower word) "in" && String.eqb (lower next) "board"
      then parse_int third else None
  | _ => None
  end.

(** [x = e] inside a loop that may not run or not assign: the old value
    stays. *)
Definition assign {A} (new old : option A) : option A :=
  match new with Some a => Some a | None => old end.

(** *** Parameter extraction: the part of the create handlers before
    validation *)

(** Lines 362-402 of [_handle_create_epic]: [(project_key, summary)]. *)
Definition create_epic_params (query : string)
  : result (option string * option string) :=
  let query_lower := lower query in
  let project_key : option string := None in
  let project_key :=
    if contains "project" query_lower
    then assign (scan project_after_marker (split query)) project_key
    else project_key in
  let project_key :=
    if negb (set_str project_key) && contains "in" query_lower
    then assign (scan project_after_in (split query)) project_key
    else project_key in
  let summary : option string := None in
  let summary :=
    if contains "title" query_lower || contains "summary" query_lower
       || contains "name" query_lower
    then assign (scan summary_after_marker (split query)) summary
    else summary in
  if negb (set_str project_key) && negb (set_str summary) then
    if contains "create epic" query_lower then
      bind (index (split_on "create epic" query) 1) (fun after =>
        let parts := split (strip after) in
        match parts with
        | first :: ((_ :: _) as others) =>
            Ok (Some (upper first), Some (join " " others))
        | _ => Ok (project_key, summary)
        end)
    else Ok (project_key, summary)
  else Ok (project_key, summary).

(** Lines 507-558 of [_handle_create_sprint]: [(sprint_name, board_id)]. *)
Definition create_sprint_params (query : string)
  : result (option string * option Z) :=
  let query_lower := lower query in
  let sprint_name : option string := None in
  let sprint_name :=
    if contains "named" query_lower
    then assign (scan name_after_named (split query)) sprint_name
    else sprint_name in
  let board_id : option Z := None in
  let board_id :=
    if contains "board" query_lower
    then assign (scan id_after_board (split query)) board_id
    else board_id in
  let board_id :=
    if negb (set_int board_id) && contains "in" query_lower
    then assign (scan id_after_in_board (split query)) board_id
    else board_id in
  if negb (set_str sprint_name) && negb (set_int board_id) then
    if contains "create sprint" query_lower then
      bind (index (split_on "create sprint" query) 1) (fun after =>
        let parts := split (strip after) in
        match parts with
        | first :: ((_ :: _) as others) =>
            match parse_int first with
            | Some n => Ok (Some (join " " others), Some n)
            | None => Ok (Some (join " " parts), board_id)
            end
        | _ => Ok (sprint_name, board_id)
        end)
    else Ok (sprint_name, board_id)
  else Ok (sprint_name, board_id).

Section Handlers.

(** What the client answers to a call, or the exception it lets out. *)
Variable client : ClientCall -> result MCPResponse.

Definition call (c : ClientCall) : M MCPResponse := ([c], client c).

Definition _handle_list_epics (query : string) : M ActionResult :=
  response <~ call (get_epics None) ;;
  if success response && set_dict (data response) then
    let epics := dict_get (match data response with Some d => d | None => [] end)
                          "issues" (PList []) in
    n <~ lift (len epics) ;;
    ret (mcp "epic_list" epics ("Found " ++ str_of_nat n ++ " epics")%string)
  else
    ret (mcp_error (error response) "Failed to retrieve epics").

(** The first word that, in capitals, starts with EPIC- or PROJ-. *)
Definition epic_key_of (word : string) (rest : list string) : option string :=
  if startswith (upper word) "EPIC-" || startswith (upper word) "PROJ-"
  then Some (upper word) else None.

Definition _handle_get_epic (query : string) : M ActionResult :=
  let words := split query in
  let epic_key := scan epic_key_of words in
  if negb (set_str epic_key) then
    ret (mcp_error (Some "No epic key found in query")
                   "Please specify an epic key (e.g., EPIC-123)")
  else
    let epic_key := str_of_opt epic_key in
    response <~ call (get_epic epic_key) ;;
    if success response then
      ret (mcp "epic_detail" (val_of_data (data response))
               ("Retrieved epic " ++ epic_key)%string)
    else
      ret (mcp_error (error response)
                     ("Failed to retrieve epic " ++ epic_key)%string).

Definition _handle_create_epic (query : string) : M ActionResult :=
  params <~ lift (create_epic_params query) ;;
  let '(project_key, summary) := params in
  if negb (set_str project_key) then
    ret (mcp_error (Some "Project key required")
           "To create an epic, please specify a project key. Example: 'Create epic in PROJECT-123 with title My Epic'")
  else if negb (set_str summary) then
    ret (mcp_error (Some "Epic summary required")
           "To create an epic, please provide a summary/title. Example: 'Create epic in PROJECT-123 with title My Epic'")
  else
    let project_key := str_of_opt project_key in
    let summary := str_of_opt summary in
    try_exceptM
      (response <~ call (create_epic project_key summary "") ;;
       if success response then
         ret (mcp "epic_created" (val_of_data (data response))
                  ("Successfully created epic in project " ++ project_key)%string)
       else
         ret (mcp_error (error response)
                ("Failed to create epic: " ++ str_of_opt (error response))%string))
      (fun e =>
         ret (mcp_error (Some (exn_msg e))
                ("Error creating epic: " ++ exn_msg e)%string)).

Definition _handle_update_epic (query : string) : M ActionResult :=
  ret (mcp_error (Some "Epic update requires additional parameters")
         "To update an epic, please provide: epic key and fields to update").

Definition _handle_list_sprints (query : string) : M ActionResult :=
  response <~ call (get_sprints None) ;;
  if success response && set_dict (data response) then
    let sprints := dict_get (match data response with Some d => d | None => [] end)
                            "values" (PList []) in
    n <~ lift (len sprints) ;;
    ret (mcp "sprint_list" sprints ("Found " ++ str_of_nat n ++ " sprints")%string)
  else
    ret (mcp_error (error response) "Failed to retrieve sprints").

(** [word.isdigit()], then [int(word)] outside any [try]. *)
Definition sprint_id_of (word : string) (rest : list string)
  : option (result Z) :=
  if isdigit word then
    Some (match parse_int word with
          | Some n => Ok n
          | None => Raise (Exn ValueError "Exceeds the limit for integer string conversion")
          end)
  else None.

Definition _handle_get_sprint (query : string) : M ActionResult :=
  let words := split query in
  match scan sprint_id_of words with
  | Some (Raise e) => lift (Raise e)
  | found =>
      let sprint_id := match found with Some (Ok n) => Some n | _ => None end in
      if negb (set_int sprint_id) then
        ret (mcp_error (Some "No sprint ID found in query")
                       "Please specify a sprint ID")
      else
        let sprint_id := match sprint_id with Some n => n | None => 0%Z end in
        response <~ call (get_sprint sprint_id) ;;
        if success response then
          ret (mcp "sprint_detail" (val_of_data (data response))
                   ("Retrieved sprint " ++ str_of_Z sprint_id)%string)
        else
          ret (mcp_error (error response)
                 ("Failed to retrieve sprint " ++ str_of_Z sprint_id)%string)
  end.

Definition _handle_create_sprint (query : string) : M ActionResult :=
  params <~ lift (create_sprint_params query) ;;
  let '(sprint_name, board_id) := params in
  if negb (set_str sprint_name) then
    ret (mcp_error (Some "Sprint name required")
           "To create a sprint, please provide a name. Example: 'Create sprint named Sprint 1'")
  else if negb (set_int board_id) then
    ret (mcp_error (Some "Board ID required")
           "To create a sprint, please provide a board ID. Example: 'Create sprint in board 123 named Sprint 1'")
  else
    let sprint_name := str_of_opt sprint_name in
    let board_id := match board_id with Some n => n | None => 0%Z end in
    try_exceptM
      (response <~ call (create_sprint sprint_name board_id) ;;
       if success response then
         ret (mcp "sprint_created" (val_of_data (data response))
                  ("Successfully created sprint '" ++ sprint_name
                   ++ "' in board " ++ str_of_Z board_id)%string)
       else
         ret (mcp_error (error response)
                ("Failed to create sprint: " ++ str_of_opt (error response))%string))
      (fun e =>
         ret (mcp_error (Some (exn_msg e))
                ("Error creating sprint: " ++ exn_msg e)%string)).

Definition _handle_update_sprint (query : string) : M ActionResult :=
  ret (mcp_error (Some "Sprint update requires additional parameters")
         "To update a sprint, please provide: sprint ID and fields to update").

(** *** MCPManager: routing by verb *)

Definition handle_epic_query (query : string) : M ActionResult :=
  let query_lower := lower query in
  if contains "list" query_lower || contains "show" query_lower
     || contains "get all" query_lower
  then _handle_list_epics query
  else if contains "create" query_lower || contains "add" query_lower
          || contains "new" query_lower
  then _handle_create_epic query
  else if contains "update" query_lower || contains "modify" query_lower
          || contains "change" query_lower
  then _handle_update_epic query
  else _handle_get_epic query.

Definition handle_sprint_query (query : string) : M ActionResult :=
  let query_lower := lower query in
  if contains "list" query_lower || contains "show" query_lower
     || contains "get all" query_lower
  then _handle_list_sprints query
  else if contains "create" query_lower || contains "add" query_lower
          || contains "new" query_lower
  then _handle_create_sprint query
  else if contains "update" query_lower || contains "modify" query_lower
          || contains "change" query_lower
  then _handle_update_sprint query
  else _handle_get_sprint query.

End Handlers.

End MCP.

(** ** The design document's own words, to compare the code with *)

Module Design.
Import Py.

(** *** Case-insensitive occurrence of a keyword in a text *)

Definition same_letter (a b : ascii) : bool :=
  Ascii.eqb (lower_char a) (lower_char b).

(** [keyword] is, up to case, what [text] starts with. *)
Fixpoint ci_prefix (keyword text : string) : bool :=
  match keyword, text with
  | EmptyString, _ => true
  | String _ _, EmptyString => false
  | String k keyword', String c text' =>
      same_letter k c && ci_prefix keyword' text'
  end.

(** [keyword] occurs, up to case, somewhere in [text]. *)
Fixpoint ci_occurs (keyword text : string) : bool :=
  ci_prefix keyword text ||
  match text with
  | EmptyString => false
  | String _ text' => ci_occurs keyword text'
  end.

Definition any_occurs (keywords : list string) (text : string) : bool :=
  existsb (fun keyword => ci_occurs keyword text) keywords.

(** The keywords of the tables are in small letters. *)
Definition all_small (keywords : list string) : Prop :=
  Forall (fun keyword => lower keyword = keyword) keywords.

(** *** IntentScoreMap: matched keywords over keywords, labels without a
    match left out *)

Definition matched_count (keywords : list string) (query : string) : nat :=
  List.length (filter (fun keyword => ci_occurs keyword query) keywords).

Definition classify (query : string) : list (string * Q) :=
  flat_map
    (fun entry : string * list string =>
       let (label, keywords) := entry in
       let matches := matched_count keywords query in
       if 0 <? matches
       then [(label, Chatbot.ratio matches (List.length keywords))]
       else [])
    Chatbot.intent_keywords.

(** *** Verb routing *)

Inductive verb : Type := ListVerb | CreateVerb | UpdateVerb | GetVerb.

Definition verb_of (query : string) : verb :=
  if any_occurs ["list"; "show"; "get all"] query then ListVerb
  else if any_occurs ["create"; "add"; "new"] query then CreateVerb
  else if any_occurs ["update"; "modify"; "change"] query then UpdateVerb
  else GetVerb.

(** *** Ordered fallback chains *)

(** The strategies of a chain are tried in order until the field is set. *)
Definition first_set {A} (is_set : option A -> bool)
    (chain : list (string -> option A)) (query : string) : option A :=
  fold_left
    (fun found strategy =>
       if is_set found then found else MCP.assign (strategy query) found)
    chain None.

(** The words after the literal action phrase; none when the phrase is not
    in the query. *)
Definition words_after (phrase query : string) : list string :=
  if contains phrase (lower query) then
    match split_on phrase query with
    | _ :: after :: _ => split (strip after)
    | _ => []
    end
  else [].

(** Strategies for the project key and the summary of an epic. *)
Definition project_by_marker (query : string) : option string :=
  if contains "project" (lower query)
  then MCP.scan MCP.project_after_marker (split query) else None.

Definition project_by_in (query : string) : option string :=
  if contains "in" (lower query)
  then MCP.scan MCP.project_after_in (split query) else None.

Definition project_by_position (query : string) : option string :=
  match words_after "create epic" query with
  | first :: _ :: _ => Some (upper first)
  | _ => None
  end.

Definition summary_by_marker (query : string) : option string :=
  if contains "title" (lower query) || contains "summary" (lower query)
     || contains "name" (lower query)
  then MCP.scan MCP.summary_after_marker (split query) else None.

Definition summary_by_position (query : string) : option string :=
  match words_after "create epic" query with
  | _ :: ((_ :: _) as others) => Some (join " " others)
  | _ => None
  end.

(** Strategies for the name and the board of a sprint. *)
Definition name_by_named (query : string) : option string :=
  if contains "named" (lower query)
  then MCP.scan MCP.name_after_named (split query) else None.

Definition name_by_position (query : string) : option string :=
  match words_after "create sprint" query with
  | first :: ((_ :: _) as others) =>
      match parse_int first with
      | Some _ => Some (join " " others)
      | None => Some (join " " (first :: others))
      end
  | _ => None
  end.

Definition board_by_marker (query : string) : option Z :=
  if contains "board" (lower query)
  then MCP.scan MCP.id_after_board (split query) else None.

Definition board_by_in_board (query : string) : option Z :=
  if contains "in" (lower query)
  then MCP.scan MCP.id_after_in_board (split query) else None.

Definition board_by_position (query : string) : option Z :=
  match words_after "create sprint" query with
  | first :: _ :: _ => parse_int first
  | _ => None
  end.

(** Every field has its own chain, the positional strategy last, and no
    chain looks at the other field. *)
Definition independent_epic_params (query : string)
  : option string * option string :=
  (first_set MCP.set_str
     [project_by_marker; project_by_in; project_by_position] query,
   first_set MCP.set_str [summary_by_marker; summary_by_position] query).

Definition independent_sprint_params (query : string)
  : option string * option Z :=
  (first_set MCP.set_str [name_by_named; name_by_position] query,
   first_set MCP.set_int
     [board_by_marker; board_by_in_board; board_by_position] query).

(** The marker strategies run per field; the positional strategy runs
    only when they set neither field, and then gives both at once. *)
Definition epic_markers (query : string) : option string * option string :=
  (first_set MCP.set_str [project_by_marker; project_by_in] query,
   first_set MCP.set_str [summary_by_marker] query).

Definition sprint_markers (query : string) : option string * option Z :=
  (first_set MCP.set_str [name_by_named] query,
   first_set MCP.set_int [board_by_marker; board_by_in_board] query).

Definition epic_markers_found (query : string) : bool :=
  MCP.set_str (fst (epic_markers query)) || MCP.set_str (snd (epic_markers query)).

Definition sprint_markers_found (query : string) : bool :=
  MCP.set_str (fst (sprint_markers query)) || MCP.set_int (snd (sprint_markers query)).

Definition gated_epic_params (query : string)
  : option string * option string :=
  if epic_markers_found query then epic_markers query
  else
    match words_after "create epic" query with
    | first :: ((_ :: _) as others) =>
        (Some (upper first), Some (join " " others))
    | _ => epic_markers query
    end.

Definition gated_sprint_params (query : string)
  : option string * option Z :=
  if sprint_markers_found query then sprint_markers query
  else
    match words_after "create sprint" query with
    | first :: ((_ :: _) as others) =>
        match parse_int first with
        | Some n => (Some (join " " others), Some n)
        | None => (Some (join " " (first :: others)), snd (sprint_markers query))
        end
    | _ => sprint_markers query
    end.

(** The positional strategy is reached: no marker set a field and the
    action phrase is in the query, whatever its case. *)
Definition epic_position_reached (query : string) : bool :=
  negb (epic_markers_found query) && contains "create epic" (lower query).

Definition sprint_position_reached (query : string) : bool :=
  negb (sprint_markers_found query) && contains "create sprint" (lower query).

(** *** A generator that gives nothing usable *)

(** No model was loaded, or the steps that obtain the generated text
    raise, or the generated text is empty. *)
Definition generator_silent
    (pipeline : option (string -> nat -> result pyval))
    (encoded_length : string -> result nat) (full_prompt : string) : bool :=
  match pipeline with
  | None => true
  | Some run =>
      match Chatbot.generated_text_of encoded_length run full_prompt with
      | Ok text => negb (truthy text)
      | Raise _ => true
      end
  end.

(** A numbered turn, to follow turns through the log. *)
Definition numbered_turn (n : nat) : Chatbot.ChatMessage :=
  {| Chatbot.role := if Nat.even n then "user" else "assistant";
     Chatbot.content := str_of_nat n;
     Chatbot.timestamp := "";
     Chatbot.metadata := None |}.

(** *** The word that names an epic *)

(** A token that, in capitals, starts with EPIC- or PROJ-. *)
Definition epic_token (word : string) : bool :=
  startswith (upper word) "EPIC-" || startswith (upper word) "PROJ-".

(** *** The collection a list answer carries *)

Definition returned_collection (key : string) (response : MCP.MCPResponse)
  : pyval :=
  dict_get (match MCP.data response with Some d => d | None => [] end)
           key (PList []).

(** *** Clients to run the handlers against *)

(** Every call succeeds and carries a body with two items. *)
Definition client_some_items (c : MCP.ClientCall) : result MCP.MCPResponse :=
  Ok {| MCP.success := true;
        MCP.data := Some [("issues", PList [PStr "PROJ-1"; PStr "PROJ-2"]);
                          ("values", PList [PInt 1; PInt 2]);
                          ("total", PInt 2)];
        MCP.error := None |}.

(** Every call succeeds and carries a body whose collections are empty. *)
Definition client_no_items (c : MCP.ClientCall) : result MCP.MCPResponse :=
  Ok {| MCP.success := true;
        MCP.data := Some [("issues", PList []); ("values", PList []);
                          ("total", PInt 0)];
        MCP.error := None |}.

(** Every call succeeds with an empty body: the [{}] that [_make_request]
    builds for a 2xx answer without content, or a JSON body [{}]. *)
Definition client_empty_body (c : MCP.ClientCall) : result MCP.MCPResponse :=
  Ok {| MCP.success := true; MCP.data := Some []; MCP.error := None |}.

(** *** Appending a sequence of turns to a log *)

Definition append_all (log turns : list Chatbot.ChatMessage)
  : list Chatbot.ChatMessage :=
  fold_left
    (fun log turn =>
       Chatbot.add_message log (Chatbot.timestamp turn) (Chatbot.role turn)
         (Chatbot.content turn) (Chatbot.metadata turn))
    turns log.

End Design.

(** ** More built-ins, for the rest of the program *)

Module PyMore.
Import Py.

(** [type(v).__name__] *)
Definition type_name (v : pyval) : string :=
  match v with
  | PNone => "NoneType"
  | PBool _ => "bool"
  | PInt _ => "int"
  | PStr _ => "str"
  | PList _ => "list"
  | PDict _ => "dict"
  end.

(** [bool(v)] *)
Definition truthy_val (v : pyval) : bool :=
  match v with
  | PNone => false
  | PBool b => b
  | PInt z => negb (Z.eqb z 0)
  | PStr s => truthy s
  | PList l => negb (is_nil l)
  | PDict d => negb (is_nil d)
  end.

(** [v.get(k, default)]: only a dictionary has the method. *)
Definition val_get (v : pyval) (k : string) (default : pyval) : result pyval :=
  match v with
  | PDict d => Ok (dict_get d k default)
  | _ => Raise (Exn AttributeError
                  ("'" ++ type_name v ++ "' object has no attribute 'get'")%string)
  end.

(** [for x in v]: the values the loop visits. *)
Definition iterate (v : pyval) : result (list pyval) :=
  match v with
  | PList l => Ok l
  | PDict d => Ok (map (fun kv => PStr (fst kv)) d)
  | PStr s =>
      Ok (map (fun c => PStr (String c EmptyString)) (list_ascii_of_string s))
  | _ => Raise (Exn TypeError
                  ("'" ++ type_name v ++ "' object is not iterable")%string)
  end.

(** A loop that appends [f x] for every [x], left at the first exception. *)
Fixpoint traverse {A B} (f : A -> result B) (l : list A) : result (list B) :=
  match l with
  | [] => Ok []
  | x :: l' =>
      bind (f x) (fun y => bind (traverse f l') (fun ys => Ok (y :: ys)))
  end.

(** [s[:n]] *)
Fixpoint stake (n : nat) (s : string) : string :=
  match n, s with
  | O, _ => EmptyString
  | S _, EmptyString => EmptyString
  | S n', String c s' => String c (stake n' s')
  end.

(** [str(v)] as an f-string prints it: the atoms are printed here, a list
    or a dictionary by [repr]. *)
Definition format_val (repr : pyval -> string) (v : pyval) : string :=
  match v with
  | PNone => "None"
  | PBool true => "True"
  | PBool false => "False"
  | PInt z => str_of_Z z
  | PStr s => s
  | _ => repr v
  end.

(** [s.isascii()]: every character has a code below 128. On such text
    [split], [isdigit] and [int] are as [Py] has them. *)
Definition is_ascii (s : string) : bool := sforall (fun c => code c <? 128) s.

(** A word, as [split()] gives them: not empty and without a space. *)
Definition is_word (w : string) : bool :=
  truthy w && negb (sexists isspace w).

(** [list(set(l))]: the elements without repetition. The order Python
    gives is not specified; here the last occurrences stay in place. *)
Definition list_of_set (l : list string) : list string := nodup string_dec l.

(** [l[start:stop]] for integers of either sign. *)
Definition clamp_index (n : nat) (i : Z) : nat :=
  let len := Z.of_nat n in
  let i := if (i <? 0)%Z then (i + len)%Z else i in
  if (i <? 0)%Z then 0
  else if (len <? i)%Z then n
  else Z.to_nat i.

Definition slice {A} (l : list A) (start stop : Z) : list A :=
  let a := clamp_index (List.length l) start in
  let b := clamp_index (List.length l) stop in
  firstn (b - a) (skipn a l).

(** [range(0, stop, step)] for [step > 0]: the multiples of [step] below
    [stop], counted with [fuel] at least their number. *)
Fixpoint range_from (fuel : nat) (i stop step : Z) : list Z :=
  match fuel with
  | O => []
  | S fuel' =>
      if (i <? stop)%Z then i :: range_from fuel' (i + step)%Z stop step else []
  end.

(** [range(0, stop, step)] for [stop >= 0]: an exception for the step 0,
    nothing for a negative step. *)
Definition range0 (stop step : Z) : result (list Z) :=
  if (step =? 0)%Z then Raise (Exn ValueError "range() arg 3 must not be zero")
  else if (step <? 0)%Z then Ok []
  else Ok (range_from (Z.to_nat stop) 0 stop step).

End PyMore.

(** ** chatbot_core.py: reset and summary *)

Module Conversation.
Import Py PyMore Chatbot.

Definition reset_conversation (conversation_history : list ChatMessage)
  : list ChatMessage := [].

Definition _extract_recent_topics (conversation_history : list ChatMessage)
  : list string :=
  let topics :=
    fold_left
      (fun topics message =>
         let intents := classify_intent (content message) in
         if negb (is_nil intents) then topics ++ map fst intents else topics)
      (last_n 5 conversation_history) [] in
  list_of_set topics.

Record Summary : Type := {
  message_count : nat;
  user_messages : nat;
  assistant_messages : nat;
  recent_topics : list string
}.

Definition get_conversation_summary (conversation_history : list ChatMessage)
  : Summary :=
  {| message_count := List.length conversation_history;
     user_messages :=
       List.length (filter (fun m => String.eqb (role m) "user")
                           conversation_history);
     assistant_messages :=
       List.length (filter (fun m => String.eqb (role m) "assistant")
                           conversation_history);
     recent_topics := _extract_recent_topics conversation_history |}.

(** The response [process_query] builds around the generated text. *)
Definition response_of (text : string) (input : string)
    (external_context : option string) : ChatResponse :=
  let intents := classify_intent input in
  {| message := text;
     confidence :=
       match map snd intents with
       | [] => (5 # 10)%Q
       | x :: l => fold_left (fun m y => if Qle_bool y m then m else y) l x
       end;
     sources :=
       (if given external_context then ["external_data"] else [])
       ++ map (fun kv => ("intent_" ++ fst kv)%string) intents;
     response_metadata :=
       Some {| intents := intents;
               has_external_context :=
                 match external_context with Some _ => true | None => false end |}
  |}.

(** The roles [process_query] writes. *)
Definition known_role (m : ChatMessage) : Prop :=
  role m = "user" \/ role m = "assistant".

(** Every space character of the text is a blank that follows no other
    space; [prev_space] tells whether the character before was a space. *)
Fixpoint spaced_from (prev_space : bool) (s : string) : bool :=
  match s with
  | EmptyString => true
  | String c s' =>
      if isspace c
      then Ascii.eqb c " " && negb prev_space && spaced_from true s'
      else spaced_from false s'
  end.

(** A text without a space at either end, with single spaces only. *)
Fixpoint single_spaced_from (prev_space : bool) (s : string) : bool :=
  match s with
  | EmptyString => negb prev_space
  | String c s' =>
      if isspace c
      then Ascii.eqb c " " && negb prev_space && single_spaced_from true s'
      else single_spaced_from false s'
  end.

Definition single_spaced (s : string) : bool :=
  match s with
  | EmptyString => true
  | _ => single_spaced_from true s
  end.

End Conversation.

(** ** config.py and JiraMCPClient *)

Module JiraClient.
Import Py PyMore.

(** The settings of [Config] the client reads. *)
Record Config : Type := {
  JIRA_BASE_URL : string;
  JIRA_API_TOKEN : option string;
  JIRA_EMAIL : option string
}.

(** [Config.validate]: the lines printed and the value returned. *)
Definition validate (config : Config) : list string * bool :=
  if negb (MCP.set_str (JIRA_API_TOKEN config))
     && negb (MCP.set_str (JIRA_EMAIL config))
  then (["Warning: JIRA_API_TOKEN and JIRA_EMAIL not set. MCP features will be limited."],
        true)
  else ([], true).

Record MCPRequest : Type := {
  method : string;
  url : string;
  headers : list (string * string);
  data : option pyval
}.

(** What [requests.request] hands back: the status, the bytes and the text
    of the body, and what [response.json()] gives, a JSON object as the
    type of [MCPResponse.data] has it, or an exception. *)
Record HttpResponse : Type := {
  status_code : Z;
  content : string;
  text : string;
  json : result pydict
}.

Definition in_Z (x : Z) (l : list Z) : bool := existsb (Z.eqb x) l.

Section Client.

Variable config : Config.
(** [base64.b64encode(s.encode()).decode()] *)
Variable b64encode : string -> string.
(** [requests.request(method, url, headers, json, timeout=30)]: an answer,
    or an exception (no connection, timeout). *)
Variable http : MCPRequest -> result HttpResponse.

Definition _encode_auth : string :=
  let credentials :=
    (MCP.str_of_opt (JIRA_EMAIL config) ++ ":"
     ++ MCP.str_of_opt (JIRA_API_TOKEN config))%string in
  b64encode credentials.

(** [self.base_url] and [self.headers] as [__init__] sets them. *)
Definition base_url : string := JIRA_BASE_URL config.

Definition client_headers : list (string * string) :=
  let headers := [("Content-Type", "application/json");
                  ("Accept", "application/json")] in
  if MCP.set_str (JIRA_API_TOKEN config) && MCP.set_str (JIRA_EMAIL config)
  then dict_set headers "Authorization" ("Basic " ++ _encode_auth)%string
  else headers.

Definition _make_request (request : MCPRequest) : result MCP.MCPResponse :=
  try_except
    (bind (http request) (fun response =>
       if in_Z (status_code response) [200; 201; 202; 204]%Z then
         bind (if truthy (content response) then json response else Ok [])
              (fun body =>
                 Ok {| MCP.success := true; MCP.data := Some body;
                       MCP.error := None |})
       else
         Ok {| MCP.success := false; MCP.data := None;
               MCP.error :=
                 Some ("HTTP " ++ str_of_Z (status_code response) ++ ": "
                       ++ text response)%string |}))
    (fun e =>
       Ok {| MCP.success := false; MCP.data := None;
             MCP.error := Some ("Request failed: " ++ exn_msg e)%string |}).

(** The request each method builds; the method sends it. *)

Definition get_epics_request (project_key : option string) : MCPRequest :=
  let url := (base_url ++ "/rest/api/3/search")%string in
  let jql := "issuetype = Epic" in
  let jql :=
    if MCP.set_str project_key
    then (jql ++ " AND project = " ++ MCP.str_of_opt project_key)%string
    else jql in
  {| method := "POST"; url := url; headers := client_headers;
     data := Some (PDict
       [("jql", PStr jql);
        ("fields", PList [PStr "summary"; PStr "description"; PStr "status";
                          PStr "assignee"; PStr "created"; PStr "updated"]);
        ("maxResults", PInt 100)]) |}.

Definition get_epics (project_key : option string) : result MCP.MCPResponse :=
  _make_request (get_epics_request project_key).

Definition get_epic_request (epic_key : string) : MCPRequest :=
  {| method := "GET";
     url := (base_url ++ "/rest/api/3/issue/" ++ epic_key)%string;
     headers := client_headers; data := None |}.

Definition get_epic (epic_key : string) : result MCP.MCPResponse :=
  _make_request (get_epic_request epic_key).

Definition create_epic_request (project_key summary description : string)
  : MCPRequest :=
  let url := (base_url ++ "/rest/api/3/issue")%string in
  let adf_description :=
    if truthy description then
      Some (PDict
        [("version", PInt 1); ("type", PStr "doc");
         ("content", PList [PDict
            [("type", PStr "paragraph");
             ("content", PList [PDict [("type", PStr "text");
                                       ("text", PStr description)]])]])])
    else None in
  let fields := [("project", PDict [("key", PStr project_key)]);
                 ("summary", PStr summary);
                 ("issuetype", PDict [("name", PStr "Epic")])] in
  let fields :=
    match adf_description with
    | Some adf => dict_set fields "description" adf
    | None => fields
    end in
  {| method := "POST"; url := url; headers := client_headers;
     data := Some (PDict [("fields", PDict fields)]) |}.

Definition create_epic (project_key summary description : string)
  : result MCP.MCPResponse :=
  _make_request (create_epic_request project_key summary description).

Definition update_epic_request (epic_key : string) (updates : pydict)
  : MCPRequest :=
  {| method := "PUT";
     url := (base_url ++ "/rest/api/3/issue/" ++ epic_key)%string;
     headers := client_headers;
     data := Some (PDict [("fields", PDict updates)]) |}.

Definition update_epic (epic_key : string) (updates : pydict)
  : result MCP.MCPResponse :=
  _make_request (update_epic_request epic_key updates).

Definition get_boards_request : MCPRequest :=
  {| method := "GET"; url := (base_url ++ "/rest/agile/1.0/board")%string;
     headers := client_headers; data := None |}.

Definition get_boards : result MCP.MCPResponse :=
  _make_request get_boards_request.

Definition get_board_request (board_id : Z) : MCPRequest :=
  {| method := "GET";
     url := (base_url ++ "/rest/agile/1.0/board/" ++ str_of_Z board_id)%string;
     headers := client_headers; data := None |}.

Definition get_board (board_id : Z) : result MCP.MCPResponse :=
  _make_request (get_board_request board_id).

Definition get_sprints_request (board_id : option Z) : MCPRequest :=
  let url :=
    if MCP.set_int board_id
    then (base_url ++ "/rest/agile/1.0/board/"
          ++ str_of_Z (match board_id with Some n => n | None => 0%Z end)
          ++ "/sprint")%string
    else (base_url ++ "/rest/agile/1.0/sprint")%string in
  {| method := "GET"; url := url; headers := client_headers; data := None |}.

Definition get_sprints (board_id : option Z) : result MCP.MCPResponse :=
  _make_request (get_sprints_request board_id).

Definition get_sprint_request (sprint_id : Z) : MCPRequest :=
  {| method := "GET";
     url := (base_url ++ "/rest/agile/1.0/sprint/" ++ str_of_Z sprint_id)%string;
     headers := client_headers; data := None |}.

Definition get_sprint (sprint_id : Z) : result MCP.MCPResponse :=
  _make_request (get_sprint_request sprint_id).

Definition create_sprint_request (name : string) (board_id : Z)
    (start_date end_date : option string) : MCPRequest :=
  let url := (base_url ++ "/rest/agile/1.0/sprint")%string in
  let data := [("name", PStr name); ("originBoardId", PInt board_id)] in
  let data :=
    if MCP.set_str start_date
    then dict_set data "startDate" (PStr (MCP.str_of_opt start_date))
    else data in
  let data :=
    if MCP.set_str end_date
    then dict_set data "endDate" (PStr (MCP.str_of_opt end_date))
    else data in
  {| method := "POST"; url := url; headers := client_headers;
     data := Some (PDict data) |}.

Definition create_sprint (name : string) (board_id : Z)
    (start_date end_date : option string) : result MCP.MCPResponse :=
  _make_request (create_sprint_request name board_id start_date end_date).

Definition update_sprint_request (sprint_id : Z) (updates : pydict)
  : MCPRequest :=
  {| method := "PUT";
     url := (base_url ++ "/rest/agile/1.0/sprint/" ++ str_of_Z sprint_id)%string;
     headers := client_headers; data := Some (PDict updates) |}.

Definition update_sprint (sprint_id : Z) (updates : pydict)
  : result MCP.MCPResponse :=
  _make_request (update_sprint_request sprint_id updates).

Definition get_sprint_issues_request (sprint_id : Z) : MCPRequest :=
  {| method := "GET";
     url := (base_url ++ "/rest/agile/1.0/sprint/" ++ str_of_Z sprint_id
             ++ "/issue")%string;
     headers := client_headers;
     data := Some (PDict
       [("fields", PList [PStr "summary"; PStr "description"; PStr "status";
                          PStr "assignee"; PStr "issuetype"]);
        ("maxResults", PInt 1000)]) |}.

Definition get_sprint_issues (sprint_id : Z) : result MCP.MCPResponse :=
  _make_request (get_sprint_issues_request sprint_id).

(** [self.client] of [MCPManager]: the calls of the handlers, with the
    arguments they pass, on the methods above. *)
Definition request_of (c : MCP.ClientCall) : MCPRequest :=
  match c with
  | MCP.get_epics project_key => get_epics_request project_key
  | MCP.get_epic epic_key => get_epic_request epic_key
  | MCP.create_epic project_key summary description =>
      create_epic_request project_key summary description
  | MCP.get_sprints board_id => get_sprints_request board_id
  | MCP.get_sprint sprint_id => get_sprint_request sprint_id
  | MCP.create_sprint name board_id =>
      create_sprint_request name board_id None None
  end.

Definition jira_client (c : MCP.ClientCall) : result MCP.MCPResponse :=
  _make_request (request_of c).

End Client.

(** A server that answers every request with the given status and body,
    and one that cannot be reached. *)
Definition http_answering (status : Z) (body : string) (object : pydict)
    (request : MCPRequest) : result HttpResponse :=
  Ok {| status_code := status; content := body; text := body;
        json := Ok object |}.

Definition http_unreachable (request : MCPRequest) : result HttpResponse :=
  Raise (Exn RuntimeError "Connection refused").

Definition example_config : Config :=
  {| JIRA_BASE_URL := "https://example.atlassian.net";
     JIRA_API_TOKEN := Some "token";
     JIRA_EMAIL := None |}.

(** *** The answer as the code builds it

    [response.json()] returns whatever JSON value the body holds, and
    [_make_request] stores it in [data] as it is, whatever the annotation
    [Optional[Dict[str, Any]]] of [MCPResponse.data] says: the body [null]
    gives a success with [data=None], a JSON array one with a list.
    [Wire] has the request with any value for [data], [PNone] being
    [None]. The handlers are modelled over answers whose data is a
    dictionary or [None], and [_make_request] above is
    [Wire._make_request] for a server whose bodies are JSON objects. *)
Module Wire.

Record HttpResponse : Type := {
  status_code : Z;
  content : string;
  text : string;
  json : result pyval
}.

Record MCPResponse : Type := {
  success : bool;
  data : pyval;
  error : option string
}.

Definition _make_request (http : MCPRequest -> result HttpResponse)
    (request : MCPRequest) : result MCPResponse :=
  try_except
    (bind (http request) (fun response =>
       if in_Z (status_code response) [200; 201; 202; 204]%Z then
         bind (if truthy (content response) then json response
               else Ok (PDict []))
              (fun body =>
                 Ok {| success := true; data := body; error := None |})
       else
         Ok {| success := false; data := PNone;
               error :=
                 Some ("HTTP " ++ str_of_Z (status_code response) ++ ": "
                       ++ text response)%string |}))
    (fun e =>
       Ok {| success := false; data := PNone;
             error := Some ("Request failed: " ++ exn_msg e)%string |}).

End Wire.

(** An answer whose body is a JSON object, and a typed answer of the
    client, as [Wire] has them. *)
Definition object_reply (reply : HttpResponse) : Wire.HttpResponse :=
  {| Wire.status_code := status_code reply;
     Wire.content := content reply;
     Wire.text := text reply;
     Wire.json := bind (json reply) (fun body => Ok (PDict body)) |}.

Definition as_built (response : MCP.MCPResponse) : Wire.MCPResponse :=
  {| Wire.success := MCP.success response;
     Wire.data := MCP.val_of_data (MCP.data response);
     Wire.error := MCP.error response |}.

(** A server that answers every request with status 200 and the body
    [null]. *)
Definition http_null (request : MCPRequest) : result Wire.HttpResponse :=
  Ok {| Wire.status_code := 200; Wire.content := "null";
        Wire.text := "null"; Wire.json := Ok PNone |}.

End JiraClient.

(** ** mcp_client.py: the board handlers *)

Module Boards.
Import Py PyMore MCP.

Inductive BoardCall : Type :=
| get_boards
| get_board (board_id : Z).

(** The calls made on the client, and the value or the exception. *)
Definition T (A : Type) : Type := (list BoardCall * result A)%type.

Definition retT {A} (a : A) : T A := ([], Ok a).
Definition liftT {A} (r : result A) : T A := ([], r).

Definition bindT {A B} (m : T A) (k : A -> T B) : T B :=
  match m with
  | (t, Ok a) => let (t', r) := k a in (t ++ t', r)
  | (t, Raise e) => (t, Raise e)
  end.

Definition try_exceptT {A} (body : T A) (handler : exn -> T A) : T A :=
  match body with
  | (t, Ok a) => (t, Ok a)
  | (t, Raise e) => let (t', r) := handler e in (t ++ t', r)
  end.

Definition callsT {A} (m : T A) : list BoardCall := fst m.
Definition outcomeT {A} (m : T A) : result A := snd m.

Declare Scope board_scope.
Notation "x <~ m ;; k" := (bindT m (fun x => k))
  (at level 61, m at next level, right associativity) : board_scope.
Local Open Scope board_scope.

(** The dictionary built for one board in [_handle_list_boards]. *)
Definition board_info (board : pyval) : result pyval :=
  bind (val_get board "id" PNone) (fun id =>
  bind (val_get board "name" PNone) (fun name =>
  bind (val_get board "type" PNone) (fun type_ =>
  bind (val_get board "location" (PDict [])) (fun location =>
  bind (val_get location "projectKey" (PStr "Unknown")) (fun project =>
  Ok (PDict [("id", id); ("name", name); ("type", type_);
             ("location", project)])))))).

Section BoardHandlers.

Variable client : BoardCall -> result MCPResponse.

Definition callT (c : BoardCall) : T MCPResponse := ([c], client c).

Definition _handle_list_boards (query : string) : T ActionResult :=
  try_exceptT
    (response <~ callT get_boards ;;
     if success response then
       boards_data <~ liftT (val_get (val_of_data (data response))
                                     "values" (PList [])) ;;
       boards <~ liftT (iterate boards_data) ;;
       boards_info <~ liftT (traverse board_info boards) ;;
       retT (mcp "boards_list" (PList boards_info)
               ("Found " ++ str_of_nat (List.length boards_info) ++ " boards")%string)
     else
       retT (mcp_error (error response)
               ("Failed to retrieve boards: " ++ str_of_opt (error response))%string))
    (fun e =>
       retT (mcp_error (Some (exn_msg e))
               ("Error retrieving boards: " ++ exn_msg e)%string)).

Definition _handle_get_board (query : string) : T ActionResult :=
  let words := split query in
  let board_id := scan id_after_board words in
  if negb (set_int board_id) then
    retT (mcp_error (Some "Board ID required")
            "To get board details, please specify a board ID. Example: 'Show board 123'")
  else
    let board_id := match board_id with Some n => n | None => 0%Z end in
    try_exceptT
      (response <~ callT (get_board board_id) ;;
       if success response then
         retT (mcp "board_details" (val_of_data (data response))
                 ("Board details for board " ++ str_of_Z board_id)%string)
       else
         retT (mcp_error (error response)
                 ("Failed to retrieve board " ++ str_of_Z board_id ++ ": "
                  ++ str_of_opt (error response))%string))
      (fun e =>
         retT (mcp_error (Some (exn_msg e))
                 ("Error retrieving board " ++ str_of_Z board_id ++ ": "
                  ++ exn_msg e)%string)).

Definition handle_board_query (query : string) : T ActionResult :=
  let query_lower := lower query in
  if contains "list" query_lower || contains "show" query_lower
     || contains "get all" query_lower
  then _handle_list_boards query
  else _handle_get_board query.

End BoardHandlers.

(** The four fields kept of a board, for a board that is a dictionary
    whose location, when given, is a dictionary. *)
Definition kept_fields (board : pydict) : pyval :=
  PDict [("id", dict_get board "id" PNone);
         ("name", dict_get board "name" PNone);
         ("type", dict_get board "type" PNone);
         ("location",
          match dict_get board "location" (PDict []) with
          | PDict location => dict_get location "projectKey" (PStr "Unknown")
          | _ => PNone
          end)].

(** A dictionary with exactly the four kept fields, in their order. *)
Definition four_fields (info : pyval) : Prop :=
  exists id name type_ location,
    info = PDict [("id", id); ("name", name); ("type", type_);
                  ("location", location)].

Definition location_is_dict (board : pydict) : Prop :=
  exists location, dict_get board "location" (PDict []) = PDict location.

(** A client whose answer holds two boards, one without a location. *)
Definition client_two_boards (c : BoardCall) : result MCPResponse :=
  Ok {| success := true;
        data := Some [("values", PList
                 [PDict [("id", PInt 1); ("name", PStr "Alpha");
                         ("type", PStr "scrum");
                         ("location", PDict [("projectKey", PStr "DEMO")])];
                  PDict [("id", PInt 2); ("name", PStr "Beta");
                         ("type", PStr "kanban")]])];
        error := None |}.

End Boards.

(** ** documentation_scraper.py: chunks of a text *)

Module Docs.
Import Py PyMore.

Definition _chunk_text (text : string) (chunk_size overlap : Z)
  : result (list string) :=
  let words := split text in
  bind (range0 (Z.of_nat (List.length words)) (chunk_size - overlap))
       (fun starts =>
          Ok (map (fun i => join " " (slice words i (i + chunk_size))) starts)).

(** [DocumentationManager.search]: the dictionary it returns for the
    results of the scraper. *)
Inductive DocResult : Type :=
| documentation (results : list pyval) (message : string)
| documentation_error (error : string) (message : string).

Definition search (search_documentation : string -> result (list pyval))
    (query : string) : result DocResult :=
  bind (search_documentation query) (fun results =>
    if negb (is_nil results) then
      Ok (documentation results
            ("Found " ++ str_of_nat (List.length results)
             ++ " relevant documentation sections")%string)
    else
      Ok (documentation_error "No relevant documentation found"
            "No documentation matches your query")).

Definition get_epic_documentation
    (search_documentation : string -> result (list pyval)) : result DocResult :=
  search search_documentation "epic create manage track issues".

Definition get_sprint_documentation
    (search_documentation : string -> result (list pyval)) : result DocResult :=
  search search_documentation "sprint create manage track agile scrum".

End Docs.

(** ** main.py: the chat endpoint *)

Module Main.
Import Py PyMore MCP Boards Docs.

(** The two marks the messages start with, as the source file has them. *)
Definition check_mark : string := "âœ…".
Definition board_mark : string := "ðŸ“‹".

Record ModelMetadata : Type := {
  intents : list (string * Q);
  has_external_context : bool;
  mcp_result : option ActionResult
}.

Record ChatResponseModel : Type := {
  response : string;
  confidence : Q;
  sources : list string;
  metadata : option ModelMetadata;
  timestamp : string
}.

(** What the endpoint gives: the response model, or the HTTPException it
    raises. *)
Inductive Reply : Type :=
| Answer (model : ChatResponseModel)
| HTTPException (status_code : Z) (detail : string).

(** What the endpoint asks of its collaborators, in order. *)
Inductive Event : Type :=
| JiraCall (c : ClientCall)
| BoardEvent (c : BoardCall)
| Search (query : string).

(** [v[k]] for a string key, with the text [str(e)] gives for the error. *)
Definition item (v : pyval) (k : string) : result pyval :=
  match v with
  | PDict d =>
      match dict_find d k with
      | Some x => Ok x
      | None => Raise (Exn KeyError ("'" ++ k ++ "'")%string)
      end
  | PList _ =>
      Raise (Exn TypeError "list indices must be integers or slices, not str")
  | PStr _ => Raise (Exn TypeError "string indices must be integers, not 'str'")
  | _ => Raise (Exn TypeError
                  ("'" ++ type_name v ++ "' object is not subscriptable")%string)
  end.

Definition model_of (r : Chatbot.ChatResponse) (now : string)
  : ChatResponseModel :=
  {| response := Chatbot.message r;
     confidence := Chatbot.confidence r;
     sources := Chatbot.sources r;
     metadata :=
       option_map
         (fun m => {| intents := Chatbot.intents m;
                      has_external_context := Chatbot.has_external_context m;
                      mcp_result := None |})
         (Chatbot.response_metadata r);
     timestamp := now |}.

Definition direct_answer (text : string) (source_tag : string)
    (labels : list (string * Q)) (result : ActionResult) (now : string)
  : ChatResponseModel :=
  {| response := text; confidence := 1%Q; sources := [source_tag];
     metadata := Some {| intents := labels; has_external_context := false;
                         mcp_result := Some result |};
     timestamp := now |}.

Section Chat.

Variable client : ClientCall -> result MCPResponse.
Variable board_client : BoardCall -> result MCPResponse.
(** [doc_manager.scraper.search_documentation] *)
Variable search_documentation : string -> result (list pyval).
Variable pipeline : option (string -> nat -> result pyval).
Variable encoded_length : string -> result nat.
(** [str(v)] for a list or a dictionary *)
Variable repr : pyval -> string.

(** The context made of the message of an MCP result and of its data. *)
Definition data_context (label message : string) (data_ : pyval) : string :=
  let external_context := (label ++ message)%string in
  if truthy_val data_
  then (external_context ++ " Data: "
        ++ stake 500 (format_val repr data_) ++ "...")%string
  else external_context.

Definition documentation_context (doc_result : DocResult) : option string :=
  match doc_result with
  | documentation _ message => Some ("Documentation: " ++ message)%string
  | documentation_error _ _ => None
  end.

(** A branch of the endpoint either returns a model at once or leaves the
    external context for [process_query]. *)
Definition Branch : Type :=
  (list Event * result (ChatResponseModel + option string))%type.

Definition epic_branch (message now : string) : Branch :=
  let (t, r) := handle_epic_query client message in
  let events := map JiraCall t in
  match r with
  | Raise e => (events, Raise e)
  | Ok (mcp type_ data_ text as result) =>
      if String.eqb type_ "epic_created" then
        (events,
         bind (val_get data_ "key" (PStr "Unknown")) (fun epic_key =>
           let success_message :=
             (check_mark ++ " " ++ text ++ " (Epic: "
              ++ format_val repr epic_key ++ ")")%string in
           Ok (inl (direct_answer success_message "mcp_epic_creation"
                      [("epic", 1%Q); ("create", 1%Q)] result now))))
      else (events, Ok (inr (Some (data_context "MCP Epic Data: " text data_))))
  | Ok (mcp_error _ _) =>
      let query := "epic create manage track issues" in
      (events ++ [Search query],
       bind (get_epic_documentation search_documentation) (fun doc_result =>
         Ok (inr (documentation_context doc_result))))
  end.

Definition sprint_branch (message now : string) : Branch :=
  let (t, r) := handle_sprint_query client message in
  let events := map JiraCall t in
  match r with
  | Raise e => (events, Raise e)
  | Ok (mcp type_ data_ text as result) =>
      if String.eqb type_ "sprint_created" then
        (events,
         bind (val_get data_ "id" (PStr "Unknown")) (fun sprint_id =>
         bind (val_get data_ "name" (PStr "Unknown")) (fun sprint_name =>
         bind (val_get data_ "originBoardId" (PStr "Unknown")) (fun board_id =>
           let success_message :=
             (check_mark ++ " " ++ text ++ " (Sprint ID: "
              ++ format_val repr sprint_id ++ ", Board: "
              ++ format_val repr board_id ++ ")")%string in
           Ok (inl (direct_answer success_message "mcp_sprint_creation"
                      [("sprint", 1%Q); ("create", 1%Q)] result now))))))
      else (events, Ok (inr (Some (data_context "MCP Sprint Data: " text data_))))
  | Ok (mcp_error _ _) =>
      let query := "sprint create manage track agile scrum" in
      (events ++ [Search query],
       bind (get_sprint_documentation search_documentation) (fun doc_result =>
         Ok (inr (documentation_context doc_result))))
  end.

(** One line of the list of boards. *)
Definition board_line (board : pyval) : result string :=
  bind (item board "name") (fun name =>
  bind (item board "id") (fun id =>
  bind (item board "type") (fun type_ =>
  bind (item board "location") (fun location =>
    Ok (board_mark ++ " **" ++ format_val repr name ++ "** (ID: "
        ++ format_val repr id ++ ", Type: " ++ format_val repr type_
        ++ ", Project: " ++ format_val repr location ++ ")")%string)))).

Definition board_branch (message now : string) : Branch :=
  let (t, r) := handle_board_query board_client message in
  let events := map BoardEvent t in
  match r with
  | Raise e => (events, Raise e)
  | Ok (mcp type_ data_ text as result) =>
      if String.eqb type_ "boards_list" then
        (events,
         bind (iterate data_) (fun boards =>
         bind (traverse board_line boards) (fun lines =>
         bind (len data_) (fun total =>
           let boards_text := join Chatbot.nl lines in
           let success_message :=
             (board_mark ++ " **Available Boards:**" ++ Chatbot.nl ++ Chatbot.nl
              ++ boards_text ++ Chatbot.nl ++ Chatbot.nl ++ "Total: "
              ++ str_of_nat total ++ " boards")%string in
           Ok (inl (direct_answer success_message "mcp_boards_list"
                      [("board", 1%Q); ("list", 1%Q)] result now))))))
      else (events, Ok (inr (Some (data_context "MCP Board Data: " text data_))))
  | Ok (mcp_error _ _) =>
      (events,
       Ok (inr (Some "Board documentation: Jira boards help you visualize and manage your work. You can create different types of boards like Scrum boards, Kanban boards, etc.")))
  end.

Definition search_branch (message : string) : Branch :=
  ([Search message],
   bind (search search_documentation message) (fun doc_result =>
     Ok (inr (documentation_context doc_result)))).

(** [chat(request)] for the message of the request, from the log of the
    chatbot: what was asked of the collaborators, the reply, and the log
    afterwards. [now1] and [now2] are the clock inside [process_query],
    [now] at the return. *)
Definition chat (log : list Chatbot.ChatMessage) (now1 now2 now : string)
    (message : string) : list Event * Reply * list Chatbot.ChatMessage :=
  let query_lower := lower message in
  let (events, branch) :=
    if Chatbot.any_in ["epic"; "epics"] query_lower
    then epic_branch message now
    else if Chatbot.any_in ["sprint"; "sprints"] query_lower
    then sprint_branch message now
    else if Chatbot.any_in ["board"; "boards"] query_lower
    then board_branch message now
    else search_branch message in
  let failed (e : exn) :=
    HTTPException 500 ("Error processing chat request: " ++ exn_msg e)%string in
  match branch with
  | Raise e => (events, failed e, log)
  | Ok (inl model) => (events, Answer model, log)
  | Ok (inr external_context) =>
      match Chatbot.process_query pipeline encoded_length log now1 now2
              message external_context with
      | Ok (r, log') => (events, Answer (model_of r now), log')
      | Raise e => (events, failed e, log)
      end
  end.

End Chat.

(** Collaborators to run the endpoint with. *)
Definition no_documents (query : string) : result (list pyval) := Ok [].

Definition two_documents (query : string) : result (list pyval) :=
  Ok [PDict [("content", PStr "Epics group work.")];
      PDict [("content", PStr "Sprints are time boxes.")]].

Definition client_creating (c : ClientCall) : result MCPResponse :=
  Ok {| success := true;
        data := Some [("id", PStr "10001"); ("key", PStr "DEMO-7")];
        error := None |}.

End Main.

(** ** documentation_scraper.py: the links of the resources page *)

Module Links.
Import Py PyMore.

(** The loop of [discover_documentation_pages] over the [href] of the
    links of the page, in order; [hrefs] is an exception when the page
    cannot be fetched or read. *)
Definition keep_link (links : list string) (href : string) : list string :=
  if startswith href "/" then
    let href := ("https://support.atlassian.com" ++ href)%string in
    links
  else if startswith href "http" then
    if contains "support.atlassian.com" href
       && contains "jira-software-cloud" href
    then links ++ [href] else links
  else links.

Definition discover_documentation_pages (hrefs : result (list string))
  : list string :=
  match try_except
          (bind hrefs (fun hrefs =>
             Ok (list_of_set (fold_left keep_link hrefs []))))
          (fun _ => Ok [])
  with
  | Ok links => links
  | Raise _ => []
  end.

End Links.

(** ** ollama_client.py *)

Module Ollama.
Import Py PyMore.

Record OllamaMessage : Type := {
  role : string;
  content : pyval
}.

(** What [requests.post] followed by [raise_for_status] and [json] ends
    in: the JSON object of the answer, a [RequestException] (no
    connection, timeout, error status), or another exception. *)
Inductive Posted : Type :=
| Json (body : pydict)
| RequestException (text : string)
| OtherException (e : exn).

Definition max_history : nat := 10.

Definition _prepare_prompt (user_input context : string) : string :=
  let system_prompt :=
    "You are a helpful Jira customer support chatbot. You help users with questions about Jira Software Cloud, including Epics, Sprints, Issues, and other Jira features. Be helpful, accurate, and concise in your responses." in
  if truthy context
  then (system_prompt ++ Chatbot.nl ++ Chatbot.nl ++ "Context: " ++ context)%string
  else system_prompt.

(** [key in d] *)
Definition has_key (d : pydict) (key : string) : bool :=
  match dict_find d key with Some _ => true | None => false end.

Section Client.

Variable base_url : string.
Variable model : string.
(** The answer to the POST of [data] at [url]; of the entries of [data]
    the model and the prompt vary, the others are constants. *)
Variable post : string -> string -> string -> Posted.

Definition _make_request (endpoint : string) (model_ prompt : string)
  : result pydict :=
  let url := (base_url ++ endpoint)%string in
  match post url model_ prompt with
  | Json body => Ok body
  | RequestException text => Ok [("error", PStr text)]
  | OtherException e => Raise e
  end.

(** [generate_response]: the history afterwards, and the value returned
    or the exception. The fallback text is the one of [chatbot_core]. *)
Definition generate_response (conversation_history : list OllamaMessage)
    (prompt context : string) : list OllamaMessage * result pyval :=
  let full_prompt := _prepare_prompt prompt context in
  let conversation_history :=
    conversation_history ++ [{| role := "user"; content := PStr prompt |}] in
  let messages :=
    map (fun msg => PDict [("role", PStr (role msg)); ("content", content msg)])
        (last_n max_history conversation_history) in
  match _make_request "/api/generate" model prompt with
  | Raise e => (conversation_history, Raise e)
  | Ok response =>
      if has_key response "error" then
        (conversation_history,
         Ok (PStr (Chatbot._generate_fallback_response prompt)))
      else if has_key response "response" then
        let assistant_message := dict_get response "response" PNone in
        let conversation_history :=
          conversation_history
          ++ [{| role := "assistant"; content := assistant_message |}] in
        let conversation_history :=
          if max_history <? List.length conversation_history
          then last_n max_history conversation_history
          else conversation_history in
        (conversation_history, Ok assistant_message)
      else
        (conversation_history,
         Ok (PStr (Chatbot._generate_fallback_response prompt)))
  end.

(** The prompts of a session, one after the other, with their contexts. *)
Definition ask_all (conversation_history : list OllamaMessage)
    (prompts : list (string * string)) : list OllamaMessage :=
  fold_left (fun history pc => fst (generate_response history (fst pc) (snd pc)))
            prompts conversation_history.

End Client.

Definition unreachable (url model_ prompt : string) : Posted :=
  RequestException "Connection refused".

End Ollama.

(** ** Facts about the built-ins *)

Module PyFacts.
Import Py Design.

Lemma sdrop_empty (n : nat) : sdrop n "" = "".
Proof. destruct n; reflexivity. Qed.

Lemma truthy_true (s : string) : truthy s = true <-> s <> "".
Proof. destruct s; simpl; split; congruence. Qed.

(** *** Last elements of a list *)

Lemma last_n_short {A} (n : nat) (l : list A) :
  length l <= n -> last_n n l = l.
Proof.
  intros H. unfold last_n. replace (length l - n) with 0 by lia. reflexivity.
Qed.

Lemma length_last_n {A} (n : nat) (l : list A) :
  length (last_n n l) = Nat.min n (length l).
Proof. unfold last_n. rewrite length_skipn. lia. Qed.

Lemma last_n_app_last_n {A} (n : nat) (l l' : list A) :
  last_n n (last_n n l ++ l') = last_n n (l ++ l').
Proof.
  unfold last_n.
  set (d := length l - n).
  assert (Hd : skipn d l ++ l' = skipn d (l ++ l')).
  { rewrite skipn_app. replace (d - length l) with 0 by (unfold d; lia).
    reflexivity. }
  rewrite Hd, skipn_skipn, length_skipn. f_equal.
  rewrite length_app. unfold d. lia.
Qed.

(** *** Occurrence up to case *)

Lemma same_letter_eq (a b : ascii) :
  same_letter a b = true <-> lower_char a = lower_char b.
Proof. unfold same_letter. apply Ascii.eqb_eq. Qed.

(** Against a keyword in small letters, the test of the code on the
    lowered text is the occurrence up to case. *)
Lemma prefix_lower (keyword text : string) :
  lower keyword = keyword ->
  String.prefix keyword (lower text) = ci_prefix keyword text.
Proof.
  revert text. induction keyword as [|k keyword IH]; intros text Hk.
  - destruct text; reflexivity.
  - destruct text as [|c text]; [reflexivity|].
    unfold lower in *. simpl in Hk. injection Hk as Hk1 Hk2.
    simpl. unfold same_letter. rewrite Hk1.
    destruct (ascii_dec k (lower_char c)) as [->|Hne].
    + rewrite Ascii.eqb_refl. simpl. now apply IH.
    + apply Ascii.eqb_neq in Hne. now rewrite Hne.
Qed.

Lemma contains_lower (keyword text : string) :
  lower keyword = keyword ->
  contains keyword (lower text) = ci_occurs keyword text.
Proof.
  intros Hk. induction text as [|c text IH].
  - destruct keyword; reflexivity.
  - change (lower (String c text)) with (String (lower_char c) (lower text)).
    cbn [contains ci_occurs]. rewrite IH.
    change (String (lower_char c) (lower text)) with (lower (String c text)).
    now rewrite prefix_lower.
Qed.

Lemma any_in_lower (keywords : list string) (text : string) :
  Forall (fun keyword => lower keyword = keyword) keywords ->
  Chatbot.any_in keywords (lower text) = any_occurs keywords text.
Proof.
  unfold Chatbot.any_in, any_occurs.
  induction 1 as [|k ks Hk _ IH]; simpl; [reflexivity|].
  now rewrite IH, contains_lower.
Qed.

(** What [ci_prefix] and [ci_occurs] decide. *)
Lemma ci_prefix_spec (keyword text : string) :
  ci_prefix keyword text = true <->
  exists mid post, text = (mid ++ post)%string /\ lower mid = lower keyword.
Proof.
  revert text. induction keyword as [|k keyword IH]; intros text.
  - split; [intros _; exists "", text; now split|].
    destruct text; reflexivity.
  - destruct text as [|c text]; simpl.
    + split; [discriminate|].
      intros (mid & post & H & Hl). destruct mid; simpl in *; try discriminate.
    + rewrite andb_true_iff, same_letter_eq, IH. split.
      * intros (Hc & mid & post & -> & Hl).
        exists (String c mid), post. split; [reflexivity|].
        unfold lower in *. simpl. now rewrite Hl, Hc.
      * intros (mid & post & H & Hl).
        destruct mid as [|m mid]; [discriminate|].
        simpl in H. injection H as -> ->.
        unfold lower in *. simpl in Hl. injection Hl as Hc Hl.
        split; [now symmetry|]. now exists mid, post.
Qed.

Lemma ci_occurs_spec (keyword text : string) :
  ci_occurs keyword text = true <->
  exists pre mid post,
    text = (pre ++ mid ++ post)%string /\ lower mid = lower keyword.
Proof.
  induction text as [|c text IH].
  - simpl. rewrite orb_false_r. split.
    + intros H. exists "". now apply ci_prefix_spec.
    + intros (pre & mid & post & H & Hl).
      destruct pre; [|discriminate]. apply ci_prefix_spec. now exists mid, post.
  - cbn [ci_occurs]. rewrite orb_true_iff, IH, ci_prefix_spec. split.
    + intros [(mid & post & H & Hl) | (pre & mid & post & H & Hl)].
      * exists "", mid, post. now split.
      * exists (String c pre), mid, post. split; [now rewrite H|exact Hl].
    + intros (pre & mid & post & H & Hl). destruct pre as [|p pre].
      * left. now exists mid, post.
      * right. simpl in H. injection H as -> ->. now exists pre, mid, post.
Qed.

End PyFacts.

(** ** Properties of chatbot_core.py *)

Module ChatbotProps.
Import Py Chatbot Design PyFacts.

(** *** The conversation log *)

Lemma add_message_last_n log now role content metadata :
  add_message log now role content metadata =
  last_n max_history
    (log ++ [{| role := role; content := content; timestamp := now;
                metadata := metadata |}]).
Proof.
  unfold add_message.
  destruct (max_history <? length _) eqn:E; [reflexivity|].
  apply Nat.ltb_ge in E. now rewrite last_n_short.
Qed.

Lemma append_all_last_n (turns log : list ChatMessage) :
  append_all (last_n max_history log) turns = last_n max_history (log ++ turns).
Proof.
  revert log. induction turns as [|turn turns IH]; intros log; simpl.
  - now rewrite app_nil_r.
  - rewrite add_message_last_n, last_n_app_last_n.
    destruct turn as [r c t m]; simpl.
    rewrite IH, <- app_assoc. reflexivity.
Qed.

(** C3. Whatever turns are appended to the empty log, the log never holds
    more than [max_history = 10] turns and is the last 10 turns appended,
    in their order; after [10 + k] appends the [k] oldest are gone. *)
Theorem log_keeps_last_ten (turns : list ChatMessage) :
  length (append_all [] turns) <= 10
  /\ append_all [] turns = last_n 10 turns
  /\ (forall k, length turns = 10 + k -> append_all [] turns = skipn k turns).
Proof.
  assert (H : append_all [] turns = last_n max_history turns).
  { change (@nil ChatMessage) with (last_n max_history (@nil ChatMessage)).
    now rewrite append_all_last_n. }
  rewrite H. change max_history with 10. repeat split.
  - rewrite length_last_n. lia.
  - intros k Hk. unfold last_n. rewrite Hk. f_equal. lia.
Qed.

Lemma log_keeps_last_ten_witness :
  append_all [] (map numbered_turn (seq 0 12))
  = map numbered_turn (seq 2 10).
Proof.
  apply (proj2 (proj2 (log_keeps_last_ten (map numbered_turn (seq 0 12)))) 2).
  reflexivity.
Defined.

(** *** The context window *)

(** C8. From the empty log, a user turn [t1] and then an assistant turn
    [t2] give the context ["user: t1" newline "assistant: t2"]; the empty
    log gives the empty string. *)
Theorem context_round_trip (t1 t2 now1 now2 : string)
    (metadata1 metadata2 : option Metadata) :
  get_conversation_context
    (add_message (add_message [] now1 "user" t1 metadata1)
                 now2 "assistant" t2 metadata2)
  = ("user: " ++ t1 ++ nl ++ "assistant: " ++ t2)%string
  /\ get_conversation_context [] = "".
Proof.
  split; [|reflexivity].
  cbv [add_message get_conversation_context max_history last_n app length
       Nat.ltb Nat.leb is_nil Nat.sub skipn map join String.concat
       role content].
  simpl. reflexivity.
Qed.

(** *** The classifier *)

Lemma keyword_score_count (keywords : list string) (text : string) :
  keyword_score keywords text =
  length (filter (fun keyword => contains keyword text) keywords).
Proof.
  unfold keyword_score.
  enough (H : forall n,
    fold_left (fun score keyword =>
                 if contains keyword text then score + 1 else score)
              keywords n
    = n + length (filter (fun keyword => contains keyword text) keywords))
    by apply (H 0).
  induction keywords as [|k ks IH]; intros n; simpl; [lia|].
  rewrite IH. destruct (contains k text); simpl; lia.
Qed.

Lemma keyword_score_matched (keywords : list string) (query : string) :
  all_small keywords ->
  keyword_score keywords (lower query) = matched_count keywords query.
Proof.
  intros Hs. rewrite keyword_score_count. unfold matched_count. f_equal.
  apply filter_ext_in. intros k Hk. apply contains_lower.
  unfold all_small in Hs. rewrite Forall_forall in Hs. now apply Hs.
Qed.

Lemma intent_keywords_small :
  Forall (fun entry => all_small (snd entry)) intent_keywords.
Proof. repeat constructor. Qed.

Lemma intent_labels_distinct : NoDup (map fst intent_keywords).
Proof.
  repeat (constructor; [simpl; intuition discriminate|]). constructor.
Qed.

Lemma dict_set_fresh {V} (d : list (string * V)) (k : string) (v : V) :
  ~ In k (map fst d) -> dict_set d k v = d ++ [(k, v)].
Proof.
  induction d as [|[k' v'] d IH]; simpl; intros H; [reflexivity|].
  destruct (String.eqb_spec k' k) as [->|Hne]; [tauto|].
  rewrite IH; tauto.
Qed.

(** The loop over the table adds the labels in the order of the table. *)
Lemma classify_loop (score : list string -> nat)
    (table : list (string * list string)) :
  NoDup (map fst table) ->
  forall scores,
    (forall label, In label (map fst table) -> ~ In label (map fst scores)) ->
    fold_left
      (fun intent_scores entry =>
         let '(intent, keywords) := entry in
         if 0 <? score keywords
         then dict_set intent_scores intent
                       (ratio (score keywords) (length keywords))
         else intent_scores)
      table scores
    = scores ++
      flat_map
        (fun entry : string * list string =>
           let (label, keywords) := entry in
           if 0 <? score keywords
           then [(label, ratio (score keywords) (length keywords))]
           else [])
        table.
Proof.
  induction table as [|[label keywords] table IH]; intros Hnd scores Hfresh.
  - simpl. now rewrite app_nil_r.
  - simpl in Hnd. inversion Hnd as [|? ? Hnotin Hnd']; subst.
    cbn [fold_left flat_map].
    destruct (0 <? score keywords).
    + rewrite dict_set_fresh by (apply Hfresh; now left).
      rewrite IH; [now rewrite <- app_assoc | assumption |].
      intros l Hl. rewrite map_app, in_app_iff. simpl.
      intros [H | [<- | []]]; [|contradiction].
      revert H. apply Hfresh. now right.
    + rewrite IH; [reflexivity | assumption |].
      intros l Hl. apply Hfresh. now right.
Qed.

Lemma classify_intent_flat (query : string) :
  classify_intent query =
  flat_map
    (fun entry : string * list string =>
       let (label, keywords) := entry in
       if 0 <? keyword_score keywords (lower query)
       then [(label, ratio (keyword_score keywords (lower query))
                           (length keywords))]
       else [])
    intent_keywords.
Proof.
  unfold classify_intent.
  rewrite (classify_loop (fun keywords => keyword_score keywords (lower query)));
    [reflexivity | apply intent_labels_distinct | intros ? ? []].
Qed.

Lemma classify_intent_design (query : string) :
  classify_intent query = classify query.
Proof.
  rewrite classify_intent_flat. unfold classify.
  pose proof intent_keywords_small as Hs.
  induction Hs as [|[label keywords] table Hk _ IH]; [reflexivity|].
  cbn [flat_map]. simpl in Hk. rewrite IH, keyword_score_matched by assumption.
  reflexivity.
Qed.

Lemma matched_count_le (keywords : list string) (query : string) :
  matched_count keywords query <= length keywords.
Proof. apply filter_length_le. Qed.

Lemma matched_count_pos (keywords : list string) (keyword query : string) :
  In keyword keywords -> ci_occurs keyword query = true ->
  0 < matched_count keywords query.
Proof.
  intros Hin Hocc. unfold matched_count.
  assert (H : In keyword (filter (fun k => ci_occurs k query) keywords))
    by (apply filter_In; now split).
  destruct (filter _ keywords); [contradiction | simpl; lia].
Qed.

Lemma ratio_bounds (m n : nat) : 0 < m <= n -> (0 < ratio m n /\ ratio m n <= 1)%Q.
Proof.
  intros [Hm Hn]. unfold ratio, Qlt, Qle. simpl. split; [lia|].
  rewrite Z.mul_1_r. rewrite <- positive_nat_Z, Nat2Pos.id by lia. lia.
Qed.

(** C4. The classifier returns the score map of the design: per label, the
    number of its keywords that occur in the query up to case, over the
    number of its keywords, the labels without a match left out. A query in
    which a keyword of a label occurs scores that label above 0, every
    score is in (0, 1], and the empty query gives the empty map. *)
Theorem classifier_scores (query : string) :
  classify_intent query = classify query
  /\ (forall label keywords keyword,
        In (label, keywords) intent_keywords -> In keyword keywords ->
        ci_occurs keyword query = true ->
        exists score,
          In (label, score) (classify_intent query) /\ (0 < score)%Q)
  /\ (forall label score,
        In (label, score) (classify_intent query) ->
        (0 < score /\ score <= 1)%Q)
  /\ classify_intent "" = [].
Proof.
  rewrite classify_intent_design. repeat split.
  - intros label keywords keyword Hentry Hkw Hocc.
    pose proof (matched_count_pos _ _ _ Hkw Hocc) as Hpos.
    exists (ratio (matched_count keywords query) (length keywords)). split.
    + unfold classify. apply in_flat_map. exists (label, keywords).
      split; [assumption|].
      apply Nat.ltb_lt in Hpos. rewrite Hpos. now left.
    + apply ratio_bounds. split; [assumption | apply matched_count_le].
  - revert H. unfold classify. rewrite in_flat_map.
    intros ([l keywords] & _ & Hin).
    destruct (0 <? matched_count keywords query) eqn:E; [|contradiction].
    destruct Hin as [Heq | []]. injection Heq as _ <-.
    apply ratio_bounds. apply Nat.ltb_lt in E.
    split; [assumption | apply matched_count_le].
  - revert H. unfold classify. rewrite in_flat_map.
    intros ([l keywords] & _ & Hin).
    destruct (0 <? matched_count keywords query) eqn:E; [|contradiction].
    destruct Hin as [Heq | []]. injection Heq as _ <-.
    apply ratio_bounds. apply Nat.ltb_lt in E.
    split; [assumption | apply matched_count_le].
Qed.

Lemma classifier_scores_witness :
  exists score,
    In ("sprint", score) (classify_intent "Show me all SPRINTS") /\ (0 < score)%Q.
Proof.
  apply (proj1 (proj2 (classifier_scores "Show me all SPRINTS"))
           "sprint" ["sprint"; "sprints"; "iteration"; "sprint planning"; "agile"]
           "sprints").
  - simpl. tauto.
  - simpl. tauto.
  - reflexivity.
Defined.

(** *** The generator and [process_query] *)

Lemma fallback_nonempty (prompt : string) :
  truthy (_generate_fallback_response prompt) = true.
Proof.
  unfold _generate_fallback_response.
  repeat match goal with
         | |- context [if ?b then _ else _] => destruct b
         end; reflexivity.
Qed.

Lemma clean_nothing (full_prompt : string) :
  _clean_response
    (if startswith "" full_prompt
     then strip (sdrop (String.length full_prompt) "")
     else strip "") = "".
Proof.
  rewrite sdrop_empty. destruct (startswith "" full_prompt); reflexivity.
Qed.

(** [generate_response] returns a text that is not empty, and the canned
    text when the generator gives nothing usable. *)
Lemma generate_response_answers pipeline encoded_length prompt context :
  exists text,
    generate_response pipeline encoded_length prompt context = Ok text
    /\ truthy text = true
    /\ (generator_silent pipeline encoded_length
          (_format_prompt prompt context) = true ->
        text = _generate_fallback_response prompt).
Proof.
  unfold generate_response, generator_silent.
  destruct pipeline as [run|].
  - destruct (generated_text_of encoded_length run (_format_prompt prompt context))
      as [generated_text|e]; cbn [bind try_except].
    + match goal with
      | |- context [truthy (_clean_response ?t)] => set (cleaned := _clean_response t)
      end.
      destruct (truthy cleaned) eqn:E.
      * exists cleaned. repeat split; [assumption|].
        intros Hs. apply negb_true_iff in Hs.
        destruct generated_text; [|discriminate].
        unfold cleaned in E. now rewrite clean_nothing in E.
      * eexists. repeat split. apply fallback_nonempty.
    + eexists. repeat split. apply fallback_nonempty.
  - eexists. repeat split. apply fallback_nonempty.
Qed.

(** C1. For every log, input and optional external context, and whatever
    the generator does, [process_query] returns a response and raises
    nothing; the message is never empty, it is the answer of
    [generate_response], and it is the canned fallback text whenever the
    generator fails or gives an empty text. The log gains the two turns. *)
Theorem process_query_always_answers
    (pipeline : option (string -> nat -> result pyval))
    (encoded_length : string -> result nat)
    (log : list ChatMessage) (now1 now2 user_input : string)
    (external_context : option string) :
  exists response log',
    process_query pipeline encoded_length log now1 now2
                  user_input external_context = Ok (response, log')
    /\ message response <> ""
    /\ (exists context,
          generate_response pipeline encoded_length user_input context
            = Ok (message response)
          /\ (generator_silent pipeline encoded_length
                (_format_prompt user_input context) = true ->
              message response = _generate_fallback_response user_input))
    /\ log' = add_message (add_message log now1 "user" user_input None)
                now2 "assistant" (message response)
                (response_metadata response).
Proof.
  unfold process_query.
  match goal with
  | |- context [generate_response _ _ _ ?c] => set (context := c)
  end.
  destruct (generate_response_answers pipeline encoded_length user_input context)
    as (text & Hgen & Hne & Hsilent).
  rewrite Hgen. cbn [bind].
  assert (Hconf : exists q,
    (if negb (is_nil (classify_intent user_input))
     then max_Q (map snd (classify_intent user_input))
     else Ok (5 # 10)%Q) = Ok q).
  { destruct (classify_intent user_input) as [|entry rest]; simpl;
      eexists; reflexivity. }
  destruct Hconf as (q & Hq). rewrite Hq. cbn [bind].
  eexists. eexists. split; [reflexivity|]. cbn [message response_metadata].
  split; [now apply truthy_true|].
  split; [|reflexivity].
  exists context. now split.
Qed.

Lemma process_query_always_answers_witness :
  exists response log',
    process_query (Some (fun _ _ => Raise (Exn RuntimeError "out of memory")))
                  (fun _ => Ok 7) [] "t1" "t2" "Create epic" None
      = Ok (response, log')
    /\ message response = _generate_fallback_response "Create epic".
Proof.
  destruct (process_query_always_answers
              (Some (fun _ _ => Raise (Exn RuntimeError "out of memory")))
              (fun _ => Ok 7) [] "t1" "t2" "Create epic" None)
    as (response & log' & Hrun & _ & (context & Hgen & Hsilent) & _).
  exists response, log'. split; [exact Hrun|].
  apply Hsilent. reflexivity.
Defined.

End ChatbotProps.

(** ** Properties of the handlers of mcp_client.py *)

Module MCPProps.
Import Py MCP Design PyFacts.

(** *** Routing *)

Lemma three_keywords (a b c text : string) :
  all_small [a; b; c] ->
  contains a (lower text) || contains b (lower text) || contains c (lower text)
  = any_occurs [a; b; c] text.
Proof.
  intros Hs. rewrite <- any_in_lower by exact Hs.
  unfold Chatbot.any_in. simpl. now rewrite orb_false_r, orb_assoc.
Qed.

Ltac small_keywords := repeat constructor.

Lemma route_epic client (query : string) :
  handle_epic_query client query =
  match verb_of query with
  | ListVerb => _handle_list_epics client query
  | CreateVerb => _handle_create_epic client query
  | UpdateVerb => _handle_update_epic query
  | GetVerb => _handle_get_epic client query
  end.
Proof.
  unfold handle_epic_query, verb_of.
  rewrite !three_keywords by small_keywords.
  repeat match goal with
         | |- context [if ?b then _ else _] => destruct b
         end; reflexivity.
Qed.

Lemma route_sprint client (query : string) :
  handle_sprint_query client query =
  match verb_of query with
  | ListVerb => _handle_list_sprints client query
  | CreateVerb => _handle_create_sprint client query
  | UpdateVerb => _handle_update_sprint query
  | GetVerb => _handle_get_sprint client query
  end.
Proof.
  unfold handle_sprint_query, verb_of.
  rewrite !three_keywords by small_keywords.
  repeat match goal with
         | |- context [if ?b then _ else _] => destruct b
         end; reflexivity.
Qed.

(** C9. The verb is chosen with a fixed precedence: list, show, get all
    before create, add, new before update, modify, change, and the get
    handler otherwise; the keywords are found up to case anywhere in the
    query. Both entity kinds route the same way. *)
Theorem verb_precedence client (query : string) :
  handle_epic_query client query =
    (if any_occurs ["list"; "show"; "get all"] query
     then _handle_list_epics client query
     else if any_occurs ["create"; "add"; "new"] query
     then _handle_create_epic client query
     else if any_occurs ["update"; "modify"; "change"] query
     then _handle_update_epic query
     else _handle_get_epic client query)
  /\ handle_sprint_query client query =
    (if any_occurs ["list"; "show"; "get all"] query
     then _handle_list_sprints client query
     else if any_occurs ["create"; "add"; "new"] query
     then _handle_create_sprint client query
     else if any_occurs ["update"; "modify"; "change"] query
     then _handle_update_sprint query
     else _handle_get_sprint client query).
Proof.
  rewrite route_epic, route_sprint. unfold verb_of.
  repeat match goal with
         | |- context [if ?b then _ else _] => destruct b
         end; split; reflexivity.
Qed.

(** C7. A query with an update keyword and no list or create keyword gets,
    for epics and for sprints, the error that the update needs additional
    parameters, and the client is not called; the update handlers answer
    so on every query. *)
Theorem update_needs_parameters client (query : string) :
  any_occurs ["list"; "show"; "get all"] query = false ->
  any_occurs ["create"; "add"; "new"] query = false ->
  any_occurs ["update"; "modify"; "change"] query = true ->
  handle_epic_query client query =
    ([], Ok (mcp_error (Some "Epic update requires additional parameters")
               "To update an epic, please provide: epic key and fields to update"))
  /\ handle_sprint_query client query =
    ([], Ok (mcp_error (Some "Sprint update requires additional parameters")
               "To update a sprint, please provide: sprint ID and fields to update"))
  /\ _handle_update_epic query = handle_epic_query client query
  /\ _handle_update_sprint query = handle_sprint_query client query.
Proof.
  intros Hl Hc Hu. rewrite route_epic, route_sprint. unfold verb_of.
  rewrite Hl, Hc, Hu. repeat split.
Qed.

Lemma update_needs_parameters_witness :
  calls (handle_epic_query client_some_items "Please CHANGE epic PROJ-7") = []
  /\ calls (handle_sprint_query client_some_items "modify sprint 12") = [].
Proof.
  split.
  - rewrite (proj1 (update_needs_parameters client_some_items
                      "Please CHANGE epic PROJ-7" eq_refl eq_refl eq_refl)).
    reflexivity.
  - rewrite (proj1 (proj2 (update_needs_parameters client_some_items
                             "modify sprint 12" eq_refl eq_refl eq_refl))).
    reflexivity.
Defined.

(** *** The get handler of epics *)

Lemma scan_epic_key_none (words : list string) :
  existsb epic_token words = false -> scan epic_key_of words = None.
Proof.
  induction words as [|w ws IH]; simpl; [reflexivity|].
  intros H. apply orb_false_iff in H as [Hw Hws].
  unfold epic_key_of. fold (epic_token w). rewrite Hw. now apply IH.
Qed.

Lemma scan_epic_key_some (words : list string) :
  existsb epic_token words = true ->
  exists w, In w words /\ epic_token w = true
            /\ scan epic_key_of words = Some (upper w).
Proof.
  induction words as [|w ws IH]; simpl; [discriminate|].
  intros H. unfold epic_key_of at 1. fold (epic_token w).
  destruct (epic_token w) eqn:E.
  - exists w. auto.
  - simpl in H. destruct (IH H) as (w' & Hin & Ht & Hs).
    exists w'. auto.
Qed.

Lemma epic_token_truthy (w : string) :
  epic_token w = true -> truthy (upper w) = true.
Proof. unfold epic_token, startswith. destruct (upper w); [discriminate | reflexivity]. Qed.

(** C10. When no word of the query, in capitals, starts with EPIC- or
    PROJ-, the get handler of epics answers that no epic key was found and
    does not call the client, so a key such as DEMO-123 is not recognised;
    when some word does, the handler asks the client for that word in
    capitals. *)
Theorem get_epic_needs_prefixed_key client (query : string) :
  (existsb epic_token (split query) = false ->
   _handle_get_epic client query =
     ([], Ok (mcp_error (Some "No epic key found in query")
                "Please specify an epic key (e.g., EPIC-123)")))
  /\ (existsb epic_token (split query) = true ->
      exists word,
        In word (split query) /\ epic_token word = true
        /\ calls (_handle_get_epic client query) = [get_epic (upper word)]).
Proof.
  unfold _handle_get_epic. split; intros H.
  - now rewrite scan_epic_key_none.
  - destruct (scan_epic_key_some _ H) as (w & Hin & Ht & Hs).
    exists w. repeat split; try assumption.
    rewrite Hs. cbn [set_str str_of_opt]. rewrite (epic_token_truthy _ Ht).
    cbn [negb]. unfold call, bindM, calls.
    destruct (client (get_epic (upper w))) as [response|e]; [|reflexivity].
    destruct (success response); reflexivity.
Qed.

Lemma get_epic_needs_prefixed_key_witness :
  _handle_get_epic client_some_items "What is the status of DEMO-123 ?" =
    ([], Ok (mcp_error (Some "No epic key found in query")
               "Please specify an epic key (e.g., EPIC-123)"))
  /\ exists word,
       In word (split "tell me about proj-12 now")
       /\ epic_token word = true
       /\ calls (_handle_get_epic client_some_items "tell me about proj-12 now")
          = [get_epic (upper word)].
Proof.
  split.
  - apply (proj1 (get_epic_needs_prefixed_key client_some_items
                    "What is the status of DEMO-123 ?")).
    reflexivity.
  - apply (proj2 (get_epic_needs_prefixed_key client_some_items
                    "tell me about proj-12 now")).
    reflexivity.
Defined.

(** *** The list handlers *)

Lemma list_sprints_cases client (query : string) (response : MCPResponse) :
  client (get_sprints None) = Ok response ->
  _handle_list_sprints client query =
  if success response && set_dict (data response) then
    match len (returned_collection "values" response) with
    | Ok n =>
        ([get_sprints None],
         Ok (mcp "sprint_list" (returned_collection "values" response)
                 ("Found " ++ str_of_nat n ++ " sprints")%string))
    | Raise e => ([get_sprints None], Raise e)
    end
  else ([get_sprints None],
        Ok (mcp_error (error response) "Failed to retrieve sprints")).
Proof.
  intros Hc. unfold _handle_list_sprints, call, bindM. rewrite Hc.
  destruct (success response && set_dict (data response)); [|reflexivity].
  unfold returned_collection, lift.
  destruct (len _); reflexivity.
Qed.

Lemma list_epics_cases client (query : string) (response : MCPResponse) :
  client (get_epics None) = Ok response ->
  _handle_list_epics client query =
  if success response && set_dict (data response) then
    match len (returned_collection "issues" response) with
    | Ok n =>
        ([get_epics None],
         Ok (mcp "epic_list" (returned_collection "issues" response)
                 ("Found " ++ str_of_nat n ++ " epics")%string))
    | Raise e => ([get_epics None], Raise e)
    end
  else ([get_epics None],
        Ok (mcp_error (error response) "Failed to retrieve epics")).
Proof.
  intros Hc. unfold _handle_list_epics, call, bindM. rewrite Hc.
  destruct (success response && set_dict (data response)); [|reflexivity].
  unfold returned_collection, lift.
  destruct (len _); reflexivity.
Qed.

(** C5, at the input where the code fails it: the call succeeds with the
    empty body [{}] (what [_make_request] builds for an answer without
    content), the collection of the answer is empty, and the list handlers
    return the error, with no error text, where the claim asks for the
    list result "Found 0 sprints". The guard [response.success and
    response.data] takes the empty dictionary for a failed call; the list
    handler of boards and the get handlers test [response.success] alone
    ([BoardProps.list_boards_empty_body]). *)
Lemma list_empty_body_is_failure :
  success {| success := true; data := Some []; error := None |} = true
  /\ returned_collection "values"
       {| success := true; data := Some []; error := None |} = PList []
  /\ handle_sprint_query client_empty_body "Show me all sprints" =
       ([get_sprints None], Ok (mcp_error None "Failed to retrieve sprints"))
  /\ handle_epic_query client_empty_body "list all epics" =
       ([get_epics None], Ok (mcp_error None "Failed to retrieve epics")).
Proof. repeat split. Qed.

(** Where the list handlers do what the claim says: when the call succeeds
    with a body that is not empty and the collection in it is empty or
    absent, they return the list result with an empty payload and the
    message "Found 0 sprints" or "Found 0 epics". The error is returned
    when the call fails and, by the guard above, when the body of a
    successful answer is empty or absent. *)
Lemma list_handlers_empty_collection client (query : string)
    (response : MCPResponse) :
  (client (get_sprints None) = Ok response ->
     (success response = true -> set_dict (data response) = true ->
      returned_collection "values" response = PList [] ->
      _handle_list_sprints client query =
        ([get_sprints None], Ok (mcp "sprint_list" (PList []) "Found 0 sprints")))
     /\ ((exists e m,
            outcome (_handle_list_sprints client query) = Ok (mcp_error e m))
         <-> success response = false \/ set_dict (data response) = false))
  /\ (client (get_epics None) = Ok response ->
     (success response = true -> set_dict (data response) = true ->
      returned_collection "issues" response = PList [] ->
      _handle_list_epics client query =
        ([get_epics None], Ok (mcp "epic_list" (PList []) "Found 0 epics")))
     /\ ((exists e m,
            outcome (_handle_list_epics client query) = Ok (mcp_error e m))
         <-> success response = false \/ set_dict (data response) = false)).
Proof.
  split; intros Hc.
  - rewrite (list_sprints_cases client query response Hc). split.
    + intros -> -> ->. reflexivity.
    + rewrite <- andb_false_iff.
      destruct (success response && set_dict (data response)).
      * split; [|discriminate]. intros (e & m & H).
        destruct (len _); discriminate.
      * split; [reflexivity|]. intros _. do 2 eexists; reflexivity.
  - rewrite (list_epics_cases client query response Hc). split.
    + intros -> -> ->. reflexivity.
    + rewrite <- andb_false_iff.
      destruct (success response && set_dict (data response)).
      * split; [|discriminate]. intros (e & m & H).
        destruct (len _); discriminate.
      * split; [reflexivity|]. intros _. do 2 eexists; reflexivity.
Qed.

Lemma list_handlers_empty_collection_witness :
  _handle_list_sprints client_no_items "Show me all sprints" =
    ([get_sprints None], Ok (mcp "sprint_list" (PList []) "Found 0 sprints"))
  /\ _handle_list_epics client_no_items "list all epics" =
    ([get_epics None], Ok (mcp "epic_list" (PList []) "Found 0 epics")).
Proof.
  split.
  - apply (proj1 (proj1 (list_handlers_empty_collection client_no_items
                           "Show me all sprints" _) eq_refl));
      reflexivity.
  - apply (proj1 (proj2 (list_handlers_empty_collection client_no_items
                           "list all epics" _) eq_refl));
      reflexivity.
Defined.

(** *** The create handlers: validation *)

(** C2, at the input where it fails. The phrase is looked for in the
    lowered query and the query itself is split on it: typed with a
    capital, "Create epic" and "Create sprint" make the create handlers
    raise IndexError, where a failure naming the missing field is due. The
    client is not called. *)
Theorem create_raises_on_capital client :
  handle_epic_query client "Create epic" =
    ([], Raise (Exn IndexError "list index out of range"))
  /\ handle_sprint_query client "Create sprint" =
    ([], Raise (Exn IndexError "list index out of range"))
  /\ contains "create epic" (lower "Create epic") = true
  /\ split_on "create epic" "Create epic" = ["Create epic"].
Proof. repeat split. Qed.

(** Where the extraction returns, the validation is as the design has it:
    a missing field gives the error that names it, without a call. *)
Lemma create_epic_validates client (query : string)
    (project_key summary : option string) :
  create_epic_params query = Ok (project_key, summary) ->
  (set_str project_key = false ->
   _handle_create_epic client query =
     ([], Ok (mcp_error (Some "Project key required")
                "To create an epic, please specify a project key. Example: 'Create epic in PROJECT-123 with title My Epic'")))
  /\ (set_str project_key = true -> set_str summary = false ->
      _handle_create_epic client query =
        ([], Ok (mcp_error (Some "Epic summary required")
                   "To create an epic, please provide a summary/title. Example: 'Create epic in PROJECT-123 with title My Epic'")))
  /\ (set_str project_key = true -> set_str summary = true ->
      calls (_handle_create_epic client query) =
        [create_epic (str_of_opt project_key) (str_of_opt summary) ""]).
Proof.
  intros Hp. unfold _handle_create_epic. rewrite Hp.
  cbn [lift bindM]. repeat split.
  - intros ->. reflexivity.
  - intros -> ->. reflexivity.
  - intros -> ->. cbn [negb]. unfold call, bindM, try_exceptM, calls.
    destruct (client _) as [response|e]; [|reflexivity].
    destruct (success response); reflexivity.
Qed.

Lemma create_sprint_validates client (query : string)
    (sprint_name : option string) (board_id : option Z) :
  create_sprint_params query = Ok (sprint_name, board_id) ->
  (set_str sprint_name = false ->
   _handle_create_sprint client query =
     ([], Ok (mcp_error (Some "Sprint name required")
                "To create a sprint, please provide a name. Example: 'Create sprint named Sprint 1'")))
  /\ (set_str sprint_name = true -> set_int board_id = false ->
      _handle_create_sprint client query =
        ([], Ok (mcp_error (Some "Board ID required")
                   "To create a sprint, please provide a board ID. Example: 'Create sprint in board 123 named Sprint 1'")))
  /\ (set_str sprint_name = true -> set_int board_id = true ->
      calls (_handle_create_sprint client query) =
        [create_sprint (str_of_opt sprint_name)
                       (match board_id with Some n => n | None => 0%Z end)]).
Proof.
  intros Hp. unfold _handle_create_sprint. rewrite Hp.
  cbn [lift bindM]. repeat split.
  - intros ->. reflexivity.
  - intros -> ->. reflexivity.
  - intros -> ->. cbn [negb]. unfold call, bindM, try_exceptM, calls.
    destruct (client _) as [response|e]; [|reflexivity].
    destruct (success response); reflexivity.
Qed.

(** *** The create handlers: extraction *)

Lemma split_on_from_cons (sep s : string) (skip : nat) (cur : string) :
  exists x l, split_on_from sep s skip cur = x :: l.
Proof.
  revert skip cur.
  induction s as [|c s IH]; intros skip cur; cbn [split_on_from].
  - do 2 eexists; reflexivity.
  - destruct skip as [|k]; [|apply IH].
    destruct (String.prefix sep (String c s));
      [do 2 eexists; reflexivity | apply IH].
Qed.

(** A separator that occurs in the text gives at least two pieces. *)
Lemma split_on_second (sep s : string) :
  truthy sep = true -> contains sep s = true ->
  exists a b rest, split_on sep s = a :: b :: rest.
Proof.
  intros Hsep. unfold split_on. generalize EmptyString as cur.
  induction s as [|c s IH]; intros cur Hc.
  - destruct sep; discriminate.
  - cbn [contains] in Hc. cbn [split_on_from].
    destruct (String.prefix sep (String c s)).
    + destruct (split_on_from_cons sep s (String.length sep - 1) "")
        as (x & l & ->).
      do 3 eexists; reflexivity.
    + simpl in Hc. now apply IH.
Qed.

Lemma assign_none {A} (x : option A) : assign None x = x.
Proof. reflexivity. Qed.

(** The blocks of [_handle_create_epic] before the positional one are the
    marker chains of the two fields. *)
Lemma create_epic_params_gate (query : string) :
  create_epic_params query =
  if epic_markers_found query then Ok (epic_markers query)
  else if contains "create epic" (lower query) then
    bind (index (split_on "create epic" query) 1) (fun after =>
      match split (strip after) with
      | first :: ((_ :: _) as others) =>
          Ok (Some (upper first), Some (join " " others))
      | _ => Ok (epic_markers query)
      end)
  else Ok (epic_markers query).
Proof.
  unfold create_epic_params, epic_markers_found, epic_markers, first_set,
    project_by_marker, project_by_in, summary_by_marker.
  cbn [fold_left fst snd].
  destruct (scan project_after_marker (split query)) as [[|? ?]|];
    destruct (scan project_after_in (split query)) as [[|? ?]|];
    destruct (scan summary_after_marker (split query)) as [[|? ?]|];
    destruct (contains "project" (lower query));
    destruct (contains "in" (lower query));
    destruct (contains "title" (lower query) || contains "summary" (lower query)
              || contains "name" (lower query));
    reflexivity.
Qed.

Lemma create_sprint_params_gate (query : string) :
  create_sprint_params query =
  if sprint_markers_found query then Ok (sprint_markers query)
  else if contains "create sprint" (lower query) then
    bind (index (split_on "create sprint" query) 1) (fun after =>
      match split (strip after) with
      | first :: ((_ :: _) as others) =>
          match parse_int first with
          | Some n => Ok (Some (join " " others), Some n)
          | None => Ok (Some (join " " (split (strip after))),
                        snd (sprint_markers query))
          end
      | _ => Ok (sprint_markers query)
      end)
  else Ok (sprint_markers query).
Proof.
  unfold create_sprint_params, sprint_markers_found, sprint_markers, first_set,
    name_by_named, board_by_marker, board_by_in_board.
  cbn [fold_left fst snd].
  destruct (scan name_after_named (split query)) as [[|? ?]|];
    destruct (scan id_after_board (split query)) as [[|?|?]|];
    destruct (scan id_after_in_board (split query)) as [[|?|?]|];
    destruct (contains "named" (lower query));
    destruct (contains "board" (lower query));
    destruct (contains "in" (lower query));
    reflexivity.
Qed.

(** C6, as stated, fails. In "create epic in DEMO Big Feature" the project
    key is found after "in", and the positional strategy, which gives a
    summary when tried, is not tried for the summary; in "create sprint 7
    named Alpha" the name is found after "named", and the positional
    strategy is not tried for the board. *)
Lemma create_fields_depend :
  create_epic_params "create epic in DEMO Big Feature" = Ok (Some "DEMO", None)
  /\ summary_by_position "create epic in DEMO Big Feature"
     = Some "DEMO Big Feature"
  /\ create_epic_params "create epic in DEMO Big Feature"
     <> Ok (independent_epic_params "create epic in DEMO Big Feature")
  /\ create_sprint_params "create sprint 7 named Alpha" = Ok (Some "Alpha", None)
  /\ board_by_position "create sprint 7 named Alpha" = Some 7%Z
  /\ create_sprint_params "create sprint 7 named Alpha"
     <> Ok (independent_sprint_params "create sprint 7 named Alpha").
Proof. repeat split; vm_compute; discriminate. Qed.

(** C6, amended. The marker strategies of a field are tried in a fixed
    order up to the first that sets it, and do not look at the other
    field; the positional strategy, the words after the literal "create
    epic" or "create sprint", is tried only when the markers set neither
    field, and then gives both fields together. The statement is for the
    queries in which the phrase, where the positional strategy is reached,
    is typed in small letters. *)
Theorem create_params_gated (query : string) :
  ((epic_position_reached query = true ->
    contains "create epic" query = true) ->
   create_epic_params query = Ok (gated_epic_params query))
  /\ ((sprint_position_reached query = true ->
       contains "create sprint" query = true) ->
      create_sprint_params query = Ok (gated_sprint_params query)).
Proof.
  split; intros H.
  - rewrite create_epic_params_gate. unfold gated_epic_params, words_after.
    unfold epic_position_reached in H.
    destruct (epic_markers_found query); [reflexivity|].
    destruct (contains "create epic" (lower query)); [|reflexivity].
    destruct (split_on_second "create epic" query eq_refl (H eq_refl))
      as (a & after & rest & ->).
    cbn [index nth_error bind].
    destruct (split (strip after)) as [|first [|second others]]; reflexivity.
  - rewrite create_sprint_params_gate. unfold gated_sprint_params, words_after.
    unfold sprint_position_reached in H.
    destruct (sprint_markers_found query); [reflexivity|].
    destruct (contains "create sprint" (lower query)); [|reflexivity].
    destruct (split_on_second "create sprint" query eq_refl (H eq_refl))
      as (a & after & rest & ->).
    cbn [index nth_error bind].
    destruct (split (strip after)) as [|first [|second others]];
      try reflexivity.
    destruct (parse_int first); reflexivity.
Qed.

Lemma create_params_gated_witness :
  create_epic_params "Create epic in DEMO with title Test Epic"
    = Ok (Some "DEMO", Some "Test Epic")
  /\ create_epic_params "please create epic DEMO Big Feature"
    = Ok (Some "DEMO", Some "Big Feature")
  /\ create_sprint_params "Create sprint in board 123 named Sprint 1"
    = Ok (Some "Sprint 1", Some 123%Z)
  /\ create_sprint_params "create sprint 12 Alpha Beta"
    = Ok (Some "Alpha Beta", Some 12%Z).
Proof.
  refine (conj _ (conj _ (conj _ _))).
  - apply (proj1 (create_params_gated "Create epic in DEMO with title Test Epic")).
    vm_compute. discriminate.
  - apply (proj1 (create_params_gated "please create epic DEMO Big Feature")).
    vm_compute. reflexivity.
  - apply (proj2 (create_params_gated "Create sprint in board 123 named Sprint 1")).
    vm_compute. discriminate.
  - apply (proj2 (create_params_gated "create sprint 12 Alpha Beta")).
    vm_compute. reflexivity.
Defined.

End MCPProps.

(** ** Further properties of chatbot_core.py *)

Module ConversationProps.
Import Py PyMore Chatbot Conversation Design PyFacts ChatbotProps.

(** *** The echo of the prompt *)

Lemma prefix_append (a b : string) : String.prefix a (a ++ b) = true.
Proof.
  induction a as [|c a IH]; simpl; [now destruct b|].
  destruct (ascii_dec c c); [exact IH | congruence].
Qed.

Lemma sdrop_append (a b : string) : sdrop (String.length a) (a ++ b) = b.
Proof. induction a as [|c a IH]; simpl; [reflexivity | exact IH]. Qed.

(** When the generator hands back the prompt followed by its answer, the
    prompt is cut off: the response is the cleaned answer, or the canned
    text when nothing is left of the answer after cleaning. *)
Theorem echoed_prompt_removed
    (run : string -> nat -> result pyval) (encoded_length : string -> result nat)
    (prompt context answer : string) :
  generated_text_of encoded_length run (_format_prompt prompt context)
    = Ok (_format_prompt prompt context ++ answer)%string ->
  generate_response (Some run) encoded_length prompt context =
    Ok (if truthy (_clean_response (strip answer))
        then _clean_response (strip answer)
        else _generate_fallback_response prompt).
Proof.
  intros H. unfold generate_response. cbv zeta. rewrite H.
  cbn [bind try_except]. unfold startswith.
  now rewrite prefix_append, sdrop_append.
Qed.

Lemma echoed_prompt_removed_witness :
  generate_response
    (Some (fun full_prompt _ =>
             Ok (PList [PDict [("generated_text",
                                PStr (full_prompt ++ " Open the backlog. Then pick"))]])))
    (fun _ => Ok 12) "How do I plan?" ""
  = Ok "Open the backlog.".
Proof.
  rewrite (echoed_prompt_removed _ _ "How do I plan?" "" " Open the backlog. Then pick");
    reflexivity.
Defined.

(** *** What [process_query] returns *)

Lemma process_query_value pipeline encoded_length log now1 now2 input ctx :
  exists text,
    process_query pipeline encoded_length log now1 now2 input ctx =
    Ok (response_of text input ctx,
        add_message (add_message log now1 "user" input None)
          now2 "assistant" text (response_metadata (response_of text input ctx))).
Proof.
  unfold process_query.
  match goal with
  | |- context [generate_response _ _ _ ?c] => set (context := c)
  end.
  destruct (generate_response_answers pipeline encoded_length input context)
    as (text & Hgen & _ & _).
  exists text. rewrite Hgen. cbn [bind]. unfold response_of.
  destruct (classify_intent input) as [|entry rest]; cbn [is_nil negb bind map max_Q];
    [now rewrite app_nil_r | reflexivity].
Qed.

Lemma max_fold_bounds (l : list Q) (x : Q) :
  let m := fold_left (fun m y => if Qle_bool y m then m else y) l x in
  In m (x :: l) /\ forall y, In y (x :: l) -> (y <= m)%Q.
Proof.
  revert x. induction l as [|z l IH]; intros x; cbn [fold_left].
  - split; [now left|]. intros y [<- | []]. apply Qle_refl.
  - destruct (Qle_bool z x) eqn:E.
    + destruct (IH x) as [Hin Hmax]. split.
      * destruct Hin as [<- | Hin]; [now left | right; now right].
      * intros y [<- | [<- | Hy]].
        -- apply Hmax. now left.
        -- apply Qle_trans with x; [now apply Qle_bool_iff | apply Hmax; now left].
        -- apply Hmax. now right.
    + destruct (IH z) as [Hin Hmax]. split.
      * right. exact Hin.
      * assert (Hxz : (x <= z)%Q).
        { apply Qlt_le_weak, Qnot_le_lt. intros Hle.
          apply Qle_bool_iff in Hle. congruence. }
        intros y [<- | [<- | Hy]].
        -- apply Qle_trans with z; [exact Hxz | apply Hmax; now left].
        -- apply Hmax. now left.
        -- apply Hmax. now right.
Qed.

Lemma score_in_unit (query label : string) (score : Q) :
  In (label, score) (classify_intent query) -> (0 < score /\ score <= 1)%Q.
Proof.
  rewrite classify_intent_design. unfold classify. rewrite in_flat_map.
  intros ([l keywords] & _ & Hin).
  destruct (0 <? matched_count keywords query) eqn:E; [|contradiction].
  destruct Hin as [Heq | []]. injection Heq as _ <-.
  apply ratio_bounds. apply Nat.ltb_lt in E.
  split; [assumption | apply matched_count_le].
Qed.

(** The confidence is 1/2 when no label matched and the greatest score
    otherwise, so it lies in (0, 1]. The sources are ["external_data"] for
    an external context that is not empty, then ["intent_" + label] for the
    matched labels in the order of the table. An external context that is
    the empty string counts as present in the metadata and adds neither
    the source nor a section to the prompt's context. *)
Theorem confidence_and_sources pipeline encoded_length log now1 now2
    (input : string) (external_context : option string)
    (response : ChatResponse) (log' : list ChatMessage) :
  process_query pipeline encoded_length log now1 now2 input external_context
    = Ok (response, log') ->
  sources response =
    (if given external_context then ["external_data"] else [])
    ++ map (fun kv => ("intent_" ++ fst kv)%string) (classify_intent input)
  /\ (classify_intent input = [] -> confidence response = (5 # 10)%Q)
  /\ (classify_intent input <> [] ->
      exists label, In (label, confidence response) (classify_intent input))
  /\ (forall label score,
        In (label, score) (classify_intent input) ->
        (score <= confidence response)%Q)
  /\ (0 < confidence response /\ confidence response <= 1)%Q
  /\ response_metadata response =
       Some {| intents := classify_intent input;
               has_external_context :=
                 match external_context with Some _ => true | None => false end |}.
Proof.
  intros H.
  destruct (process_query_value pipeline encoded_length log now1 now2 input
              external_context) as (text & Hv).
  rewrite Hv in H. injection H as <- _. unfold response_of.
  cbn [sources confidence response_metadata].
  split; [reflexivity|].
  destruct (classify_intent input) as [|[label0 score0] rest] eqn:Hc.
  - repeat split; try reflexivity; try congruence.
    all: try (intros label score []).
    all: cbn [map]; unfold Qle; simpl; lia.
  - cbn [map snd].
    pose proof (max_fold_bounds (map snd rest) score0) as [Hin Hmax].
    cbv zeta in Hin, Hmax.
    set (m := fold_left (fun m y => if Qle_bool y m then m else y)
                        (map snd rest) score0) in *.
    assert (Hm : exists label, In (label, m) ((label0, score0) :: rest)).
    { change (score0 :: map snd rest)
        with (map snd ((label0, score0) :: rest)) in Hin.
      apply in_map_iff in Hin as ([l s] & Hs & Hin). simpl in Hs. subst s.
      now exists l. }
    split; [discriminate|]. split; [intros _; exact Hm|].
    split.
    + intros label score Hls. apply Hmax.
      change (score0 :: map snd rest) with (map snd ((label0, score0) :: rest)).
      apply in_map_iff. now exists (label, score).
    + split; [|reflexivity].
      destruct Hm as (l & Hl). rewrite <- Hc in Hl.
      exact (score_in_unit _ _ _ Hl).
Qed.

Lemma confidence_and_sources_witness :
  exists response log',
    process_query None (fun _ => Ok 0) [] "t1" "t2"
                  "Show me all sprints" (Some "") = Ok (response, log')
    /\ sources response = ["intent_sprint"; "intent_list"; "intent_help"]
    /\ option_map has_external_context (response_metadata response) = Some true.
Proof.
  destruct (process_query_value None (fun _ => Ok 0) [] "t1" "t2"
              "Show me all sprints" (Some "")) as (text & Hv).
  eexists. eexists. split; [exact Hv|].
  destruct (confidence_and_sources _ _ _ _ _ _ _ _ _ Hv) as (Hs & _ & _ & _ & _ & Hm).
  rewrite Hs, Hm. split; reflexivity.
Defined.

(** *** The log and the context window after a query *)

Lemma last_n_last_n {A} (n m : nat) (l : list A) :
  n <= m -> last_n n (last_n m l) = last_n n l.
Proof.
  intros H. unfold last_n. rewrite skipn_skipn, length_skipn. f_equal. lia.
Qed.

Lemma last_n_snoc {A} (n : nat) (l : list A) (x : A) :
  last_n (S n) (l ++ [x]) = last_n n l ++ [x].
Proof.
  unfold last_n. rewrite length_app, skipn_app. cbn [length].
  replace (length l + 1 - S n) with (length l - n) by lia.
  replace (length l - n - length l) with 0 by lia. reflexivity.
Qed.

Lemma Forall_last_n {A} (P : A -> Prop) (n : nat) (l : list A) :
  Forall P l -> Forall P (last_n n l).
Proof.
  intros H. unfold last_n. rewrite <- (firstn_skipn (length l - n) l) in H.
  now apply Forall_app in H.
Qed.

Lemma add_two_messages log now1 now2 r1 c1 m1 r2 c2 m2 :
  add_message (add_message log now1 r1 c1 m1) now2 r2 c2 m2 =
  last_n 10
    (log ++ [ {| role := r1; content := c1; timestamp := now1; metadata := m1 |};
              {| role := r2; content := c2; timestamp := now2; metadata := m2 |} ]).
Proof.
  rewrite !add_message_last_n, last_n_app_last_n, <- app_assoc. reflexivity.
Qed.

(** After a query the log is the last 10 turns of the old log followed by
    the user turn and the assistant turn, which carries the message and
    the metadata of the response: it holds at most 10 turns, whatever the
    log held before, and ends with these two turns. *)
Theorem log_after_query pipeline encoded_length log now1 now2
    (input : string) (external_context : option string)
    (response : ChatResponse) (log' : list ChatMessage) :
  process_query pipeline encoded_length log now1 now2 input external_context
    = Ok (response, log') ->
  let user_turn :=
    {| role := "user"; content := input; timestamp := now1;
       metadata := None |} in
  let assistant_turn :=
    {| role := "assistant"; content := message response; timestamp := now2;
       metadata := response_metadata response |} in
  log' = last_n 10 (log ++ [user_turn; assistant_turn])
  /\ length log' <= 10
  /\ log' = last_n 8 log ++ [user_turn; assistant_turn].
Proof.
  intros H user_turn assistant_turn.
  destruct (process_query_value pipeline encoded_length log now1 now2 input
              external_context) as (text & Hv).
  rewrite Hv in H. injection H as <- <-.
  rewrite add_two_messages.
  fold user_turn.
  assert (E : last_n 10 (log ++ [user_turn; assistant_turn])
              = last_n 8 log ++ [user_turn; assistant_turn]).
  { change [user_turn; assistant_turn] with ([user_turn] ++ [assistant_turn]).
    rewrite app_assoc, last_n_snoc, last_n_snoc, <- app_assoc. reflexivity. }
  repeat split.
  - rewrite length_last_n. lia.
  - exact E.
Qed.

Lemma log_after_query_witness :
  exists response log',
    process_query None (fun _ => Ok 0) (map numbered_turn (seq 0 10))
                  "t1" "t2" "help" None = Ok (response, log')
    /\ length log' <= 10.
Proof.
  destruct (process_query_value None (fun _ => Ok 0)
              (map numbered_turn (seq 0 10)) "t1" "t2" "help" None)
    as (text & Hv).
  eexists. eexists. split; [exact Hv|].
  exact (proj1 (proj2 (log_after_query _ _ _ _ _ _ _ _ _ Hv))).
Defined.

Lemma sappend_assoc (a b c : string) :
  ((a ++ b) ++ c)%string = (a ++ b ++ c)%string.
Proof. induction a as [|x a IH]; simpl; [reflexivity | now rewrite IH]. Qed.

Lemma join_snoc (sep : string) (l : list string) (x : string) :
  join sep (l ++ [x]) =
  match l with
  | [] => x
  | _ :: _ => (join sep l ++ sep ++ x)%string
  end.
Proof.
  unfold join. induction l as [|a l IH]; [reflexivity|].
  destruct l as [|b l]; [reflexivity|].
  change ((a :: b :: l) ++ [x]) with (a :: (b :: l) ++ [x]).
  change (String.concat sep (a :: (b :: l) ++ [x]))
    with (a ++ sep ++ String.concat sep ((b :: l) ++ [x]))%string.
  rewrite IH.
  change (String.concat sep (a :: b :: l))
    with (a ++ sep ++ String.concat sep (b :: l))%string.
  now rewrite !sappend_assoc.
Qed.

(** The context [process_query] hands to the generator is built after the
    user turn is logged: it is made of the lines of at most four earlier
    turns and ends with the line ["user: " + input], and turns older than
    the last five never appear in it. *)
Theorem context_ends_with_input (log : list ChatMessage) (now input : string) :
  get_conversation_context (add_message log now "user" input None) =
  join nl (map (fun m => (role m ++ ": " ++ content m)%string) (last_n 4 log)
           ++ [("user: " ++ input)%string])
  /\ (forall older recent,
        length recent = 4 ->
        get_conversation_context (add_message (older ++ recent) now "user" input None)
        = get_conversation_context (add_message recent now "user" input None)).
Proof.
  assert (H : forall l,
    get_conversation_context (add_message l now "user" input None) =
    join nl (map (fun m => (role m ++ ": " ++ content m)%string) (last_n 4 l)
             ++ [("user: " ++ input)%string])).
  { intros l. rewrite add_message_last_n. unfold get_conversation_context.
    rewrite last_n_last_n by (unfold max_history; lia).
    rewrite last_n_snoc, map_app.
    destruct (last_n max_history _) eqn:E; [|reflexivity].
    exfalso. apply (f_equal (@length _)) in E.
    rewrite length_last_n, length_app in E. cbn [length] in E.
    unfold max_history in E. lia. }
  split; [apply H|].
  intros older recent Hr. rewrite !H. do 3 f_equal.
  unfold last_n. rewrite skipn_app, length_app, Hr.
  replace (length older + 4 - 4) with (length older) by lia.
  rewrite skipn_all, Nat.sub_diag. reflexivity.
Qed.

Lemma context_ends_with_input_witness :
  get_conversation_context
    (add_message (map numbered_turn (seq 0 3) ++ map numbered_turn (seq 3 4))
                 "t" "user" "hello" None)
  = get_conversation_context
      (add_message (map numbered_turn (seq 3 4)) "t" "user" "hello" None).
Proof.
  apply (proj2 (context_ends_with_input
                  (map numbered_turn (seq 0 3) ++ map numbered_turn (seq 3 4))
                  "t" "hello")).
  reflexivity.
Defined.

(** *** Reset and summary *)

Lemma count_known_roles (log : list ChatMessage) :
  Forall known_role log ->
  length log =
  length (filter (fun m => String.eqb (role m) "user") log)
  + length (filter (fun m => String.eqb (role m) "assistant") log).
Proof.
  induction 1 as [|m log Hm _ IH]; [reflexivity|].
  cbn [filter length]. destruct Hm as [-> | ->]; simpl; lia.
Qed.

(** In a log that holds user and assistant turns only, the message count
    of the summary is the number of user turns plus the number of
    assistant turns; [process_query] keeps the log that way; and after a
    reset the summary counts nothing and names no topic. *)
Theorem summary_counts pipeline encoded_length log now1 now2
    (input : string) (external_context : option string)
    (response : ChatResponse) (log' : list ChatMessage) :
  Forall known_role log ->
  process_query pipeline encoded_length log now1 now2 input external_context
    = Ok (response, log') ->
  Forall known_role log'
  /\ message_count (get_conversation_summary log') =
       user_messages (get_conversation_summary log')
       + assistant_messages (get_conversation_summary log')
  /\ 2 <= message_count (get_conversation_summary log') <= 10
  /\ get_conversation_summary (reset_conversation log') =
       {| message_count := 0; user_messages := 0; assistant_messages := 0;
          recent_topics := [] |}.
Proof.
  intros Hk H.
  destruct (process_query_value pipeline encoded_length log now1 now2 input
              external_context) as (text & Hv).
  rewrite Hv in H. injection H as _ <-. rewrite add_two_messages.
  match goal with
  | |- context [log ++ [?u; ?a]] => set (user_turn := u); set (assistant_turn := a)
  end.
  assert (Hend : last_n 10 (log ++ [user_turn; assistant_turn])
                 = last_n 8 log ++ [user_turn; assistant_turn]).
  { change [user_turn; assistant_turn] with ([user_turn] ++ [assistant_turn]).
    rewrite app_assoc, last_n_snoc, last_n_snoc, <- app_assoc. reflexivity. }
  assert (Hk' : Forall known_role (last_n 10 (log ++ [user_turn; assistant_turn]))).
  { apply Forall_last_n. apply Forall_app. split; [exact Hk|].
    constructor; [now left|]. constructor; [now right | constructor]. }
  split; [exact Hk'|]. cbn [get_conversation_summary message_count
                            user_messages assistant_messages].
  split; [now apply count_known_roles|]. split; [|reflexivity].
  split; [|rewrite length_last_n; lia].
  rewrite Hend, length_app. cbn [length]. lia.
Qed.

Lemma summary_counts_witness :
  exists response log',
    process_query None (fun _ => Ok 0) [] "t1" "t2" "What is an epic?" None
      = Ok (response, log')
    /\ message_count (get_conversation_summary log') =
         user_messages (get_conversation_summary log')
         + assistant_messages (get_conversation_summary log').
Proof.
  destruct (process_query_value None (fun _ => Ok 0) [] "t1" "t2"
              "What is an epic?" None) as (text & Hv).
  eexists. eexists. split; [exact Hv|].
  exact (proj1 (proj2 (summary_counts _ _ _ _ _ _ _ _ _ (Forall_nil _) Hv))).
Defined.

Lemma topics_loop (messages : list ChatMessage) (topics : list string)
    (label : string) :
  In label
    (fold_left
       (fun topics message =>
          let intents := classify_intent (content message) in
          if negb (is_nil intents) then topics ++ map fst intents else topics)
       messages topics)
  <-> In label topics
      \/ exists m, In m messages
                   /\ In label (map fst (classify_intent (content m))).
Proof.
  revert topics. induction messages as [|m messages IH]; intros topics.
  - simpl. split; [now left | intros [H | (m & [] & _)]; exact H].
  - cbn [fold_left]. rewrite IH. cbv zeta.
    assert (E : forall l : list (string * Q),
               In label (if negb (is_nil l) then topics ++ map fst l else topics)
               <-> In label topics \/ In label (map fst l)).
    { intros [|x l]; cbn [is_nil negb].
      - simpl. tauto.
      - rewrite in_app_iff. tauto. }
    rewrite E. split.
    + intros [[H | H] | (m' & Hin & H)].
      * now left.
      * right. exists m. split; [now left | exact H].
      * right. exists m'. split; [now right | exact H].
    + intros [H | (m' & [<- | Hin] & H)].
      * left. now left.
      * left. now right.
      * right. now exists m'.
Qed.

(** The recent topics are the labels the classifier matches in the text
    of one of the last five turns, each once. *)
Theorem recent_topics_are_matched_labels (log : list ChatMessage)
    (label : string) :
  (In label (_extract_recent_topics log) <->
   exists m score,
     In m (last_n 5 log) /\ In (label, score) (classify_intent (content m)))
  /\ NoDup (_extract_recent_topics log)
  /\ (In label (_extract_recent_topics log) ->
      In label (map fst intent_keywords)).
Proof.
  unfold _extract_recent_topics, list_of_set.
  assert (H : In label (nodup string_dec
                (fold_left
                   (fun topics message =>
                      let intents := classify_intent (content message) in
                      if negb (is_nil intents)
                      then topics ++ map fst intents else topics)
                   (last_n 5 log) []))
              <-> exists m score,
                    In m (last_n 5 log)
                    /\ In (label, score) (classify_intent (content m))).
  { rewrite nodup_In, topics_loop. split.
    - intros [[] | (m & Hin & H)].
      apply in_map_iff in H as ([l s] & Hl & H). simpl in Hl. subst l.
      now exists m, s.
    - intros (m & s & Hin & H). right. exists m. split; [exact Hin|].
      apply in_map_iff. now exists (label, s). }
  split; [exact H|]. split; [apply NoDup_nodup|].
  rewrite H. intros (m & s & _ & Hin).
  rewrite classify_intent_design in Hin. unfold classify in Hin.
  apply in_flat_map in Hin as ([l keywords] & Hentry & Hin).
  destruct (0 <? matched_count keywords (content m)); [|contradiction].
  destruct Hin as [Heq | []]. injection Heq as <- _.
  apply in_map_iff. now exists (l, keywords).
Qed.

Lemma recent_topics_are_matched_labels_witness :
  In "sprint"
     (_extract_recent_topics
        [ {| role := "user"; content := "Plan the next SPRINT";
             timestamp := "t"; metadata := None |} ]).
Proof.
  apply (proj1 (recent_topics_are_matched_labels _ "sprint")).
  eexists. exists (1 # 5)%Q. split; [left; reflexivity|].
  vm_compute. now left.
Defined.

(** *** The cleaned response and the canned texts *)

Lemma srev_onto_append (s acc : string) :
  srev_onto s acc = (srev s ++ acc)%string.
Proof.
  unfold srev. revert acc. induction s as [|c s IH]; intros acc; simpl.
  - reflexivity.
  - rewrite IH, (IH (String c "")), sappend_assoc. reflexivity.
Qed.

Lemma srev_cons (c : ascii) (s : string) :
  srev (String c s) = (srev s ++ String c "")%string.
Proof. unfold srev at 1. simpl. apply srev_onto_append. Qed.

Lemma sappend_empty (s : string) : (s ++ "")%string = s.
Proof. induction s as [|c s IH]; simpl; [reflexivity | now rewrite IH]. Qed.

Lemma srev_append (a b : string) :
  srev (a ++ b) = (srev b ++ srev a)%string.
Proof.
  induction a as [|c a IH]; simpl.
  - now rewrite sappend_empty.
  - now rewrite !srev_cons, IH, sappend_assoc.
Qed.

Lemma srev_involutive (s : string) : srev (srev s) = s.
Proof.
  induction s as [|c s IH]; [reflexivity|].
  now rewrite srev_cons, srev_append, IH.
Qed.

(** [lstrip] takes spaces off the front and leaves a text that does not
    start with one. *)
Lemma lstrip_split (s : string) :
  exists spaces,
    s = (spaces ++ lstrip s)%string
    /\ sforall isspace spaces = true
    /\ (lstrip s = "" \/ exists c rest, lstrip s = String c rest /\ isspace c = false).
Proof.
  induction s as [|c s (spaces & Hs & Hsp & Hl)]; simpl.
  - exists "". auto.
  - destruct (isspace c) eqn:E.
    + exists (String c spaces). simpl. rewrite E, Hsp. split; [now rewrite <- Hs|].
      split; [reflexivity | exact Hl].
    + exists "". repeat split. right. now exists c, s.
Qed.

Lemma collapse_runs_snoc (p : ascii -> bool) (c : ascii) (b : bool) (s : string) :
  p c = false ->
  collapse_runs p b (s ++ String c "") =
  (collapse_runs p b s ++ String c "")%string.
Proof.
  intros Hc. revert b. induction s as [|x s IH]; intros b; simpl.
  - now rewrite Hc.
  - destruct (p x); [destruct b|]; simpl; now rewrite IH.
Qed.

Lemma strip_snoc (c : ascii) (s : string) :
  isspace c = false ->
  exists rest, strip (s ++ String c "") = (rest ++ String c "")%string.
Proof.
  intros Hc. unfold strip.
  assert (H : exists rest, lstrip (s ++ String c "") = (rest ++ String c "")%string).
  { induction s as [|x s (rest & IH)]; simpl.
    - rewrite Hc. now exists "".
    - destruct (isspace x); [now exists rest|].
      now exists (String x s). }
  destruct H as (rest & ->). exists rest.
  rewrite srev_append. change (srev (String c "")) with (String c "").
  cbn [append lstrip]. rewrite Hc.
  now rewrite srev_cons, srev_involutive.
Qed.

Lemma endswith_snoc (c : ascii) (s : string) :
  endswith (s ++ String c "") (String c "") = true.
Proof.
  unfold endswith. rewrite srev_append.
  change (srev (String c "")) with (String c "").
  simpl. destruct (ascii_dec c c); [now destruct (srev s) | congruence].
Qed.

Lemma endswith_inv (c : ascii) (s : string) :
  endswith s (String c "") = true -> exists rest, s = (rest ++ String c "")%string.
Proof.
  unfold endswith. change (srev (String c "")) with (String c "").
  intros H. rewrite <- (srev_involutive s).
  destruct (srev s) as [|x r]; [discriminate|].
  simpl in H. destruct (ascii_dec c x) as [->|]; [|discriminate].
  exists (srev r). apply srev_cons.
Qed.

Lemma spaced_collapse (b : bool) (s : string) :
  spaced_from b (collapse_runs isspace b s) = true.
Proof.
  revert b. induction s as [|c s IH]; intros b; simpl; [reflexivity|].
  destruct (isspace c) eqn:E.
  - destruct b; [apply IH|]. simpl. apply IH.
  - simpl. rewrite E. apply IH.
Qed.

Lemma spaced_lstrip (b : bool) (s : string) :
  spaced_from b s = true -> spaced_from true (lstrip s) = true.
Proof.
  revert b. induction s as [|c s IH]; intros b; simpl; [reflexivity|].
  destruct (isspace c) eqn:E.
  - rewrite !andb_true_iff. intros [_ H]. now apply IH with true.
  - simpl. now rewrite E.
Qed.

Lemma spaced_prefix (b : bool) (u : string) (c : ascii) (t : string) :
  isspace c = false ->
  spaced_from b (u ++ String c t) = true ->
  single_spaced_from b (u ++ String c "") = true.
Proof.
  intros Hc. revert b. induction u as [|x u IH]; intros b; simpl.
  - now rewrite Hc.
  - destruct (isspace x).
    + rewrite !andb_true_iff. intros [Hx H]. split; [exact Hx | now apply IH].
    + apply IH.
Qed.

Lemma single_spaced_strip (s : string) :
  spaced_from true s = true -> single_spaced (srev (lstrip (srev s))) = true.
Proof.
  intros Hs.
  destruct (lstrip_split (srev s)) as (spaces & Hsplit & _ & [Hl | (c & rest & Hl & Hc)]).
  - now rewrite Hl.
  - rewrite Hl, srev_cons.
    assert (E : s = ((srev rest ++ String c "") ++ srev spaces)%string).
    { rewrite <- (srev_involutive s), Hsplit, Hl, srev_append, srev_cons.
      reflexivity. }
    rewrite sappend_assoc in E. simpl in E. rewrite E in Hs.
    pose proof (spaced_prefix true (srev rest) c (srev spaces) Hc Hs) as H.
    unfold single_spaced. now destruct (srev rest ++ String c "")%string.
Qed.

(** A cleaned response is empty or ends with a full stop, and it is one
    line of words: no space at either end, and between the words single
    blanks only, no tab and no newline. *)
Theorem cleaned_response_shape (response : string) :
  (_clean_response response = ""
   \/ endswith (_clean_response response) "." = true)
  /\ single_spaced (_clean_response response) = true.
Proof.
  unfold _clean_response.
  set (sentences :=
         if negb (is_nil (split_on ". " response))
            && negb (endswith (last (split_on ". " response) "") ".")
         then removelast (split_on ". " response)
         else split_on ". " response).
  set (joined := join ". " sentences).
  set (cleaned :=
         if truthy joined && negb (endswith joined ".")
         then (joined ++ ".")%string else joined).
  assert (Hc : cleaned = "" \/ exists rest, cleaned = (rest ++ ".")%string).
  { unfold cleaned. destruct joined as [|c j] eqn:Ej; [now left|]. right.
    cbn [truthy andb]. destruct (endswith (String c j) ".") eqn:E; simpl.
    - now apply endswith_inv.
    - now exists (String c j). }
  split.
  - destruct Hc as [-> | (rest & ->)]; [now left|]. right.
    rewrite !collapse_runs_snoc by reflexivity.
    destruct (strip_snoc "." (collapse_runs isspace false
                                (collapse_runs is_newline false rest)) eq_refl)
      as (r & ->).
    apply endswith_snoc.
  - unfold strip. apply single_spaced_strip.
    apply spaced_lstrip with false. apply spaced_collapse.
Qed.

Lemma contains_shorter (a b text : string) :
  contains (a ++ b) text = true -> contains a text = true.
Proof.
  assert (P : forall t, String.prefix (a ++ b) t = true -> String.prefix a t = true).
  { induction a as [|c a IH]; intros t; [now destruct t|].
    destruct t as [|x t]; simpl; [discriminate|].
    destruct (ascii_dec c x); [apply IH | discriminate]. }
  induction text as [|c text IH]; cbn [contains]; rewrite !orb_true_iff.
  - intros [H | H]; [left; now apply P | discriminate].
  - intros [H | H]; [left; now apply P | right; now apply IH].
Qed.

(** The canned text is chosen by the words of the prompt, up to case, in a
    fixed order: a prompt that mentions "epic" gets the text of the bare
    word "epic", else one that mentions "sprint" the text of "sprint", else
    one with "create", "add" or "new" the text of "new", else one with a
    question word the text of "how", else the text of the empty prompt.
    The keywords "epics" and "sprints" change nothing. *)
Theorem fallback_by_keyword (prompt : string) :
  _generate_fallback_response prompt =
  if ci_occurs "epic" prompt then _generate_fallback_response "epic"
  else if ci_occurs "sprint" prompt then _generate_fallback_response "sprint"
  else if any_occurs ["create"; "add"; "new"] prompt
  then _generate_fallback_response "new"
  else if any_occurs ["how"; "what"; "where"; "when"; "why"] prompt
  then _generate_fallback_response "how"
  else _generate_fallback_response "".
Proof.
  assert (E : forall a b text,
             any_in [a; (a ++ b)%string] text = contains a text).
  { intros a b text. unfold any_in. simpl. rewrite orb_false_r.
    destruct (contains (a ++ b) text) eqn:H; [|apply orb_false_r].
    apply contains_shorter in H. now rewrite H. }
  unfold _generate_fallback_response at 1.
  change ["epic"; "epics"] with ["epic"; ("epic" ++ "s")%string].
  change ["sprint"; "sprints"] with ["sprint"; ("sprint" ++ "s")%string].
  rewrite !E, !contains_lower by reflexivity.
  rewrite !any_in_lower by repeat constructor.
  repeat match goal with
         | |- context [if ?b then _ else _] => destruct b
         end; reflexivity.
Qed.

End ConversationProps.


(** ** Further properties of the handlers of mcp_client.py *)

Module HandlerProps.
Import Py PyMore MCP Design PyFacts MCPProps ConversationProps.

(** *** Words *)

Lemma sexists_append (p : ascii -> bool) (a b : string) :
  sexists p (a ++ b) = sexists p a || sexists p b.
Proof.
  induction a as [|c a IH]; simpl; [reflexivity | now rewrite IH, orb_assoc].
Qed.

Lemma sexists_srev (p : ascii -> bool) (s : string) :
  sexists p (srev s) = sexists p s.
Proof.
  induction s as [|c s IH]; [reflexivity|].
  rewrite srev_cons, sexists_append, IH. simpl.
  now rewrite orb_false_r, orb_comm.
Qed.

Lemma truthy_srev (s : string) : truthy (srev s) = truthy s.
Proof.
  destruct s as [|c s]; [reflexivity|].
  rewrite srev_cons. now destruct (srev s).
Qed.

Lemma split_from_words (s cur : string) :
  sexists isspace cur = false ->
  Forall (fun w => is_word w = true) (split_ws_from s cur).
Proof.
  revert cur. induction s as [|c s IH]; intros cur Hcur; simpl.
  - destruct (truthy cur) eqn:E; constructor; [|constructor].
    unfold is_word. now rewrite truthy_srev, sexists_srev, E, Hcur.
  - destruct (isspace c) eqn:Ec.
    + destruct (truthy cur) eqn:E; [constructor|]; try now apply IH.
      unfold is_word. now rewrite truthy_srev, sexists_srev, E, Hcur.
    + apply IH. simpl. now rewrite Ec.
Qed.

(** The words [split()] gives are not empty and hold no space. *)
Lemma split_words (s : string) : Forall (fun w => is_word w = true) (split s).
Proof. now apply split_from_words. Qed.

Lemma upper_char_idem (c : ascii) : upper_char (upper_char c) = upper_char c.
Proof.
  destruct c as [[] [] [] [] [] [] [] []]; reflexivity.
Qed.

Lemma upper_idem (s : string) : upper (upper s) = upper s.
Proof.
  unfold upper. induction s as [|c s IH]; simpl; [reflexivity|].
  now rewrite upper_char_idem, IH.
Qed.

Lemma truthy_upper (s : string) : truthy (upper s) = truthy s.
Proof. now destruct s. Qed.

Lemma truthy_join_words (sep w : string) (l : list string) :
  truthy w = true -> truthy (join sep (w :: l)) = true.
Proof.
  intros H. unfold join. destruct l as [|x l]; simpl; [exact H|].
  destruct w; [discriminate | reflexivity].
Qed.

Lemma scan_some {A} (body : string -> list string -> option A)
    (words : list string) (x : A) :
  scan body words = Some x ->
  exists before w rest, words = before ++ w :: rest /\ body w rest = Some x.
Proof.
  induction words as [|w words IH]; simpl; [discriminate|].
  destruct (body w words) as [a|] eqn:E.
  - intros H. injection H as ->. now exists [], w, words.
  - intros H. destruct (IH H) as (before & w' & rest & -> & Hb).
    now exists (w :: before), w', rest.
Qed.

Lemma first_set_some {A} (is_set : option A -> bool)
    (chain : list (string -> option A)) (query : string) (x : A) :
  first_set is_set chain query = Some x ->
  exists strategy, In strategy chain /\ strategy query = Some x.
Proof.
  unfold first_set.
  enough (H : forall found,
    fold_left (fun found strategy =>
                 if is_set found then found else assign (strategy query) found)
              chain found = Some x ->
    found = Some x \/ exists strategy, In strategy chain /\ strategy query = Some x).
  { intros Hx. destruct (H None Hx) as [? | ?]; [discriminate | assumption]. }
  induction chain as [|strategy chain IH]; intros found; simpl; [now left|].
  intros Hx. destruct (IH _ Hx) as [Hf | (s' & Hin & Hs)].
  - destruct (is_set found); [now left|].
    unfold assign in Hf. destruct (strategy query) as [a|] eqn:E.
    + right. exists strategy. split; [now left | congruence].
    + now left.
  - right. exists s'. split; [now right | exact Hs].
Qed.

Lemma words_suffix (words before rest : list string) (w : string) :
  Forall (fun w => is_word w = true) words ->
  words = before ++ w :: rest ->
  Forall (fun w => is_word w = true) rest.
Proof.
  intros H ->. apply Forall_app in H as [_ H]. now inversion H.
Qed.

Lemma word_truthy (w : string) : is_word w = true -> truthy w = true.
Proof. unfold is_word. now intros [H _]%andb_true_iff. Qed.

(** *** What the extraction of an epic finds *)

Lemma epic_key_strategies (query key : string) :
  project_by_marker query = Some key \/ project_by_in query = Some key ->
  upper key = key /\ truthy key = true.
Proof.
  unfold project_by_marker, project_by_in.
  intros [H | H];
    (destruct (contains _ (lower query)); [|discriminate]);
    apply scan_some in H as (before & w & rest & Hw & Hb);
    pose proof (words_suffix _ _ _ _ (split_words query) Hw) as Hrest;
    destruct rest as [|next rest]; try discriminate;
    apply Forall_inv, word_truthy in Hrest.
  - unfold project_after_marker in Hb.
    destruct (String.eqb (lower w) "project"); [|discriminate].
    injection Hb as <-. now rewrite upper_idem, truthy_upper.
  - unfold project_after_in in Hb.
    destruct (String.eqb (lower w) "in"); [|discriminate].
    destruct (_ && _); [|discriminate].
    injection Hb as <-. now rewrite upper_idem, truthy_upper.
Qed.

Lemma epic_summary_strategy (query summary : string) :
  summary_by_marker query = Some summary -> truthy summary = true.
Proof.
  unfold summary_by_marker.
  destruct (_ || _); [|discriminate]. intros H.
  apply scan_some in H as (before & w & rest & Hw & Hb).
  pose proof (words_suffix _ _ _ _ (split_words query) Hw) as Hrest.
  unfold summary_after_marker in Hb.
  destruct rest as [|next rest]; [discriminate|].
  destruct (existsb _ _); [|discriminate]. injection Hb as <-.
  apply Forall_inv, word_truthy in Hrest.
  exact (truthy_join_words " " next rest Hrest).
Qed.

Lemma epic_markers_fields (query : string) :
  (forall key, fst (epic_markers query) = Some key ->
               upper key = key /\ truthy key = true)
  /\ (forall summary, snd (epic_markers query) = Some summary ->
                      truthy summary = true).
Proof.
  unfold epic_markers. cbn [fst snd]. split.
  - intros key H. apply first_set_some in H as (s & [<- | [<- | []]] & Hs);
      apply (epic_key_strategies query); auto.
  - intros summary H. apply first_set_some in H as (s & [<- | []] & Hs).
    now apply (epic_summary_strategy query).
Qed.

(** Whatever the query, a project key that the extraction finds is in
    capitals and not empty, and a summary that it finds is not empty: the
    create handler of epics reports a missing field only for a field that
    was not found at all. *)
Theorem extracted_epic_fields (query : string)
    (project_key summary : option string) :
  create_epic_params query = Ok (project_key, summary) ->
  (forall key, project_key = Some key -> upper key = key /\ truthy key = true)
  /\ (forall text, summary = Some text -> truthy text = true)
  /\ set_str project_key =
       match project_key with Some _ => true | None => false end
  /\ set_str summary = match summary with Some _ => true | None => false end.
Proof.
  intros H.
  assert (Hf : (forall key, project_key = Some key ->
                            upper key = key /\ truthy key = true)
               /\ (forall text, summary = Some text -> truthy text = true)).
  { rewrite create_epic_params_gate in H.
    destruct (epic_markers_fields query) as [Hk Hs].
    assert (Hm : Ok (epic_markers query) = Ok (project_key, summary) ->
                 (forall key, project_key = Some key ->
                              upper key = key /\ truthy key = true)
                 /\ (forall text, summary = Some text -> truthy text = true)).
    { intros E.
      assert (E' : epic_markers query = (project_key, summary)) by congruence.
      rewrite E' in Hk, Hs. now split. }
    destruct (epic_markers_found query); [now apply Hm|].
    destruct (contains "create epic" (lower query)); [|now apply Hm].
    destruct (index (split_on "create epic" query) 1) as [after|e];
      [|discriminate].
    cbn [bind] in H.
    pose proof (split_words (strip after)) as Hw.
    destruct (split (strip after)) as [|first [|second others]];
      try now apply Hm.
    injection H as <- <-.
    inversion Hw as [|? ? Hfirst Hw']; subst.
    apply word_truthy in Hfirst. apply Forall_inv, word_truthy in Hw'.
    split.
    - intros key E. injection E as <-. now rewrite upper_idem, truthy_upper.
    - intros text E. injection E as <-.
      exact (truthy_join_words " " second others Hw'). }
  destruct Hf as [Hk Hs]. repeat split; try assumption.
  - now apply Hk.
  - now apply Hk.
  - destruct project_key as [k|]; [|reflexivity]. apply (Hk k eq_refl).
  - destruct summary as [t|]; [|reflexivity]. apply (Hs t eq_refl).
Qed.

Lemma extracted_epic_fields_witness :
  upper "DEMO" = "DEMO" /\ truthy "DEMO" = true.
Proof.
  apply (proj1 (extracted_epic_fields "create an epic in demo named x"
                  (Some "DEMO") None eq_refl) "DEMO" eq_refl).
Defined.

(** *** The create handlers once the fields are extracted *)

(** Once the extraction has returned, the create handler of epics always
    returns a result, also when the client raises: it calls the client at
    most once, exactly when both fields were found, with the key, the
    summary and an empty description; it reports the creation only when
    the client answered with success, and turns an exception of the client
    into an error result that carries its text. *)
Theorem create_epic_after_extraction client (query : string)
    (project_key summary : option string) :
  create_epic_params query = Ok (project_key, summary) ->
  (exists r, outcome (_handle_create_epic client query) = Ok r)
  /\ calls (_handle_create_epic client query) =
       (if set_str project_key && set_str summary
        then [create_epic (str_of_opt project_key) (str_of_opt summary) ""]
        else [])
  /\ (forall type_ data_ message,
        outcome (_handle_create_epic client query) = Ok (mcp type_ data_ message) ->
        exists response,
          client (create_epic (str_of_opt project_key) (str_of_opt summary) "")
            = Ok response
          /\ success response = true
          /\ type_ = "epic_created"
          /\ data_ = val_of_data (data response))
  /\ (forall e,
        set_str project_key && set_str summary = true ->
        client (create_epic (str_of_opt project_key) (str_of_opt summary) "")
          = Raise e ->
        outcome (_handle_create_epic client query) =
          Ok (mcp_error (Some (exn_msg e))
                ("Error creating epic: " ++ exn_msg e)%string)).
Proof.
  intros Hp. unfold _handle_create_epic. rewrite Hp. cbn [lift bindM].
  destruct (set_str project_key); cbn [negb andb];
    [|repeat split; try (eexists; reflexivity); discriminate].
  destruct (set_str summary); cbn [negb];
    [|repeat split; try (eexists; reflexivity); discriminate].
  unfold call, bindM, try_exceptM, calls, outcome, ret.
  destruct (client _) as [response|e].
  - destruct (success response) eqn:Es; cbn [fst snd app];
      repeat split; try (eexists; reflexivity); try discriminate.
    intros t d m H. injection H as <- <- _. exists response. auto.
  - cbn [fst snd app]. repeat split; try (eexists; reflexivity); try discriminate.
    intros e' _ H. now injection H as <-.
Qed.

Lemma create_epic_after_extraction_witness :
  calls (_handle_create_epic client_some_items
           "Create epic in DEMO with title Test Epic")
  = [create_epic "DEMO" "Test Epic" ""].
Proof.
  exact (proj1 (proj2 (create_epic_after_extraction client_some_items
                         "Create epic in DEMO with title Test Epic"
                         (Some "DEMO") (Some "Test Epic") eq_refl))).
Defined.

(** The same holds for sprints, with one difference in what counts as
    found: an empty name (as after "named in board ...") and the board
    number 0 are treated as missing, so that no sprint is ever created on
    board 0. *)
Theorem create_sprint_after_extraction client (query : string)
    (sprint_name : option string) (board_id : option Z) :
  create_sprint_params query = Ok (sprint_name, board_id) ->
  (exists r, outcome (_handle_create_sprint client query) = Ok r)
  /\ (forall name board,
        In (create_sprint name board) (calls (_handle_create_sprint client query)) ->
        sprint_name = Some name /\ board_id = Some board
        /\ name <> "" /\ board <> 0%Z)
  /\ (set_str sprint_name = false ->
      _handle_create_sprint client query =
        ([], Ok (mcp_error (Some "Sprint name required")
                   "To create a sprint, please provide a name. Example: 'Create sprint named Sprint 1'")))
  /\ (set_str sprint_name = true -> board_id = Some 0%Z \/ board_id = None ->
      _handle_create_sprint client query =
        ([], Ok (mcp_error (Some "Board ID required")
                   "To create a sprint, please provide a board ID. Example: 'Create sprint in board 123 named Sprint 1'")))
  /\ (forall type_ data_ message,
        outcome (_handle_create_sprint client query) = Ok (mcp type_ data_ message) ->
        type_ = "sprint_created"
        /\ exists name board response,
             client (create_sprint name board) = Ok response
             /\ success response = true).
Proof.
  intros Hp. unfold _handle_create_sprint. rewrite Hp. cbn [lift bindM].
  assert (Hfail : forall error message,
    (exists r, outcome (@ret ActionResult (mcp_error error message)) = Ok r)
    /\ (forall name board,
          In (create_sprint name board)
             (calls (@ret ActionResult (mcp_error error message))) ->
          sprint_name = Some name /\ board_id = Some board
          /\ name <> "" /\ board <> 0%Z)
    /\ (forall type_ data_ message',
          outcome (@ret ActionResult (mcp_error error message))
            = Ok (mcp type_ data_ message') ->
          type_ = "sprint_created"
          /\ exists name board response,
               client (create_sprint name board) = Ok response
               /\ success response = true)).
  { intros error message. split; [eexists; reflexivity|].
    split; [intros ? ? [] | discriminate]. }
  destruct (set_str sprint_name) eqn:En; cbn [negb].
  2:{ destruct (Hfail (Some "Sprint name required")
        "To create a sprint, please provide a name. Example: 'Create sprint named Sprint 1'")
        as (H1 & H2 & H5).
      refine (conj H1 (conj H2 (conj _ (conj _ H5))));
        intros; try reflexivity; congruence. }
  destruct (set_int board_id) eqn:Eb; cbn [negb].
  2:{ destruct (Hfail (Some "Board ID required")
        "To create a sprint, please provide a board ID. Example: 'Create sprint in board 123 named Sprint 1'")
        as (H1 & H2 & H5).
      refine (conj H1 (conj H2 (conj _ (conj _ H5))));
        intros; try reflexivity; congruence. }
  clear Hfail.
  destruct sprint_name as [name|]; [|discriminate].
  destruct board_id as [board|]; [|discriminate].
  cbn [str_of_opt].
  assert (Hname : name <> "") by (intros ->; discriminate).
  assert (Hboard : board <> 0%Z) by (intros ->; discriminate).
  unfold call, bindM, try_exceptM, calls, outcome, ret.
  destruct (client (create_sprint name board)) as [response|e] eqn:Ec;
    [destruct (success response) eqn:Es|]; cbn [fst snd app].
  all: split; [eexists; reflexivity|].
  all: split; [intros n b [H | []]; injection H as <- <-; auto|].
  all: split; [discriminate|].
  all: split; [intros _ [H | H]; [injection H as ->; now elim Hboard | discriminate]|].
  all: try discriminate.
  intros t d m H. injection H as <- _ _. split; [reflexivity|].
  now exists name, board, response.
Qed.

Lemma create_sprint_after_extraction_witness :
  _handle_create_sprint client_some_items "create sprint named Alpha in board 0"
  = ([], Ok (mcp_error (Some "Board ID required")
               "To create a sprint, please provide a board ID. Example: 'Create sprint in board 123 named Sprint 1'")).
Proof.
  apply (proj1 (proj2 (proj2 (proj2
           (create_sprint_after_extraction client_some_items
              "create sprint named Alpha in board 0"
              (Some "Alpha") (Some 0%Z) eq_refl))))).
  - reflexivity.
  - now left.
Defined.

(** *** The get handler of sprints *)

Lemma scan_sprint_id (words : list string) :
  scan sprint_id_of words =
  option_map
    (fun word =>
       match parse_int word with
       | Some n => Ok n
       | None => Raise (Exn ValueError
                          "Exceeds the limit for integer string conversion")
       end)
    (find isdigit words).
Proof.
  induction words as [|w words IH]; [reflexivity|].
  cbn [scan find]. unfold sprint_id_of at 1.
  destruct (isdigit w); [reflexivity | exact IH].
Qed.

Lemma digit_word_count (w : string) :
  sforall isdigit_char w = true -> count_digits w = String.length w.
Proof.
  induction w as [|c w IH]; [reflexivity|].
  cbn [sforall count_digits String.length]. intros H.
  apply andb_true_iff in H as [Hc Hw]. rewrite Hc, (IH Hw). reflexivity.
Qed.

Lemma digit_value_nonneg c : (0 <= digit_value c)%Z.
Proof. unfold digit_value. lia. Qed.

Lemma read_digit_word (w : string) : forall (acc : Z) (prev : bool),
  sforall isdigit_char w = true -> (0 <= acc)%Z ->
  w <> "" \/ prev = true ->
  exists n, read_digits w acc prev = Some n /\ (0 <= n)%Z.
Proof.
  induction w as [|c w IH]; intros acc prev Hw Hacc Hne.
  - destruct Hne as [Hne| ->]; [congruence|]. now exists acc.
  - cbn [sforall] in Hw. apply andb_true_iff in Hw as [Hc Hw].
    cbn [read_digits]. rewrite Hc.
    apply IH; [exact Hw| |now right].
    pose proof (digit_value_nonneg c). lia.
Qed.

Lemma parse_digit_word (w : string) :
  isdigit w = true ->
  if int_max_str_digits <? String.length w then parse_int w = None
  else exists n, parse_int w = Some n /\ (0 <= n)%Z.
Proof.
  unfold isdigit. intros H. apply andb_true_iff in H as [Ht Hw].
  unfold parse_int. rewrite (digit_word_count w Hw).
  destruct (int_max_str_digits <? String.length w); [reflexivity|].
  assert (Hne : w <> "") by (destruct w; [discriminate | congruence]).
  destruct (read_digit_word w 0 false Hw (Z.le_refl 0) (or_introl Hne))
    as (n & Hn & Hpos).
  exists n. split; [|exact Hpos]. rewrite <- Hn.
  destruct w as [|c w]; [reflexivity|].
  cbn [sforall] in Hw. apply andb_true_iff in Hw as [Hc _].
  destruct c as [[] [] [] [] [] [] [] []]; try discriminate Hc; reflexivity.
Qed.

(** For a query in ASCII, the get handler of sprints looks at the first
    word made of digits only, and at no later one. Without such a word it
    answers that no sprint ID was found and does not call the client. A
    word of more than 4300 digits makes [int] raise ValueError, which the
    handler does not catch: it raises, with no call made. Otherwise the
    word is read as a number that is not negative: for the number 0 the
    handler answers again that no sprint ID was found, without a call, and
    for any other number it asks the client for that sprint, once. *)
Theorem get_sprint_first_number client (query : string) :
  is_ascii query = true ->
  match find isdigit (split query) with
  | None =>
      _handle_get_sprint client query =
        ([], Ok (mcp_error (Some "No sprint ID found in query")
                   "Please specify a sprint ID"))
  | Some word =>
      if int_max_str_digits <? String.length word then
        exists text,
          _handle_get_sprint client query = ([], Raise (Exn ValueError text))
      else
        exists n,
          parse_int word = Some n /\ (0 <= n)%Z
          /\ (n = 0%Z ->
              _handle_get_sprint client query =
                ([], Ok (mcp_error (Some "No sprint ID found in query")
                           "Please specify a sprint ID")))
          /\ (n <> 0%Z ->
              calls (_handle_get_sprint client query) = [get_sprint n])
  end.
Proof.
  intros _. unfold _handle_get_sprint. rewrite scan_sprint_id.
  destruct (find isdigit (split query)) as [word|] eqn:Hfind; [|reflexivity].
  apply find_some in Hfind as [_ Hword].
  pose proof (parse_digit_word word Hword) as Hparse.
  cbn [option_map].
  destruct (int_max_str_digits <? String.length word).
  - rewrite Hparse. eexists; reflexivity.
  - destruct Hparse as (n & -> & Hpos). exists n.
    split; [reflexivity|]. split; [exact Hpos|].
    destruct n as [|n|n]; [| |lia].
    + split; [reflexivity | congruence].
    + split; [discriminate|]. intros _.
      cbn [set_int Z.eqb negb]; unfold call, bindM, calls;
        destruct (client _) as [response|e]; [|reflexivity];
        destruct (success response); reflexivity.
Qed.

Lemma get_sprint_first_number_witness :
  calls (_handle_get_sprint client_some_items "show sprint 12 of board 7")
  = [get_sprint 12].
Proof.
  destruct (get_sprint_first_number client_some_items
              "show sprint 12 of board 7" eq_refl) as (n & Hn & _ & _ & H).
  vm_compute in Hn. injection Hn as <-. apply H. discriminate.
Defined.

End HandlerProps.

(** ** Properties of JiraMCPClient and of the handlers over it *)

Module ClientProps.
Import Py PyMore MCP JiraClient Design PyFacts MCPProps.

(** *** [_make_request] *)

(** [_make_request] never raises. Its answer is a success exactly when the
    server answered with status 200, 201, 202 or 204 and the body is empty
    or is read as JSON. A success has no error text, and its data is what
    the body holds, whatever JSON value that is (the body [null] gives a
    success whose data is [None]), or the empty dictionary for an empty
    body. A failure has no data and an error text: the status and the text
    of the answer for another status, and the text of the exception when
    the body is not JSON or the request could not be made. *)
Theorem make_request_answers
    (http : MCPRequest -> result Wire.HttpResponse) (request : MCPRequest) :
  exists response,
    Wire._make_request http request = Ok response
    /\ (Wire.success response = true <->
        exists reply,
          http request = Ok reply
          /\ in_Z (Wire.status_code reply) [200; 201; 202; 204]%Z = true
          /\ (Wire.content reply = "" \/ exists body, Wire.json reply = Ok body))
    /\ (Wire.success response = true ->
        Wire.error response = None
        /\ exists reply,
             http request = Ok reply
             /\ (Wire.content reply = "" -> Wire.data response = PDict [])
             /\ (Wire.content reply <> "" ->
                 Wire.json reply = Ok (Wire.data response)))
    /\ (Wire.success response = false ->
        Wire.data response = PNone
        /\ exists text, Wire.error response = Some text)
    /\ (forall reply,
          http request = Ok reply ->
          in_Z (Wire.status_code reply) [200; 201; 202; 204]%Z = false ->
          Wire.error response =
            Some ("HTTP " ++ str_of_Z (Wire.status_code reply) ++ ": "
                  ++ Wire.text reply)%string)
    /\ (forall reply e,
          http request = Ok reply ->
          in_Z (Wire.status_code reply) [200; 201; 202; 204]%Z = true ->
          Wire.content reply <> "" -> Wire.json reply = Raise e ->
          Wire.error response = Some ("Request failed: " ++ exn_msg e)%string)
    /\ (forall e,
          http request = Raise e ->
          Wire.error response = Some ("Request failed: " ++ exn_msg e)%string).
Proof.
  unfold Wire._make_request.
  destruct (http request) as [reply|e]; cbn [bind try_except].
  - destruct (in_Z (Wire.status_code reply) [200; 201; 202; 204]%Z) eqn:Es.
    + destruct (Wire.content reply) as [|c rest] eqn:Ec;
        cbn [truthy bind try_except].
      * eexists. split; [reflexivity|].
        cbn [Wire.success Wire.data Wire.error].
        split; [|split; [|split; [discriminate|split; [|split]]]].
        -- split; [|reflexivity]. intros _. exists reply.
           split; [reflexivity|]. split; [exact Es | left; exact Ec].
        -- intros _. split; [reflexivity|]. exists reply.
           split; [reflexivity|]. split; [reflexivity|]. rewrite Ec. congruence.
        -- intros r Hr Hs. injection Hr as <-. congruence.
        -- intros r e Hr _ Hc. injection Hr as <-. congruence.
        -- discriminate.
      * destruct (Wire.json reply) as [body|e] eqn:Ej; cbn [bind try_except].
        -- eexists. split; [reflexivity|].
           cbn [Wire.success Wire.data Wire.error].
           split; [|split; [|split; [discriminate|split; [|split]]]].
           ++ split; [|reflexivity]. intros _. exists reply.
              split; [reflexivity|]. split; [exact Es|]. right. now exists body.
           ++ intros _. split; [reflexivity|]. exists reply.
              split; [reflexivity|]. split; [|intros _; exact Ej].
              rewrite Ec. discriminate.
           ++ intros r Hr Hs. injection Hr as <-. congruence.
           ++ intros r e Hr _ _ Hj. injection Hr as <-. congruence.
           ++ discriminate.
        -- eexists. split; [reflexivity|].
           cbn [Wire.success Wire.data Wire.error].
           split; [|split; [discriminate|split; [|split; [|split]]]].
           ++ split; [discriminate|]. intros (r & Hr & _ & [Hc | (body & Hj)]);
                injection Hr as <-; congruence.
           ++ intros _. split; [reflexivity | eexists; reflexivity].
           ++ intros r Hr Hs. injection Hr as <-. congruence.
           ++ intros r e' Hr _ _ Hj. injection Hr as <-. congruence.
           ++ discriminate.
    + eexists. split; [reflexivity|].
      cbn [Wire.success Wire.data Wire.error].
      split; [|split; [discriminate|split; [|split; [|split]]]].
      * split; [discriminate|]. intros (r & Hr & Hs & _).
        injection Hr as <-. congruence.
      * intros _. split; [reflexivity | eexists; reflexivity].
      * intros r Hr _. now injection Hr as <-.
      * intros r e Hr Hs. injection Hr as <-. congruence.
      * discriminate.
  - eexists. split; [reflexivity|].
    cbn [Wire.success Wire.data Wire.error].
    split; [|split; [discriminate|split; [|split; [|split]]]].
    + split; [discriminate|]. intros (r & Hr & _). discriminate.
    + intros _. split; [reflexivity | eexists; reflexivity].
    + discriminate.
    + discriminate.
    + intros e' H. now injection H as <-.
Qed.

(** The body [null] with status 200: a success whose data is [None]. *)
Lemma make_request_null_body (request : MCPRequest) :
  Wire._make_request http_null request =
    Ok {| Wire.success := true; Wire.data := PNone; Wire.error := None |}.
Proof. reflexivity. Qed.

(** For a server whose bodies are JSON objects, the typed request is the
    request as the code builds it. *)
Lemma make_request_of_objects (http : MCPRequest -> result HttpResponse)
    (request : MCPRequest) :
  Wire._make_request
    (fun request => bind (http request) (fun reply => Ok (object_reply reply)))
    request
  = bind (_make_request http request) (fun response => Ok (as_built response)).
Proof.
  unfold Wire._make_request, _make_request.
  destruct (http request) as [reply|e]; cbn [bind try_except]; [|reflexivity].
  cbn [object_reply Wire.status_code Wire.content Wire.text Wire.json].
  destruct (in_Z (status_code reply) [200; 201; 202; 204]%Z); [|reflexivity].
  destruct (truthy (content reply)); [|reflexivity].
  destruct (json reply); reflexivity.
Qed.

(** *** The requests *)

(** Optional arguments that are empty or zero are treated as absent: the
    sprints of board 0 are requested as all sprints, an empty project key
    adds no project to the search, a sprint is created without its dates
    when they are empty, and an epic created with an empty description,
    as the create handler does, is sent with the three fields project,
    summary and issue type only. *)
Theorem absent_when_falsy (config : Config) (b64encode : string -> string) :
  (forall board_id, set_int board_id = false ->
     get_sprints_request config b64encode board_id
     = get_sprints_request config b64encode None)
  /\ (forall project_key, set_str project_key = false ->
        get_epics_request config b64encode project_key
        = get_epics_request config b64encode None)
  /\ (forall name board_id start_date end_date,
        set_str start_date = false -> set_str end_date = false ->
        create_sprint_request config b64encode name board_id start_date end_date
        = create_sprint_request config b64encode name board_id None None)
  /\ (forall project_key summary,
        JiraClient.data (create_epic_request config b64encode project_key summary "") =
        Some (PDict [("fields", PDict
                [("project", PDict [("key", PStr project_key)]);
                 ("summary", PStr summary);
                 ("issuetype", PDict [("name", PStr "Epic")])])])).
Proof.
  repeat split.
  - intros board_id H. unfold get_sprints_request. now rewrite H.
  - intros project_key H. unfold get_epics_request. now rewrite H.
  - intros name board_id start_date end_date Hs He.
    unfold create_sprint_request. now rewrite Hs, He.
Qed.

Lemma absent_when_falsy_witness :
  url (get_sprints_request example_config (fun s => s) (Some 0%Z))
  = "https://example.atlassian.net/rest/agile/1.0/sprint".
Proof.
  rewrite (proj1 (absent_when_falsy example_config (fun s => s)) (Some 0%Z) eq_refl).
  reflexivity.
Defined.

(** The client sends the Authorization header exactly when both the token
    and the e-mail are set, while [Config.validate] warns only when neither
    is: with one of the two alone there is no warning and no
    authorization. [validate] returns [True] in every case. *)
Theorem authorization_needs_both (config : Config) (b64encode : string -> string) :
  (dict_find (client_headers config b64encode) "Authorization" <> None
   <-> set_str (JIRA_API_TOKEN config) = true /\ set_str (JIRA_EMAIL config) = true)
  /\ (fst (validate config) <> []
      <-> set_str (JIRA_API_TOKEN config) = false
          /\ set_str (JIRA_EMAIL config) = false)
  /\ snd (validate config) = true
  /\ (set_str (JIRA_API_TOKEN config) <> set_str (JIRA_EMAIL config) ->
      fst (validate config) = []
      /\ dict_find (client_headers config b64encode) "Authorization" = None).
Proof.
  unfold client_headers, validate.
  destruct (set_str (JIRA_API_TOKEN config)), (set_str (JIRA_EMAIL config));
    cbn [andb negb fst snd]; repeat split; try discriminate; try congruence;
    try (intros [? ?]; discriminate); try (intros ?; exfalso; auto; fail).
  all: exfalso; apply H; reflexivity.
Qed.

Lemma authorization_needs_both_witness :
  fst (validate example_config) = []
  /\ dict_find (client_headers example_config (fun s => s)) "Authorization" = None.
Proof.
  apply (proj2 (proj2 (proj2 (authorization_needs_both example_config (fun s => s))))).
  discriminate.
Defined.

(** *** The create handler of epics over HTTP *)

(** With the Jira client, the create handler of epics sends one request
    when both fields are found, and what the server does shows in the
    result: a 2xx answer with a JSON body gives the created epic, another
    status gives the error ["HTTP " + status + ": " + text], and a request
    that cannot be made gives ["Request failed: " + reason]. The branch
    "Error creating epic" is never taken, since the client does not
    raise. *)
Theorem create_epic_over_http (config : Config) (b64encode : string -> string)
    (http : MCPRequest -> result HttpResponse) (query key text_ : string) :
  create_epic_params query = Ok (Some key, Some text_) ->
  truthy key = true -> truthy text_ = true ->
  let request := create_epic_request config b64encode key text_ "" in
  let handled := _handle_create_epic (jira_client config b64encode http) query in
  calls handled = [MCP.create_epic key text_ ""]
  /\ (forall reply body,
        http request = Ok reply ->
        in_Z (status_code reply) [200; 201; 202; 204]%Z = true ->
        content reply <> "" -> json reply = Ok body ->
        outcome handled =
          Ok (mcp "epic_created" (PDict body)
                ("Successfully created epic in project " ++ key)%string))
  /\ (forall reply,
        http request = Ok reply ->
        in_Z (status_code reply) [200; 201; 202; 204]%Z = false ->
        let failure := ("HTTP " ++ str_of_Z (status_code reply) ++ ": "
                        ++ JiraClient.text reply)%string in
        outcome handled =
          Ok (mcp_error (Some failure) ("Failed to create epic: " ++ failure)%string))
  /\ (forall e,
        http request = Raise e ->
        let failure := ("Request failed: " ++ exn_msg e)%string in
        outcome handled =
          Ok (mcp_error (Some failure) ("Failed to create epic: " ++ failure)%string)).
Proof.
  intros Hp Hk Ht request handled.
  assert (E : handled =
    match _make_request http request with
    | Ok response =>
        ([MCP.create_epic key text_ ""],
         Ok (if success response
             then mcp "epic_created" (val_of_data (MCP.data response))
                      ("Successfully created epic in project " ++ key)%string
             else mcp_error (error response)
                    ("Failed to create epic: " ++ str_of_opt (error response))%string))
    | Raise e =>
        ([MCP.create_epic key text_ ""],
         Ok (mcp_error (Some (exn_msg e))
               ("Error creating epic: " ++ exn_msg e)%string))
    end).
  { unfold handled, _handle_create_epic. rewrite Hp. cbn [lift bindM set_str].
    rewrite Hk, Ht. cbn [negb str_of_opt].
    unfold call, bindM, try_exceptM, ret, jira_client.
    cbn [request_of]. fold request.
    destruct (_make_request http request) as [response|e]; [|reflexivity].
    destruct (success response); reflexivity. }
  rewrite E. unfold _make_request. clear E.
  split; [|split; [|split]].
  - destruct (http request) as [reply|e]; cbn [bind try_except]; [|reflexivity].
    destruct (in_Z _ _); [|reflexivity].
    destruct (truthy (content reply)); [|reflexivity].
    destruct (json reply); reflexivity.
  - intros reply body Hq Hs Hc Hj. rewrite Hq. cbn [bind try_except].
    rewrite Hs. destruct (content reply); [congruence|].
    cbn [truthy]. rewrite Hj. reflexivity.
  - intros reply Hq Hs. rewrite Hq. cbn [bind try_except]. rewrite Hs.
    reflexivity.
  - intros e Hq. rewrite Hq. reflexivity.
Qed.

Lemma create_epic_over_http_witness :
  outcome (_handle_create_epic
             (jira_client example_config (fun s => s)
                (http_answering 403 "Forbidden" []))
             "Create epic in DEMO with title Test Epic")
  = Ok (mcp_error (Some "HTTP 403: Forbidden")
          "Failed to create epic: HTTP 403: Forbidden").
Proof.
  apply (proj1 (proj2 (proj2
           (create_epic_over_http example_config (fun s => s)
              (http_answering 403 "Forbidden" [])
              "Create epic in DEMO with title Test Epic" "DEMO" "Test Epic"
              eq_refl eq_refl eq_refl)))
           {| status_code := 403; content := "Forbidden";
              JiraClient.text := "Forbidden"; json := Ok [] |});
    reflexivity.
Defined.

(** *** The list handlers and what the body holds *)

(** The list handlers take the length of whatever the body holds under
    "issues" or "values": a list gives its number of items, a string its
    number of characters, and a value without length, such as null or a
    number, makes the handler raise TypeError after the call, which it does
    not catch. *)
Theorem list_handlers_count client (query : string) (response : MCPResponse) :
  client (MCP.get_epics None) = Ok response ->
  success response = true -> set_dict (MCP.data response) = true ->
  match returned_collection "issues" response with
  | PList items =>
      _handle_list_epics client query =
        ([MCP.get_epics None],
         Ok (mcp "epic_list" (PList items)
               ("Found " ++ str_of_nat (length items) ++ " epics")%string))
  | PStr s =>
      _handle_list_epics client query =
        ([MCP.get_epics None],
         Ok (mcp "epic_list" (PStr s)
               ("Found " ++ str_of_nat (String.length s) ++ " epics")%string))
  | PDict d =>
      _handle_list_epics client query =
        ([MCP.get_epics None],
         Ok (mcp "epic_list" (PDict d)
               ("Found " ++ str_of_nat (length d) ++ " epics")%string))
  | _ =>
      exists text,
        _handle_list_epics client query =
          ([MCP.get_epics None], Raise (Exn TypeError text))
  end.
Proof.
  intros Hc Hs Hd. rewrite (list_epics_cases client query response Hc), Hs, Hd.
  cbn [andb].
  destruct (returned_collection "issues" response);
    try reflexivity; eexists; reflexivity.
Qed.

Lemma list_handlers_count_witness :
  exists text,
  _handle_list_epics
    (fun _ => Ok {| success := true;
                    MCP.data := Some [("issues", PNone)]; error := None |})
    "list epics"
  = ([MCP.get_epics None], Raise (Exn TypeError text)).
Proof.
  exact (list_handlers_count
           (fun _ => Ok {| success := true;
                           MCP.data := Some [("issues", PNone)]; error := None |})
           "list epics" _ eq_refl eq_refl eq_refl).
Defined.

End ClientProps.

(** ** Properties of the board handlers *)

Module BoardProps.
Import Py PyMore MCP Boards Design PyFacts MCPProps.

Lemma board_info_kept (board : pydict) :
  location_is_dict board -> board_info (PDict board) = Ok (kept_fields board).
Proof.
  intros (location & Hl). unfold board_info, kept_fields.
  cbn [val_get bind]. rewrite Hl. reflexivity.
Qed.

Lemma traverse_kept (boards : list pydict) :
  Forall location_is_dict boards ->
  traverse board_info (map PDict boards) = Ok (map kept_fields boards).
Proof.
  induction 1 as [|board boards Hb _ IH]; [reflexivity|].
  cbn [map traverse]. rewrite (board_info_kept board Hb), IH. reflexivity.
Qed.

(** The list handler of boards calls the client once and returns a result
    whatever the client does: an exception of the client, missing data, a
    collection that is not a list of dictionaries all end in an error
    result, never in an exception. When the body holds a list of boards
    under "values", the result lists, for every board in order, the four
    fields id, name, type and location, the location being the project key
    or "Unknown", and the message counts the boards. *)
Theorem list_boards_never_raises client (query : string) :
  callsT (_handle_list_boards client query) = [get_boards]
  /\ (exists r, outcomeT (_handle_list_boards client query) = Ok r)
  /\ (forall response body boards,
        client get_boards = Ok response ->
        success response = true -> data response = Some body ->
        dict_get body "values" (PList []) = PList (map PDict boards) ->
        Forall location_is_dict boards ->
        outcomeT (_handle_list_boards client query) =
          Ok (mcp "boards_list" (PList (map kept_fields boards))
                ("Found " ++ str_of_nat (length boards) ++ " boards")%string))
  /\ (forall response,
        client get_boards = Ok response ->
        success response = true -> data response = None ->
        outcomeT (_handle_list_boards client query) =
          Ok (mcp_error (Some "'NoneType' object has no attribute 'get'")
                "Error retrieving boards: 'NoneType' object has no attribute 'get'")).
Proof.
  unfold _handle_list_boards, callT, bindT, try_exceptT, liftT, retT, callsT, outcomeT.
  split; [|split; [|split]].
  - destruct (client get_boards) as [response|e]; [|reflexivity].
    destruct (success response); [|reflexivity].
    destruct (val_get _ _ _) as [v|e]; [|reflexivity].
    destruct (iterate v) as [l|e]; [|reflexivity].
    destruct (traverse board_info l); reflexivity.
  - destruct (client get_boards) as [response|e]; [|eexists; reflexivity].
    destruct (success response); [|eexists; reflexivity].
    destruct (val_get _ _ _) as [v|e]; [|eexists; reflexivity].
    destruct (iterate v) as [l|e]; [|eexists; reflexivity].
    destruct (traverse board_info l); eexists; reflexivity.
  - intros response body boards Hc Hs Hd Hv Hl.
    rewrite Hc, Hs, Hd. cbn [val_of_data val_get]. rewrite Hv.
    cbn [iterate]. rewrite (traverse_kept boards Hl).
    cbn [fst snd]. now rewrite length_map.
  - intros response Hc Hs Hd. rewrite Hc, Hs, Hd. reflexivity.
Qed.

Lemma list_boards_never_raises_witness :
  outcomeT (_handle_list_boards client_two_boards "show boards") =
  Ok (mcp "boards_list"
        (PList [PDict [("id", PInt 1); ("name", PStr "Alpha");
                       ("type", PStr "scrum"); ("location", PStr "DEMO")];
                PDict [("id", PInt 2); ("name", PStr "Beta");
                       ("type", PStr "kanban"); ("location", PStr "Unknown")]])
        "Found 2 boards").
Proof.
  apply (proj1 (proj2 (proj2 (list_boards_never_raises client_two_boards "show boards")))
           _ _
           [[("id", PInt 1); ("name", PStr "Alpha"); ("type", PStr "scrum");
             ("location", PDict [("projectKey", PStr "DEMO")])];
            [("id", PInt 2); ("name", PStr "Beta"); ("type", PStr "kanban")]]
           eq_refl eq_refl eq_refl eq_refl).
  repeat constructor; eexists; reflexivity.
Defined.

(** The get handler of boards takes the number after the first word
    "board" that is followed by one: without it, or when it is 0, it asks
    for a board ID and does not call the client; otherwise it calls the
    client once for that board and returns a result, also when the client
    raises. *)
Theorem get_board_needs_number client (query : string) :
  (exists r, outcomeT (_handle_get_board client query) = Ok r)
  /\ (set_int (scan id_after_board (split query)) = false ->
      _handle_get_board client query =
        ([], Ok (mcp_error (Some "Board ID required")
                   "To get board details, please specify a board ID. Example: 'Show board 123'")))
  /\ (forall n,
        scan id_after_board (split query) = Some n -> n <> 0%Z ->
        callsT (_handle_get_board client query) = [get_board n]).
Proof.
  unfold _handle_get_board.
  destruct (scan id_after_board (split query)) as [[|n|n]|];
    cbn [set_int Z.eqb negb].
  1,4: repeat split; try (eexists; reflexivity); try discriminate;
       intros n H; injection H as <-; congruence.
  all: unfold callT, bindT, try_exceptT, retT, callsT, outcomeT;
    destruct (client _) as [response|e]; [destruct (success response)|];
    repeat split; try (eexists; reflexivity); try discriminate;
    intros m H; now injection H as <-.
Qed.

Lemma get_board_needs_number_witness :
  callsT (_handle_get_board client_two_boards "details of board 42 please")
  = [get_board 42%Z].
Proof.
  apply (proj2 (proj2 (get_board_needs_number client_two_boards
                         "details of board 42 please")) 42%Z);
    [reflexivity | discriminate].
Defined.

(** A board query with "list", "show" or "get all" in it, up to case, is
    always answered by the list of all boards, also when it names a board:
    the phrasing 'Show board 123' that the get handler suggests lists the
    boards and never reaches the get handler. *)
Theorem board_routing client (query : string) :
  (any_occurs ["list"; "show"; "get all"] query = true ->
   handle_board_query client query = _handle_list_boards client query)
  /\ (any_occurs ["list"; "show"; "get all"] query = false ->
      handle_board_query client query = _handle_get_board client query)
  /\ callsT (handle_board_query client "Show board 123") = [get_boards].
Proof.
  unfold handle_board_query.
  rewrite three_keywords by repeat constructor.
  split; [intros ->; reflexivity|]. split; [intros ->; reflexivity|].
  change (handle_board_query client "Show board 123")
    with (_handle_list_boards client "Show board 123").
  unfold _handle_list_boards, callT, bindT, try_exceptT, liftT, retT, callsT.
  destruct (client get_boards) as [response|e]; [|reflexivity].
  destruct (success response); [|reflexivity].
  destruct (val_get _ _ _) as [v|e]; [|reflexivity].
  destruct (iterate v) as [l|e]; [|reflexivity].
  destruct (traverse board_info l); reflexivity.
Qed.

Lemma board_routing_witness :
  handle_board_query client_two_boards "GET ALL boards"
  = _handle_list_boards client_two_boards "GET ALL boards".
Proof.
  apply (proj1 (board_routing client_two_boards "GET ALL boards")). reflexivity.
Defined.

(** The answer that the list handlers of epics and sprints report as an
    error, a success with the empty body, given to the list handler of
    boards: it tests [response.success] alone and lists no board. *)
Lemma list_boards_empty_body (query : string) :
  _handle_list_boards
    (fun _ => Ok {| success := true; data := Some []; error := None |}) query
  = ([get_boards], Ok (mcp "boards_list" (PList []) "Found 0 boards")).
Proof. reflexivity. Qed.

End BoardProps.

(** ** Properties of the chunks of a text *)

Module DocsProps.
Import Py PyMore Docs PyFacts ConversationProps HandlerProps.

(** *** Words joined by blanks split into the same words *)

Lemma split_from_word (w rest cur : string) :
  sexists isspace w = false ->
  split_ws_from (w ++ rest) cur = split_ws_from rest (srev_onto w cur).
Proof.
  revert cur. induction w as [|c w IH]; intros cur H; [reflexivity|].
  simpl in H. apply orb_false_iff in H as [Hc Hw].
  cbn [append split_ws_from srev_onto]. rewrite Hc. now apply IH.
Qed.

Lemma split_join (words : list string) :
  Forall (fun w => is_word w = true) words -> split (join " " words) = words.
Proof.
  induction 1 as [|w words Hw _ IH]; [reflexivity|].
  unfold is_word in Hw. apply andb_true_iff in Hw as [Ht Hs].
  apply negb_true_iff in Hs.
  unfold split, join in *. destruct words as [|x words].
  - cbn [String.concat]. rewrite <- (sappend_empty w) at 1.
    rewrite split_from_word by assumption. cbn [split_ws_from].
    fold (srev w). now rewrite truthy_srev, Ht, srev_involutive.
  - change (String.concat " " (w :: x :: words))
      with (w ++ String " " (String.concat " " (x :: words)))%string.
    rewrite split_from_word by assumption. fold (srev w).
    cbn [split_ws_from]. change (isspace " ") with true. cbn iota.
    now rewrite truthy_srev, Ht, srev_involutive, IH.
Qed.

(** *** Slices and ranges *)

Lemma slice_window {A} (l : list A) (i size : Z) :
  (0 <= i <= Z.of_nat (length l))%Z -> (0 <= size)%Z ->
  slice l i (i + size) = firstn (Z.to_nat size) (skipn (Z.to_nat i) l).
Proof.
  intros Hi Hs. unfold slice, clamp_index. cbv zeta.
  destruct (i <? 0)%Z eqn:E1; [lia|]. rewrite ?E1.
  destruct (Z.of_nat (length l) <? i)%Z eqn:E2; [lia|].
  destruct (i + size <? 0)%Z eqn:E3; [lia|]. rewrite ?E3.
  destruct (Z.of_nat (length l) <? i + size)%Z eqn:E4.
  - rewrite !firstn_all2 by (rewrite length_skipn; lia). reflexivity.
  - f_equal. lia.
Qed.

Lemma range_from_bounds (fuel : nat) (i stop step : Z) :
  (0 <= i)%Z -> (0 < step)%Z ->
  Forall (fun j => (0 <= j < stop)%Z) (range_from fuel i stop step).
Proof.
  revert i. induction fuel as [|fuel IH]; intros i Hi Hs; cbn [range_from];
    [constructor|].
  destruct (i <? stop)%Z eqn:E; [|constructor].
  constructor; [lia | apply IH; lia].
Qed.

Lemma range_from_covers {A} (l : list A) (fuel : nat) (i step : Z) :
  (0 <= i)%Z -> (0 < step)%Z ->
  (Z.of_nat (length l) - i <= Z.of_nat fuel)%Z ->
  flat_map (fun j => firstn (Z.to_nat step) (skipn (Z.to_nat j) l))
           (range_from fuel i (Z.of_nat (length l)) step)
  = skipn (Z.to_nat i) l.
Proof.
  revert i. induction fuel as [|fuel IH]; intros i Hi Hs Hf; cbn [range_from].
  - rewrite skipn_all2 by lia. reflexivity.
  - destruct (i <? Z.of_nat (length l))%Z eqn:E.
    + cbn [flat_map]. rewrite IH by lia.
      replace (Z.to_nat (i + step)) with (Z.to_nat step + Z.to_nat i) by lia.
      rewrite <- skipn_skipn. apply firstn_skipn.
    + rewrite skipn_all2 by lia. reflexivity.
Qed.

(** With an overlap that is not negative and smaller than the chunk size,
    the chunks cover the text: taking from every chunk its first
    [chunk_size - overlap] words gives back the words of the text, in
    order and each once, and no chunk holds more than [chunk_size]
    words. *)
Theorem chunks_cover_text (text : string) (chunk_size overlap : Z) :
  (0 <= overlap < chunk_size)%Z ->
  exists chunks,
    _chunk_text text chunk_size overlap = Ok chunks
    /\ flat_map (fun chunk => firstn (Z.to_nat (chunk_size - overlap)) (split chunk))
                chunks
       = split text
    /\ Forall (fun chunk => (Z.of_nat (length (split chunk)) <= chunk_size)%Z)
              chunks.
Proof.
  intros H. unfold _chunk_text, range0.
  destruct (chunk_size - overlap =? 0)%Z eqn:E0; [lia|].
  destruct (chunk_size - overlap <? 0)%Z eqn:E1; [lia|].
  cbn [bind]. eexists. split; [reflexivity|].
  set (words := split text).
  set (n := Z.of_nat (length words)).
  set (step := (chunk_size - overlap)%Z).
  pose proof (range_from_bounds (Z.to_nat n) 0 n step ltac:(lia) ltac:(lia))
    as Hb.
  assert (Hw : forall j, (0 <= j < n)%Z ->
    split (join " " (slice words j (j + chunk_size)))
    = firstn (Z.to_nat chunk_size) (skipn (Z.to_nat j) words)).
  { intros j Hj. rewrite slice_window by (unfold n in Hj; lia).
    apply split_join.
    pose proof (split_words text) as Hall. fold words in Hall.
    rewrite <- (firstn_skipn (Z.to_nat j) words) in Hall.
    apply Forall_app in Hall as [_ Hall].
    rewrite <- (firstn_skipn (Z.to_nat chunk_size) (skipn (Z.to_nat j) words))
      in Hall.
    now apply Forall_app in Hall as [Hall _]. }
  split.
  - rewrite flat_map_concat_map, map_map, <- flat_map_concat_map.
    transitivity (skipn (Z.to_nat 0) words); [|reflexivity].
    rewrite <- (range_from_covers words (Z.to_nat n) 0 step)
      by (unfold n; lia).
    fold n. rewrite Forall_forall in Hb.
    rewrite !flat_map_concat_map. f_equal. apply map_ext_in.
    intros j Hj. rewrite (Hw j (Hb j Hj)), firstn_firstn.
    f_equal. unfold step. lia.
  - rewrite Forall_map. rewrite Forall_forall in Hb |- *.
    intros j Hj. rewrite (Hw j (Hb j Hj)), length_firstn. lia.
Qed.

Lemma chunks_cover_text_witness :
  exists chunks,
    _chunk_text "one two  three four five" 3 1 = Ok chunks
    /\ flat_map (fun chunk => firstn 2 (split chunk)) chunks
       = ["one"; "two"; "three"; "four"; "five"].
Proof.
  destruct (chunks_cover_text "one two  three four five" 3 1 ltac:(lia))
    as (chunks & Hc & Hf & _).
  exists chunks. split; [exact Hc | exact Hf].
Defined.

(** With an overlap equal to the chunk size the chunking raises
    ValueError for every text, the empty one included, and with an overlap
    greater than the chunk size it returns no chunk at all, whatever the
    text holds. The empty text gives no chunk for every other setting. *)
Theorem chunks_with_bad_overlap (text : string) (chunk_size overlap : Z) :
  (overlap = chunk_size ->
   _chunk_text text chunk_size overlap
   = Raise (Exn ValueError "range() arg 3 must not be zero"))
  /\ ((chunk_size < overlap)%Z -> _chunk_text text chunk_size overlap = Ok [])
  /\ (overlap <> chunk_size -> _chunk_text "" chunk_size overlap = Ok []).
Proof.
  unfold _chunk_text, range0. repeat split.
  - intros ->. now rewrite Z.sub_diag.
  - intros H. destruct (chunk_size - overlap =? 0)%Z eqn:E0; [lia|].
    destruct (chunk_size - overlap <? 0)%Z eqn:E1; [reflexivity | lia].
  - intros H. destruct (chunk_size - overlap =? 0)%Z eqn:E0; [lia|].
    destruct (chunk_size - overlap <? 0)%Z; reflexivity.
Qed.

Lemma chunks_with_bad_overlap_witness :
  _chunk_text "a long text that is lost" 200 1000 = Ok [].
Proof.
  apply (proj1 (proj2 (chunks_with_bad_overlap "a long text that is lost" 200 1000))).
  lia.
Defined.

End DocsProps.

(** ** Properties of the chat endpoint *)

Module MainProps.
Import Py PyMore MCP Boards Docs Main Design PyFacts ConversationProps.

Lemma mentions (word text : string) :
  lower word = word ->
  Chatbot.any_in [word; (word ++ "s")%string] (lower text) = ci_occurs word text.
Proof.
  intros Hw. unfold Chatbot.any_in. simpl. rewrite orb_false_r.
  rewrite <- contains_lower by exact Hw.
  destruct (contains (word ++ "s") (lower text)) eqn:H; [|apply orb_false_r].
  apply contains_shorter in H. now rewrite H.
Qed.

Section Endpoint.

Variable client : ClientCall -> result MCPResponse.
Variable board_client : BoardCall -> result MCPResponse.
Variable search_documentation : string -> result (list pyval).
Variable pipeline : option (string -> nat -> result pyval).
Variable encoded_length : string -> result nat.
Variable repr : pyval -> string.

Let endpoint := chat client board_client search_documentation pipeline
                     encoded_length repr.

Lemma chat_epic (log : list Chatbot.ChatMessage) (now1 now2 now message : string) :
  ci_occurs "epic" message = true ->
  endpoint log now1 now2 now message =
  let (events, branch) := epic_branch client search_documentation repr message now in
  match branch with
  | Raise e =>
      (events,
       HTTPException 500 ("Error processing chat request: " ++ exn_msg e)%string,
       log)
  | Ok (inl model) => (events, Answer model, log)
  | Ok (inr external_context) =>
      match Chatbot.process_query pipeline encoded_length log now1 now2
              message external_context with
      | Ok (r, log') => (events, Answer (model_of r now), log')
      | Raise e =>
          (events,
           HTTPException 500 ("Error processing chat request: " ++ exn_msg e)%string,
           log)
      end
  end.
Proof.
  intros H. unfold endpoint, chat.
  change ["epic"; "epics"] with ["epic"; ("epic" ++ "s")%string].
  rewrite mentions by reflexivity. now rewrite H.
Qed.

(** When the message mentions an epic and the create handler reports the
    created epic, the endpoint answers at once: the text is the handler's
    message with the key of the new epic ("Unknown" when the body has
    none), the confidence is 1, the only source is "mcp_epic_creation";
    the generator is not consulted, no documentation is searched, and the
    exchange is not added to the conversation log. *)
Theorem created_epic_answered_directly
    (log : list Chatbot.ChatMessage) (now1 now2 now message : string)
    (t : list ClientCall) (body : pydict) (text : string) :
  ci_occurs "epic" message = true ->
  handle_epic_query client message
    = (t, Ok (mcp "epic_created" (PDict body) text)) ->
  endpoint log now1 now2 now message =
    (map JiraCall t,
     Answer
       {| response :=
            (check_mark ++ " " ++ text ++ " (Epic: "
             ++ format_val repr (dict_get body "key" (PStr "Unknown")) ++ ")")%string;
          confidence := 1%Q;
          sources := ["mcp_epic_creation"];
          metadata :=
            Some {| intents := [("epic", 1%Q); ("create", 1%Q)];
                    has_external_context := false;
                    mcp_result := Some (mcp "epic_created" (PDict body) text) |};
          timestamp := now |},
     log).
Proof.
  intros Hm Hh. rewrite chat_epic by exact Hm.
  unfold epic_branch. rewrite Hh. reflexivity.
Qed.

(** When the handler of a message that mentions an epic raises, the
    endpoint raises HTTPException 500 with the text of the exception, and
    the message is not added to the conversation log. So "Create epic",
    which makes the create handler raise IndexError, is answered by
    status 500. *)
Theorem handler_exception_is_500
    (log : list Chatbot.ChatMessage) (now1 now2 now message : string)
    (t : list ClientCall) (e : exn) :
  ci_occurs "epic" message = true ->
  handle_epic_query client message = (t, Raise e) ->
  endpoint log now1 now2 now message =
    (map JiraCall t,
     HTTPException 500 ("Error processing chat request: " ++ exn_msg e)%string,
     log).
Proof.
  intros Hm Hh. rewrite chat_epic by exact Hm.
  unfold epic_branch. rewrite Hh. reflexivity.
Qed.

(** When the handler of a message that mentions an epic returns an error
    result, the endpoint searches the documentation about epics and hands
    the message to [process_query] with the context "Documentation: Found n
    relevant documentation sections", or with no context when nothing is
    found: the error text and the guidance of the handler reach neither
    the generator nor the reply. *)
Theorem failed_operation_uses_documentation
    (log : list Chatbot.ChatMessage) (now1 now2 now message : string)
    (t : list ClientCall) (error_ : option string) (guidance : string)
    (results : list pyval) :
  ci_occurs "epic" message = true ->
  handle_epic_query client message = (t, Ok (mcp_error error_ guidance)) ->
  search_documentation "epic create manage track issues" = Ok results ->
  let external_context :=
    match results with
    | [] => None
    | _ :: _ =>
        Some ("Documentation: Found " ++ str_of_nat (length results)
              ++ " relevant documentation sections")%string
    end in
  exists r log',
    Chatbot.process_query pipeline encoded_length log now1 now2 message
      external_context = Ok (r, log')
    /\ endpoint log now1 now2 now message =
         (map JiraCall t ++ [Search "epic create manage track issues"],
          Answer (model_of r now), log').
Proof.
  intros Hm Hh Hs. cbv zeta.
  match goal with
  | |- context [Chatbot.process_query _ _ _ _ _ _ ?c] => set (ctx := c)
  end.
  destruct (process_query_value pipeline encoded_length log now1 now2 message ctx)
    as (text & Hv).
  eexists. eexists. split; [exact Hv|].
  rewrite chat_epic by exact Hm.
  unfold epic_branch. rewrite Hh.
  unfold get_epic_documentation, search. rewrite Hs. cbn [bind].
  revert Hv. unfold ctx. clear ctx.
  destruct results as [|x results];
    cbn [is_nil negb bind documentation_context]; intros Hv;
    match type of Hv with
    | _ = ?rhs =>
        match goal with
        | |- context [Chatbot.process_query ?a ?b ?c ?d ?e ?f ?g] =>
            replace (Chatbot.process_query a b c d e f g) with rhs
              by (symmetry; exact Hv)
        end
    end; reflexivity.
Qed.

(** A message that mentions no epic, sprint or board makes no call on the
    Jira client: the endpoint searches the documentation with the message
    itself, once, and answers with what [process_query] returns. *)
Theorem general_query_only_searches
    (log : list Chatbot.ChatMessage) (now1 now2 now message : string)
    (results : list pyval) :
  ci_occurs "epic" message = false ->
  ci_occurs "sprint" message = false ->
  ci_occurs "board" message = false ->
  search_documentation message = Ok results ->
  exists r log' external_context,
    Chatbot.process_query pipeline encoded_length log now1 now2 message
      external_context = Ok (r, log')
    /\ endpoint log now1 now2 now message =
         ([Search message], Answer (model_of r now), log')
    /\ (results = [] -> external_context = None).
Proof.
  intros He Hs Hb Hr.
  assert (E : endpoint log now1 now2 now message =
    let ctx := documentation_context
                 (if negb (is_nil results)
                  then documentation results
                         ("Found " ++ str_of_nat (length results)
                          ++ " relevant documentation sections")%string
                  else documentation_error "No relevant documentation found"
                         "No documentation matches your query") in
    match Chatbot.process_query pipeline encoded_length log now1 now2
            message ctx with
    | Ok (r, log') => ([Search message], Answer (model_of r now), log')
    | Raise e =>
        ([Search message],
         HTTPException 500 ("Error processing chat request: " ++ exn_msg e)%string,
         log)
    end).
  { unfold endpoint, chat.
    change ["epic"; "epics"] with ["epic"; ("epic" ++ "s")%string].
    change ["sprint"; "sprints"] with ["sprint"; ("sprint" ++ "s")%string].
    change ["board"; "boards"] with ["board"; ("board" ++ "s")%string].
    rewrite !mentions by reflexivity. rewrite He, Hs, Hb.
    unfold search_branch, search. rewrite Hr. cbn [bind].
    destruct (negb (is_nil results)); reflexivity. }
  rewrite E. cbv zeta.
  match goal with
  | |- context [Chatbot.process_query _ _ _ _ _ _ ?c] => set (ctx := c)
  end.
  destruct (process_query_value pipeline encoded_length log now1 now2 message ctx)
    as (text & Hv).
  eexists. eexists. exists ctx. split; [exact Hv|]. split.
  - now rewrite Hv.
  - intros ->. reflexivity.
Qed.

(** Whatever else a message that mentions an epic says, only the epic
    handler is consulted: every call on the Jira client is a call of
    [handle_epic_query], the board client is not called, and the only
    search possible is the one for the documentation about epics. *)
Theorem epic_has_precedence
    (log : list Chatbot.ChatMessage) (now1 now2 now message : string) :
  ci_occurs "epic" message = true ->
  let events := fst (fst (endpoint log now1 now2 now message)) in
  (forall c, In (JiraCall c) events ->
             In c (calls (handle_epic_query client message)))
  /\ (forall c, ~ In (BoardEvent c) events)
  /\ (forall q, In (Search q) events -> q = "epic create manage track issues").
Proof.
  intros Hm events. unfold events. rewrite chat_epic by exact Hm.
  unfold epic_branch, calls.
  destruct (handle_epic_query client message) as [t r].
  assert (Hj : forall c, In (JiraCall c) (map JiraCall t) -> In c t).
  { intros c H. apply in_map_iff in H as (c' & E & H). now injection E as <-. }
  assert (Hb : forall c, ~ In (BoardEvent c) (map JiraCall t)).
  { intros c H. apply in_map_iff in H as (c' & E & _). discriminate. }
  assert (Hs : forall q, ~ In (Search q) (map JiraCall t)).
  { intros q H. apply in_map_iff in H as (c' & E & _). discriminate. }
  assert (Hj' : forall c q, In (JiraCall c) (map JiraCall t ++ [Search q]) -> In c t).
  { intros c q H. apply in_app_iff in H as [H | [H | []]];
      [now apply Hj | discriminate]. }
  assert (Hb' : forall c q, ~ In (BoardEvent c) (map JiraCall t ++ [Search q])).
  { intros c q H. apply in_app_iff in H as [H | [H | []]];
      [now apply Hb in H | discriminate]. }
  assert (Hs' : forall q q', In (Search q) (map JiraCall t ++ [Search q']) -> q = q').
  { intros q q' H. apply in_app_iff in H as [H | [H | []]];
      [now apply Hs in H | now injection H]. }
  cbn [fst].
  destruct r as [[type_ data_ text | error_ text] | e].
  - destruct (String.eqb type_ "epic_created").
    + destruct (val_get data_ "key" (PStr "Unknown")); cbn [bind fst];
        (split; [exact Hj | split; [exact Hb | intros q H; now apply Hs in H]]).
    + destruct (Chatbot.process_query _ _ _ _ _ _ _) as [[r l]|e]; cbn [fst];
        (split; [exact Hj | split; [exact Hb | intros q H; now apply Hs in H]]).
  - destruct (get_epic_documentation search_documentation); cbn [bind fst].
    + destruct (Chatbot.process_query _ _ _ _ _ _ _) as [[r l]|e]; cbn [fst];
        (split; [intros c; apply Hj' | split; [intros c; apply Hb' |
                                               intros q; apply Hs']]).
    + split; [intros c; apply Hj' | split; [intros c; apply Hb' |
                                            intros q; apply Hs']].
  - split; [exact Hj | split; [exact Hb | intros q H; now apply Hs in H]].
Qed.

Lemma board_info_shape (board info : pyval) :
  board_info board = Ok info -> four_fields info.
Proof.
  unfold board_info.
  destruct (val_get board "id" PNone) as [a|]; [|discriminate].
  destruct (val_get board "name" PNone) as [b|]; [|discriminate].
  destruct (val_get board "type" PNone) as [c|]; [|discriminate].
  destruct (val_get board "location" (PDict [])) as [l|]; [|discriminate].
  cbn [bind]. destruct (val_get l "projectKey" (PStr "Unknown")) as [d|];
    [|discriminate].
  cbn [bind]. intros H. injection H as <-. now exists a, b, c, d.
Qed.

Lemma traverse_shape (boards infos : list pyval) :
  traverse board_info boards = Ok infos -> Forall four_fields infos.
Proof.
  revert infos. induction boards as [|board boards IH]; intros infos; cbn [traverse].
  - intros H. injection H as <-. constructor.
  - destruct (board_info board) as [info|] eqn:E; [|discriminate]. cbn [bind].
    destruct (traverse board_info boards) as [rest|]; [|discriminate].
    cbn [bind]. intros H. injection H as <-.
    constructor; [now apply board_info_shape with board | now apply IH].
Qed.

Lemma lines_of_infos (infos : list pyval) :
  Forall four_fields infos ->
  exists lines, traverse (board_line repr) infos = Ok lines.
Proof.
  induction 1 as [|info infos (a & b & c & d & ->) _ (lines & IH)].
  - now exists [].
  - cbn [traverse]. unfold board_line at 1. cbn. rewrite IH. cbn.
    eexists. reflexivity.
Qed.

Lemma board_result_shape (message : string) (t : list BoardCall)
    (data_ : pyval) (text : string) :
  handle_board_query board_client message = (t, Ok (mcp "boards_list" data_ text)) ->
  exists infos, data_ = PList infos /\ Forall four_fields infos.
Proof.
  unfold handle_board_query.
  assert (Hget : _handle_get_board board_client message
                 <> (t, Ok (mcp "boards_list" data_ text))).
  { unfold _handle_get_board.
    destruct (negb (set_int _)); [discriminate|].
    unfold callT, bindT, try_exceptT, retT.
    destruct (board_client _) as [response|e]; [|discriminate].
    destruct (success response); discriminate. }
  assert (Hlist : _handle_list_boards board_client message
                  = (t, Ok (mcp "boards_list" data_ text)) ->
                  exists infos, data_ = PList infos /\ Forall four_fields infos).
  { unfold _handle_list_boards, callT, bindT, try_exceptT, liftT, retT.
    destruct (board_client get_boards) as [response|e]; [|discriminate].
    destruct (success response); [|discriminate].
    destruct (val_get _ _ _) as [v|e]; [|discriminate].
    destruct (iterate v) as [l|e]; [|discriminate].
    destruct (traverse board_info l) as [infos|e] eqn:E; [|discriminate].
    intros H. injection H as _ <- _. exists infos.
    split; [reflexivity | now apply traverse_shape with l]. }
  destruct (_ || _); [exact Hlist | intros H; now apply Hget in H].
Qed.

Lemma board_query_returns (message : string) :
  exists r, snd (handle_board_query board_client message) = Ok r.
Proof.
  unfold handle_board_query. destruct (_ || _).
  - unfold _handle_list_boards, callT, bindT, try_exceptT, liftT, retT.
    destruct (board_client get_boards) as [response|e]; [|eexists; reflexivity].
    destruct (success response); [|eexists; reflexivity].
    destruct (val_get _ _ _) as [v|e]; [|eexists; reflexivity].
    destruct (iterate v) as [l|e]; [|eexists; reflexivity].
    destruct (traverse board_info l); eexists; reflexivity.
  - unfold _handle_get_board.
    destruct (negb (set_int _)); [eexists; reflexivity|].
    unfold callT, bindT, try_exceptT, retT.
    destruct (board_client _) as [response|e]; [|eexists; reflexivity].
    destruct (success response); eexists; reflexivity.
Qed.

(** A message about boards (that mentions no epic and no sprint) is always
    answered: the endpoint never raises HTTPException for it, whatever the
    board client returns or raises, and it makes no call on the epic and
    sprint client and no search. *)
Theorem board_query_always_answered
    (log : list Chatbot.ChatMessage) (now1 now2 now message : string) :
  ci_occurs "epic" message = false ->
  ci_occurs "sprint" message = false ->
  ci_occurs "board" message = true ->
  exists model log',
    endpoint log now1 now2 now message =
      (map BoardEvent (callsT (handle_board_query board_client message)),
       Answer model, log').
Proof.
  intros He Hs Hb. unfold endpoint, chat.
  change ["epic"; "epics"] with ["epic"; ("epic" ++ "s")%string].
  change ["sprint"; "sprints"] with ["sprint"; ("sprint" ++ "s")%string].
  change ["board"; "boards"] with ["board"; ("board" ++ "s")%string].
  rewrite !mentions by reflexivity. rewrite He, Hs, Hb.
  unfold board_branch, callsT.
  destruct (board_query_returns message) as (r & Hr).
  pose proof (board_result_shape message) as Hshape.
  destruct (handle_board_query board_client message) as [t o].
  cbn [snd] in Hr. subst o. cbn [fst].
  assert (Hq : forall ctx, exists model log',
    match Chatbot.process_query pipeline encoded_length log now1 now2
            message ctx with
    | Ok (r, log') => (map BoardEvent t, Answer (model_of r now), log')
    | Raise e =>
        (map BoardEvent t,
         HTTPException 500 ("Error processing chat request: " ++ exn_msg e)%string,
         log)
    end = (map BoardEvent t, Answer model, log')).
  { intros ctx.
    destruct (process_query_value pipeline encoded_length log now1 now2
                message ctx) as (text & ->).
    eexists. eexists. reflexivity. }
  destruct r as [type_ data_ text | error_ text]; [|apply Hq].
  destruct (String.eqb_spec type_ "boards_list") as [-> | Hne]; [|apply Hq].
  destruct (Hshape t data_ text eq_refl) as (infos & -> & Hinfos).
  destruct (lines_of_infos infos Hinfos) as (lines & Hl).
  cbn [iterate bind len]. rewrite Hl. cbn [bind].
  eexists. eexists. reflexivity.
Qed.

End Endpoint.

Lemma epic_has_precedence_witness :
  ~ In (BoardEvent get_boards)
       (fst (fst (chat client_creating client_two_boards no_documents None
                       (fun _ => Ok 0) (fun _ => "") [] "t1" "t2" "t3"
                       "list the sprints and boards of the epic"))).
Proof.
  exact (proj1 (proj2 (epic_has_precedence client_creating client_two_boards
                  no_documents None (fun _ => Ok 0) (fun _ => "") [] "t1" "t2" "t3"
                  "list the sprints and boards of the epic" eq_refl)) get_boards).
Defined.

Lemma board_query_always_answered_witness :
  exists model log',
    chat client_creating client_two_boards no_documents None (fun _ => Ok 0)
         (fun _ => "") [] "t1" "t2" "t3" "Show board 123"
    = ([BoardEvent get_boards], Answer model, log').
Proof.
  exact (board_query_always_answered client_creating client_two_boards
           no_documents None (fun _ => Ok 0) (fun _ => "") [] "t1" "t2" "t3"
           "Show board 123" eq_refl eq_refl eq_refl).
Defined.

Lemma created_epic_answered_directly_witness :
  exists events model log,
    chat client_creating client_two_boards no_documents None (fun _ => Ok 0)
         (fun _ => "") [] "t1" "t2" "t3"
         "Create epic in DEMO with title Test Epic"
    = (events, Answer model, log)
    /\ response model =
       (check_mark ++ " Successfully created epic in project DEMO (Epic: DEMO-7)")%string
    /\ log = [].
Proof.
  do 3 eexists. split.
  - apply (created_epic_answered_directly client_creating client_two_boards
             no_documents None (fun _ => Ok 0) (fun _ => "") [] "t1" "t2" "t3"
             "Create epic in DEMO with title Test Epic"
             [MCP.create_epic "DEMO" "Test Epic" ""]
             [("id", PStr "10001"); ("key", PStr "DEMO-7")]
             "Successfully created epic in project DEMO");
      reflexivity.
  - split; reflexivity.
Defined.

Lemma handler_exception_is_500_witness :
  chat client_creating client_two_boards no_documents None (fun _ => Ok 0)
       (fun _ => "") [] "t1" "t2" "t3" "Create epic"
  = ([], HTTPException 500 "Error processing chat request: list index out of range",
     []).
Proof.
  apply (handler_exception_is_500 client_creating client_two_boards
           no_documents None (fun _ => Ok 0) (fun _ => "") [] "t1" "t2" "t3"
           "Create epic" [] (Exn IndexError "list index out of range"));
    reflexivity.
Defined.

Lemma failed_operation_uses_documentation_witness :
  exists r log',
    Chatbot.process_query None (fun _ => Ok 0) [] "t1" "t2"
      "How do I create an epic?"
      (Some "Documentation: Found 2 relevant documentation sections")
    = Ok (r, log')
    /\ chat client_creating client_two_boards two_documents None (fun _ => Ok 0)
            (fun _ => "") [] "t1" "t2" "t3" "How do I create an epic?"
       = ([Search "epic create manage track issues"], Answer (model_of r "t3"), log').
Proof.
  apply (failed_operation_uses_documentation client_creating client_two_boards
           two_documents None (fun _ => Ok 0) (fun _ => "") [] "t1" "t2" "t3"
           "How do I create an epic?" []
           (Some "Project key required")
           "To create an epic, please specify a project key. Example: 'Create epic in PROJECT-123 with title My Epic'"
           [PDict [("content", PStr "Epics group work.")];
            PDict [("content", PStr "Sprints are time boxes.")]]);
    reflexivity.
Defined.

Lemma general_query_only_searches_witness :
  exists r log' external_context,
    Chatbot.process_query None (fun _ => Ok 0) [] "t1" "t2" "Hello there"
      external_context = Ok (r, log')
    /\ chat client_creating client_two_boards no_documents None (fun _ => Ok 0)
            (fun _ => "") [] "t1" "t2" "t3" "Hello there"
       = ([Search "Hello there"], Answer (model_of r "t3"), log')
    /\ (@nil pyval = [] -> external_context = None).
Proof.
  apply (general_query_only_searches client_creating client_two_boards
           no_documents None (fun _ => Ok 0) (fun _ => "") [] "t1" "t2" "t3"
           "Hello there" []); reflexivity.
Defined.

End MainProps.

(** ** Properties of the link discovery and of the Ollama client *)

Module ScraperProps.
Import Py PyMore Links Ollama PyFacts ChatbotProps ConversationProps.

Lemma keep_link_in (links : list string) (href link : string) :
  In link (keep_link links href) <->
  In link links
  \/ (href = link
      /\ startswith link "/" = false /\ startswith link "http" = true
      /\ contains "support.atlassian.com" link = true
      /\ contains "jira-software-cloud" link = true).
Proof.
  unfold keep_link.
  destruct (startswith href "/") eqn:E1;
    [|destruct (startswith href "http") eqn:E2;
      [destruct (contains "support.atlassian.com" href) eqn:E3;
       destruct (contains "jira-software-cloud" href) eqn:E4|]];
    cbn [andb]; rewrite ?in_app_iff; cbn [In];
    split; intros H; intuition (subst; congruence).
Qed.

Lemma kept_links (hrefs links : list string) (link : string) :
  In link (fold_left keep_link hrefs links) <->
  In link links
  \/ (In link hrefs
      /\ startswith link "/" = false /\ startswith link "http" = true
      /\ contains "support.atlassian.com" link = true
      /\ contains "jira-software-cloud" link = true).
Proof.
  revert links. induction hrefs as [|href hrefs IH]; intros links.
  - cbn [fold_left In]. tauto.
  - cbn [fold_left In]. rewrite IH, keep_link_in. tauto.
Qed.

(** The discovered pages are the links of the page that start with "http"
    and name both "support.atlassian.com" and "jira-software-cloud", each
    once. A link relative to the site (starting with "/") is made absolute
    and then left out: the pages returned are all among the links as the
    page has them, and none starts with "/". A page that cannot be read
    gives no link. *)
Theorem relative_links_left_out (hrefs : list string) (link : string) (e : exn) :
  (In link (discover_documentation_pages (Ok hrefs)) <->
   In link hrefs
   /\ startswith link "http" = true
   /\ contains "support.atlassian.com" link = true
   /\ contains "jira-software-cloud" link = true)
  /\ (In link (discover_documentation_pages (Ok hrefs)) ->
      startswith link "/" = false)
  /\ NoDup (discover_documentation_pages (Ok hrefs))
  /\ discover_documentation_pages (Raise e) = [].
Proof.
  unfold discover_documentation_pages. cbn [bind try_except].
  unfold list_of_set. rewrite nodup_In, kept_links.
  split; [|split; [|split; [apply NoDup_nodup | reflexivity]]].
  - split.
    + intros [[] | (H & _ & Hc)]. now split.
    + intros (H & Hh & Hc). right. split; [exact H|]. split; [|now split].
      unfold startswith in *. destruct link as [|c link]; [discriminate|].
      cbn [String.prefix] in Hh.
      destruct (ascii_dec "h" c) as [E|]; [subst c | discriminate].
      reflexivity.
  - intros [[] | (_ & H & _)]. exact H.
Qed.

Lemma relative_links_left_out_witness :
  ~ In "https://support.atlassian.com/jira-software-cloud/docs/"
       (discover_documentation_pages
          (Ok ["/jira-software-cloud/docs/";
               "https://support.atlassian.com/jira-software-cloud/resources/"])).
Proof.
  intros H.
  apply (proj1 (proj1 (relative_links_left_out
           ["/jira-software-cloud/docs/";
            "https://support.atlassian.com/jira-software-cloud/resources/"]
           "https://support.atlassian.com/jira-software-cloud/docs/"
           (Exn RuntimeError "")))) in H.
  destruct H as ([H | [H | []]] & _); discriminate.
Defined.

Section OllamaClient.

Variable base_url : string.
Variable model : string.
Variable post : string -> string -> string -> Posted.

Let ask := Ollama.generate_response base_url model post.

Lemma ask_failed (history : list OllamaMessage) (prompt context text : string) :
  post (base_url ++ "/api/generate")%string model prompt = RequestException text ->
  ask history prompt context =
    (history ++ [{| role := "user"; content := PStr prompt |}],
     Ok (PStr (Chatbot._generate_fallback_response prompt))).
Proof.
  intros H. unfold ask, Ollama.generate_response, Ollama._make_request.
  cbv zeta. rewrite H. reflexivity.
Qed.

(** The Ollama client does not send the context: its answer and its log
    are the same for every context. A request that fails leaves the user
    turn in the log and does not cut the log, so that while the server
    cannot be reached the log grows by one turn per prompt, beyond the 10
    turns it is cut to after an answer. *)
Theorem ollama_log_grows_on_failure (history : list OllamaMessage) :
  (forall prompt context1 context2,
     ask history prompt context1 = ask history prompt context2)
  /\ (forall prompts,
        (forall prompt, exists text,
           post (base_url ++ "/api/generate")%string model prompt
           = RequestException text) ->
        ask_all base_url model post history prompts =
        history ++ map (fun pc => {| role := "user"; content := PStr (fst pc) |})
                       prompts)
  /\ (forall prompt context body answer,
        post (base_url ++ "/api/generate")%string model prompt = Json body ->
        has_key body "error" = false ->
        dict_find body "response" = Some answer ->
        ask history prompt context =
          (last_n 10 (history ++ [{| role := "user"; content := PStr prompt |};
                                  {| role := "assistant"; content := answer |}]),
           Ok answer)).
Proof.
  split; [reflexivity|]. split.
  - intros prompts Hfail. revert history.
    induction prompts as [|[prompt context] prompts IH]; intros history.
    + simpl. now rewrite app_nil_r.
    + unfold ask_all in *. cbn [fold_left fst snd map].
      destruct (Hfail prompt) as (text & Ht).
      pose proof (ask_failed history prompt context text Ht) as E.
      unfold ask in E. rewrite E. cbn [fst].
      rewrite IH, <- app_assoc. reflexivity.
  - intros prompt context body answer Hp He Hr.
    unfold ask, Ollama.generate_response, Ollama._make_request.
    cbv zeta. rewrite Hp, He. unfold has_key, dict_get. rewrite Hr.
    rewrite <- app_assoc. cbn [app]. f_equal.
    destruct (Ollama.max_history <? _) eqn:E; [reflexivity|].
    apply Nat.ltb_ge in E. symmetry. now apply last_n_short.
Qed.

End OllamaClient.

Lemma ollama_log_grows_on_failure_witness :
  length (ask_all "http://localhost:11434" "llama2" unreachable []
            (map (fun n => (str_of_nat n, "")) (seq 0 12))) = 12.
Proof.
  rewrite (proj1 (proj2 (ollama_log_grows_on_failure
                           "http://localhost:11434" "llama2" unreachable [])));
    [reflexivity|].
  intros prompt. now exists "Connection refused".
Defined.

End ScraperProps.
